(** * Octodet Elasticsearch MCP server: tool handlers and service layer

    A shallow embedding of [src/index.ts] (configuration schema and the
    sixteen tool handlers) and of [src/utils/elasticsearchService.ts]
    (the [ElasticsearchService] class), followed by the properties of
    the dispatch layer: configuration validation, the bulk compiler and
    summary, the query-scoped mutation reports and the catch boundary of
    every handler.

    Conventions of the embedding.
    - A JavaScript string is the [string] of its UTF-8 encoding; the
      handlers only test strings for emptiness, compare, concatenate and
      trim them, which the encoding preserves.
    - A number whose value is an integer is [Js.Num]; the numbers the
      handlers print are counts, positions, status codes and times, in the
      safe range, where [String(n)] is the decimal numeral. A finite number
      that is not an integer (a score, say) is [Js.Float], given by the
      text [String(n)] renders.
    - A value of TypeScript type [any] is a [Js.value]; an object is the
      list of its own enumerable properties in [Object.keys] order.
    - An optional field or argument ([x?: T], [z.optional()]) is an
      [option]; [None] is JavaScript's [undefined].
    - The handlers are [async] functions that await one promise at a
      time; they are embedded as sequential computations in the monad
      [M], whose state records the requests sent to the Elasticsearch
      client and the lines written with [console.error]. *)

From Stdlib Require Import String Ascii List ZArith Bool Lia DecimalString.
Import ListNotations.
Local Open Scope list_scope.
Local Open Scope string_scope.
#[local] Set Warnings "-register-all".

(** ** JavaScript values *)

Module Js.

Inductive value : Type :=
| Undefined
| Null
| Bool (b : bool)
| Num (n : Z)
| Float (rendering : string)
| Str (s : string)
| Arr (items : list value)
| Obj (fields : list (string * value)).

(** [Record<string, any>]: own enumerable properties, in key order. *)
Definition record : Type := list (string * value).

(** ToBoolean: the falsy values are [undefined], [null], [false], [0]
    and the empty string; a [Float] is not zero. *)
Definition truthy (v : value) : bool :=
  match v with
  | Undefined | Null => false
  | Bool b => b
  | Num n => negb (n =? 0)%Z
  | Float _ => true
  | Str s => negb (s =? "")
  | Arr _ | Obj _ => true
  end.

(** [o[k]] on a record: the property's value, [undefined] when the
    record has no such property. *)
Fixpoint lookup (k : string) (fields : record) : value :=
  match fields with
  | [] => Undefined
  | (k', v) :: rest => if k' =? k then v else lookup k rest
  end.

(** [v.k] for a [v] that is neither [undefined] nor [null] (the
    handlers read properties only behind a truthiness test or through
    [?.]) and a [k] that no built-in prototype defines: only objects
    carry such a property. *)
Definition get (v : value) (k : string) : value :=
  match v with
  | Obj fields => lookup k fields
  | _ => Undefined
  end.

(** [a || b] *)
Definition or (a b : value) : value := if truthy a then a else b.

(** [Object.keys(o)] *)
Definition keys (fields : record) : list string := map fst fields.

(** The names every object inherits from [Object.prototype]. *)
Definition object_prototype_members : list string :=
  [ "constructor"; "__defineGetter__"; "__defineSetter__"; "hasOwnProperty";
    "__lookupGetter__"; "__lookupSetter__"; "isPrototypeOf";
    "propertyIsEnumerable"; "toString"; "valueOf"; "__proto__";
    "toLocaleString" ].

(** [k in o] for an object with the own keys [own]: an own or an
    inherited property. *)
Definition has_property (k : string) (own : list string) : bool :=
  existsb (String.eqb k) own || existsb (String.eqb k) object_prototype_members.

(** Decimal rendering of an integer, as [String(n)] gives it. *)
Definition dec (n : Z) : string := NilZero.string_of_int (Z.to_int n).

(** [String(v)], which is also how a template literal renders [v]. *)
Fixpoint to_string (v : value) : string :=
  match v with
  | Undefined => "undefined"
  | Null => "null"
  | Bool true => "true"
  | Bool false => "false"
  | Num n => dec n
  | Float rendering => rendering
  | Str s => s
  | Arr items =>
      String.concat ","
        (map (fun x => match x with
                       | Undefined | Null => ""
                       | _ => to_string x
                       end) items)
  | Obj _ => "[object Object]"
  end.

(** An optional string read as a value. *)
Definition of_option_string (o : option string) : value :=
  match o with Some s => Str s | None => Undefined end.

Definition of_option_Z (o : option Z) : value :=
  match o with Some n => Num n | None => Undefined end.

(** White space and line terminators that [String.prototype.trim]
    strips: TAB, LF, VT, FF, CR and SP, one byte each; *)
Definition is_white_space (c : ascii) : bool :=
  let n := nat_of_ascii c in
  (n =? 9)%nat || (n =? 10)%nat || (n =? 11)%nat || (n =? 12)%nat
  || (n =? 13)%nat || (n =? 32)%nat.

(** U+00A0, encoded as C2 A0; *)
Definition is_white_space_2 (c1 c2 : ascii) : bool :=
  (nat_of_ascii c1 =? 194)%nat && (nat_of_ascii c2 =? 160)%nat.

(** U+1680 (E1 9A 80), U+2000 to U+200A (E2 80 80 to E2 80 8A), U+2028
    and U+2029 (E2 80 A8, E2 80 A9), U+202F (E2 80 AF), U+205F (E2 81 9F),
    U+3000 (E3 80 80) and U+FEFF (EF BB BF). *)
Definition is_white_space_3 (c1 c2 c3 : ascii) : bool :=
  let n1 := nat_of_ascii c1 in
  let n2 := nat_of_ascii c2 in
  let n3 := nat_of_ascii c3 in
  ((n1 =? 225)%nat && (n2 =? 154)%nat && (n3 =? 128)%nat)
  || ((n1 =? 226)%nat && (n2 =? 128)%nat
      && (((128 <=? n3)%nat && (n3 <=? 138)%nat)
          || (n3 =? 168)%nat || (n3 =? 169)%nat || (n3 =? 175)%nat))
  || ((n1 =? 226)%nat && (n2 =? 129)%nat && (n3 =? 159)%nat)
  || ((n1 =? 227)%nat && (n2 =? 128)%nat && (n3 =? 128)%nat)
  || ((n1 =? 239)%nat && (n2 =? 187)%nat && (n3 =? 191)%nat).

(** The rest of [s] after the white space character it starts with. *)
Definition skip_white_space (s : string) : option string :=
  match s with
  | String c1 r1 =>
      if is_white_space c1 then Some r1
      else
        match r1 with
        | String c2 r2 =>
            if is_white_space_2 c1 c2 then Some r2
            else
              match r2 with
              | String c3 r3 => if is_white_space_3 c1 c2 c3 then Some r3 else None
              | EmptyString => None
              end
        | EmptyString => None
        end
  | EmptyString => None
  end.

Fixpoint trimStart (s : string) : string :=
  match s with
  | String c1 r1 =>
      if is_white_space c1 then trimStart r1
      else
        match r1 with
        | String c2 r2 =>
            if is_white_space_2 c1 c2 then trimStart r2
            else
              match r2 with
              | String c3 r3 => if is_white_space_3 c1 c2 c3 then trimStart r3 else s
              | EmptyString => s
              end
        | EmptyString => s
        end
  | EmptyString => EmptyString
  end.

(** The string holds white space only. *)
Definition all_white_space (s : string) : bool :=
  match trimStart s with EmptyString => true | String _ _ => false end.

(** What is left of [s] before its trailing white space. *)
Fixpoint trimEnd (s : string) : string :=
  match s with
  | String c rest =>
      if all_white_space s then EmptyString else String c (trimEnd rest)
  | EmptyString => EmptyString
  end.

Definition trim (s : string) : string := trimEnd (trimStart s).

(** [xs.slice(0, n)] *)
Definition slice0 {A : Type} (n : nat) (xs : list A) : list A := firstn n xs.

End Js.

(** ** Configuration ([ElasticsearchConfig], [ConfigSchema]) *)

Record ElasticsearchConfig : Type := {
  url : string;
  apiKey : option string;
  username : option string;
  password : option string;
  caCert : option string;
  pathPrefix : option string;
  version : option string;
  sslSkipVerify : option bool
}.

(** One issue of a [ZodError]: its message and the path it is attached to. *)
Record ZodIssue : Type := {
  issue_message : string;
  issue_path : list string
}.

(** The [.transform] of the [version] field. *)
Definition version_transform (val : option string) : option string :=
  let v := match val with Some s => s | None => "" end in
  if existsb (String.eqb v) ["8"; "9"] then val else Some "8".

(** The predicate given to [.refine]. *)
Definition auth_refinement (data : ElasticsearchConfig) : bool :=
  match apiKey data with
  | Some _ => true
  | None =>
      match username data with
      | Some _ => match password data with Some _ => true | None => false end
      | None => true
      end
  end.

Definition auth_refinement_message : string :=
  "Either ES_API_KEY or both ES_USERNAME and ES_PASSWORD must be provided, or no auth for local development".

(** [ConfigSchema.parse(config)]: the parsed configuration, or the
    issues of the [ZodError] it throws. A failed [min] check leaves the
    parsed object in place, so the refinement still runs on it and may
    add its own issue. *)
Definition ConfigSchema_parse (config : ElasticsearchConfig)
  : list ZodIssue + ElasticsearchConfig :=
  let data := {| url := Js.trim (url config);
                 apiKey := apiKey config;
                 username := username config;
                 password := password config;
                 caCert := caCert config;
                 pathPrefix := pathPrefix config;
                 version := version_transform (version config);
                 sslSkipVerify := sslSkipVerify config |} in
  let url_issues :=
    if (String.length (url data) <? 1)%nat
    then [ {| issue_message := "Elasticsearch URL cannot be empty";
              issue_path := ["url"] |} ]
    else [] in
  let auth_issues :=
    if auth_refinement data then []
    else [ {| issue_message := auth_refinement_message;
              issue_path := ["username"; "password"] |} ] in
  match (url_issues ++ auth_issues)%list with
  | [] => inr data
  | issues => inl issues
  end.

(** The validator accepts a configuration when [parse] does not throw. *)
Definition config_accepted (config : ElasticsearchConfig) : bool :=
  match ConfigSchema_parse config with inr _ => true | inl _ => false end.

(** ** Requests and responses of the Elasticsearch client

    The client ([@elastic/elasticsearch]) is an external collaborator:
    each of its methods takes a request and returns a promise that
    either resolves with a response object or rejects. A response has
    the shape [types.ts] declares for it where it declares one
    ([SearchResult], [UpdateByQueryResult], [BulkOperationResult]) and is
    an object of [any] values otherwise. *)

Inductive Conflicts : Type := abort | proceed.

(** The [params] object that [addDocument] builds for [client.index];
    [index_id = None] when the object has no [id] key. *)
Record IndexParams : Type := {
  index_index : string;
  index_document : Js.record;
  index_id : option string
}.

(** The [params] object of the [update_by_query] handler. *)
Record UpdateByQueryParams : Type := {
  ubq_index : string;
  ubq_body_query : Js.record;
  ubq_body_script_source : string;
  ubq_body_script_params : option Js.record;
  ubq_refresh : bool;
  ubq_conflicts : option Conflicts;
  ubq_max_docs : option Z
}.

(** The [params] object of the [delete_by_query] handler. *)
Record DeleteByQueryParams : Type := {
  dbq_index : string;
  dbq_body_query : Js.record;
  dbq_refresh : bool;
  dbq_conflicts : option Conflicts;
  dbq_max_docs : option Z
}.

(** The request object that [ElasticsearchService.bulk] builds. *)
Record BulkParams : Type := {
  bulk_refresh : bool;
  bulk_pipeline : option string;
  bulk_operations : list Js.value
}.

(** [UpdateByQueryResult] of [types.ts], which both query-scoped
    mutations read; [updated] is optional here because a delete-by-query
    response carries [deleted] instead. *)
Record FailureCause : Type := {
  cause_type : option string;
  cause_reason : option string
}.

Record QueryFailure : Type := {
  failure_id : option string;
  failure_cause : option FailureCause
}.

Record UpdateByQueryResult : Type := {
  took : Z;
  total : Z;
  updated : option Z;
  deleted : option Z;
  failures : option (list QueryFailure);
  version_conflicts : option Z;
  task : option string
}.

(** [BulkOperationResult] of [types.ts]. *)
Record BulkOperationResult : Type := {
  bulk_took : Z;
  bulk_errors : bool;
  bulk_items : list Js.record
}.

(** [SearchResult] of [types.ts]; [hits.total] is read through [?.] and
    [??], so it is optional here; a score is any number ([Js.Num] or
    [Js.Float]) or [null]. *)
Inductive HitsTotal : Type :=
| TotalNumber (n : Z)
| TotalObject (value : Z) (relation : string).

Record SearchHit : Type := {
  hit_id : string;
  hit_score : Js.value;
  hit_source : option Js.record;
  hit_highlight : option (list (string * list string))
}.

Record SearchResult : Type := {
  hits_total : option HitsTotal;
  hits_hits : list SearchHit;
  aggregations : option Js.record
}.

(** One request to the client: the method called and its argument. *)
Inductive ClientCall : Type :=
| client_cat_indices (index format h : string)
| client_indices_getMapping (index : string)
| client_cluster_health
| client_cat_shards (index : option string) (format : string)
| client_search (params : Js.record)
| client_index (params : IndexParams)
| client_update (index id : string) (doc : Js.record)
| client_delete (index id : string)
| client_updateByQuery (params : UpdateByQueryParams)
| client_deleteByQuery (params : DeleteByQueryParams)
| client_bulk (params : BulkParams)
| client_indices_getIndexTemplate (name : option string)
| client_indices_getAlias (name : option string)
| client_indices_create (index : string) (body : option Js.record)
| client_indices_delete (index : string)
| client_count (index : string) (query : option Js.record).

(** The type of the response each method resolves with. *)
Definition Response (call : ClientCall) : Type :=
  match call with
  | client_cat_indices _ _ _ | client_cat_shards _ _ => list Js.record
  | client_search _ => SearchResult
  | client_updateByQuery _ | client_deleteByQuery _ => UpdateByQueryResult
  | client_bulk _ => BulkOperationResult
  | client_indices_getMapping _ | client_cluster_health
  | client_index _ | client_count _ _ => Js.record
  | _ => Js.value
  end.

(** ** Thrown values *)

Inductive Thrown : Type :=
| ErrorObject (message : string)   (* an instance of [Error] *)
| ThrownValue (v : Js.value).      (* any other thrown value *)

(** [error instanceof Error ? error.message : String(error)] *)
Definition error_text (error : Thrown) : string :=
  match error with
  | ErrorObject message => message
  | ThrownValue v => Js.to_string v
  end.

(** A client answers every request by resolving or by rejecting. *)
Definition Client : Type := forall call : ClientCall, Thrown + Response call.

(** ** The monad of handler computations *)

Record World : Type := {
  requests : list ClientCall;   (* requests sent to the client, oldest first *)
  stderr : list string          (* lines written by [console.error] *)
}.

Definition initial_world : World := {| requests := []; stderr := [] |}.

Definition M (A : Type) : Type := World -> World * (Thrown + A).

Definition ret {A : Type} (a : A) : M A := fun w => (w, inr a).

Definition bind {A B : Type} (c : M A) (k : A -> M B) : M B :=
  fun w => match c w with
           | (w', inr a) => k a w'
           | (w', inl e) => (w', inl e)
           end.

Definition throw {A : Type} (e : Thrown) : M A := fun w => (w, inl e).

(** [try { body } catch (error) { handler }] *)
Definition try_catch {A : Type} (body : M A) (handler : Thrown -> M A) : M A :=
  fun w => match body w with
           | (w', inr a) => (w', inr a)
           | (w', inl e) => handler e w'
           end.

Definition console_error (line : string) : M unit :=
  fun w => ({| requests := requests w; stderr := (stderr w ++ [line])%list |}, inr tt).

(** [await client.method(request)] *)
Definition await (client : Client) (call : ClientCall) : M (Response call) :=
  fun w => ({| requests := (requests w ++ [call])%list; stderr := stderr w |}, client call).

Declare Scope monad_scope.
Delimit Scope monad_scope with monad.
Notation "x <- c ;; k" := (bind c (fun x => k))
  (at level 61, c at next level, right associativity) : monad_scope.
Notation "c ;;; k" := (bind c (fun _ => k))
  (at level 61, right associativity) : monad_scope.
Local Open Scope monad_scope.

(** ** Response envelope ([types.ts]) *)

Record TextContent : Type := {
  type : string;
  text : string
}.

Record ResponseContent : Type := {
  content : list TextContent
}.

Definition text_fragment (s : string) : TextContent :=
  {| type := "text"; text := s |}.

(** The line feed of the template literals. *)
Definition nl : string := String "010"%char EmptyString.

(** [xs.length] in a template literal. *)
Definition length_text {A : Type} (xs : list A) : string :=
  Js.dec (Z.of_nat (List.length xs)).

(** [xs.forEach((x, idx) => ...)] where the callback updates variables
    it captures: the captured state is threaded through the iterations;
    [idx] is the position of the first element of [xs]. *)
Fixpoint forEach {A S : Type} (callback : S -> A -> nat -> S)
    (xs : list A) (idx : nat) (s : S) : S :=
  match xs with
  | [] => s
  | x :: rest => forEach callback rest (Datatypes.S idx) (callback s x idx)
  end.

(** [xs.forEach((x, idx) => ...)] where the callback may throw. *)
Fixpoint forEachM {A : Type} (callback : A -> nat -> M unit)
    (xs : list A) (idx : nat) : M unit :=
  match xs with
  | [] => ret tt
  | x :: rest => callback x idx ;;; forEachM callback rest (Datatypes.S idx)
  end.

(** [{ ...target, k: v }]: an existing property keeps its position. *)
Fixpoint set_property (k : string) (v : Js.value) (fields : Js.record) : Js.record :=
  match fields with
  | [] => [(k, v)]
  | (k', v') :: rest =>
      if k' =? k then (k', v) :: rest else (k', v') :: set_property k v rest
  end.

(** [{ ...target, ...source }] *)
Definition spread (target source : Js.record) : Js.record :=
  fold_left (fun acc kv => set_property (fst kv) (snd kv) acc) source target.

Section Server.

(** The client the service was constructed with. *)
Variable client : Client.

(** Runtime functions the handlers call on [any] values:
    [JSON.stringify(value, null, space)] (with [space = 0] for the
    one-argument call) and [parseInt(value, radix)]. *)
Variable JSON_stringify : Js.value -> nat -> string.
Variable parseInt : Js.value -> Z -> Js.value.

(** *** [ElasticsearchService] *)

Definition listIndices (indexPattern : string) : M (list Js.value) :=
  response <- await client
    (client_cat_indices indexPattern "json"
       "index,health,status,docs.count,store.size,pri,rep") ;;
  ret (map (fun index : Js.record =>
         Js.Obj [ ("index", Js.lookup "index" index);
                  ("health", Js.lookup "health" index);
                  ("status", Js.lookup "status" index);
                  ("docsCount",
                   parseInt (Js.or (Js.lookup "docs.count" index) (Js.Str "0")) 10);
                  ("storeSize", Js.or (Js.lookup "store.size" index) (Js.Str "0"));
                  ("primaryShards",
                   parseInt (Js.or (Js.lookup "pri" index) (Js.Str "0")) 10);
                  ("replicaShards",
                   parseInt (Js.or (Js.lookup "rep" index) (Js.Str "0")) 10) ])
       response).

(** [response[index]?.mappings || {}] *)
Definition getMappings (index : string) : M Js.value :=
  response <- await client (client_indices_getMapping index) ;;
  ret (Js.or (match Js.lookup index response with
              | Js.Undefined | Js.Null => Js.Undefined
              | entry => Js.get entry "mappings"
              end)
             (Js.Obj [])).

Definition getClusterHealth : M Js.value :=
  response <- await client client_cluster_health ;;
  ret (Js.Obj [ ("status", Js.lookup "status" response);
                ("nodeCount", Js.lookup "number_of_nodes" response);
                ("datanodeCount", Js.lookup "number_of_data_nodes" response);
                ("activePrimaryShards", Js.lookup "active_primary_shards" response);
                ("activeShards", Js.lookup "active_shards" response);
                ("relocatingShards", Js.lookup "relocating_shards" response);
                ("initializingShards", Js.lookup "initializing_shards" response);
                ("unassignedShards", Js.lookup "unassigned_shards" response);
                ("pendingTasks", Js.lookup "number_of_pending_tasks" response) ]).

Definition getShards (index : option string) : M (list Js.value) :=
  response <- await client (client_cat_shards index "json") ;;
  ret (map (fun shard : Js.record =>
         Js.Obj [ ("index", Js.lookup "index" shard);
                  ("shard", Js.lookup "shard" shard);
                  ("prirep", Js.lookup "prirep" shard);
                  ("state", Js.lookup "state" shard);
                  ("docs", Js.lookup "docs" shard);
                  ("store", Js.lookup "store" shard);
                  ("ip", Js.lookup "ip" shard);
                  ("node", Js.lookup "node" shard) ])
       response).

Definition search (index : string) (queryBody : Js.record) : M SearchResult :=
  await client (client_search (spread [("index", Js.Str index)] queryBody)).

(** [const params = { index, document }; if (id) params.id = id;] *)
Definition addDocument (index : string) (document : Js.record) (id : option string)
  : M Js.record :=
  let params := {| index_index := index; index_document := document; index_id := None |} in
  let params :=
    if Js.truthy (Js.of_option_string id)
    then {| index_index := index_index params;
            index_document := index_document params;
            index_id := id |}
    else params in
  await client (client_index params).

Definition updateDocument (index id : string) (document : Js.record) : M Js.value :=
  await client (client_update index id document).

Definition deleteDocument (index id : string) : M Js.value :=
  await client (client_delete index id).

Definition updateByQuery (params : UpdateByQueryParams) : M UpdateByQueryResult :=
  await client (client_updateByQuery params).

Definition deleteByQuery (params : DeleteByQueryParams) : M UpdateByQueryResult :=
  await client (client_deleteByQuery params).

Definition bulk (operations : list Js.value) (pipeline : option string)
  : M BulkOperationResult :=
  await client (client_bulk {| bulk_refresh := true;
                               bulk_pipeline := pipeline;
                               bulk_operations := operations |}).

Definition getIndexTemplates (name : option string) : M Js.value :=
  await client (client_indices_getIndexTemplate name).

Definition getAliases (name : option string) : M Js.value :=
  await client (client_indices_getAlias name).

(** [settings] and [mappings] are records when given, hence truthy;
    [body] is sent only when it has a key. *)
Definition createIndex (index : string) (settings mappings : option Js.record)
  : M Js.value :=
  let body : Js.record := [] in
  let body := match settings with
              | Some s => (body ++ [("settings", Js.Obj s)])%list
              | None => body
              end in
  let body := match mappings with
              | Some m => (body ++ [("mappings", Js.Obj m)])%list
              | None => body
              end in
  await client
    (client_indices_create index
       (if (0 <? List.length (Js.keys body))%nat then Some body else None)).

Definition deleteIndex (index : string) : M Js.value :=
  await client (client_indices_delete index).

(** [query] is a record when given, hence truthy. *)
Definition countDocuments (index : string) (query : option Js.record) : M Js.value :=
  response <- await client (client_count index query) ;;
  ret (Js.lookup "count" response).

(** *** Tool handlers of [createOctodetElasticsearchMcpServer]

    Each handler takes the arguments the server has already validated
    against the tool's schema. *)

(** The [try] block of the [list_indices] handler. *)
Definition list_indices_try (indexPattern : string)
  : M ResponseContent :=
  indicesInfo <- listIndices indexPattern ;;
  ret {| content :=
           [ text_fragment ("Found " ++ length_text indicesInfo
                            ++ " indices matching pattern '" ++ indexPattern ++ "'");
             text_fragment (JSON_stringify (Js.Arr indicesInfo) 2) ] |}.

(** Tool 1: [list_indices] *)
Definition list_indices (indexPattern : string)
  : M ResponseContent :=
  try_catch
    (list_indices_try indexPattern)
    (fun error =>
       console_error ("Failed to list indices: " ++ error_text error) ;;;
       ret {| content := [ text_fragment ("Error: " ++ error_text error) ] |}).

(** The [try] block of the [get_mappings] handler. *)
Definition get_mappings_try (index : string)
  : M ResponseContent :=
  mappings <- getMappings index ;;
  ret {| content :=
           [ text_fragment ("Mappings for index: " ++ index);
             text_fragment (JSON_stringify mappings 2) ] |}.

(** Tool 2: [get_mappings] *)
Definition get_mappings (index : string)
  : M ResponseContent :=
  try_catch
    (get_mappings_try index)
    (fun error =>
       console_error ("Failed to get mappings: " ++ error_text error) ;;;
       ret {| content := [ text_fragment ("Error: " ++ error_text error) ] |}).

(** The text of one search hit. *)
Definition hit_text (hit : SearchHit) : string :=
  let highlightedFields := match hit_highlight hit with Some h => h | None => [] end in
  let sourceData := match hit_source hit with Some s => s | None => [] end in
  let content :=
    "Document ID: " ++ hit_id hit ++ nl
    ++ "Score: " ++ Js.to_string (hit_score hit) ++ nl ++ nl in
  let content :=
    fold_left (fun content (entry : string * list string) =>
                 let (field, highlights) := entry in
                 if (0 <? List.length highlights)%nat
                 then content ++ field ++ " (highlighted): "
                      ++ String.concat " ... " highlights ++ nl
                 else content)
              highlightedFields content in
  let content :=
    fold_left (fun content (entry : string * Js.value) =>
                 let (field, value) := entry in
                 if negb (Js.has_property field (map fst highlightedFields))
                 then content ++ field ++ ": " ++ JSON_stringify value 0 ++ nl
                 else content)
              sourceData content in
  Js.trim content.

(** The [try] block of the [search] handler. *)
Definition search_tool_try (index : string) (queryBody : Js.record)
  : M ResponseContent :=
  result <- search index queryBody ;;
  let from := match Js.lookup "from" queryBody with
              | Js.Undefined | Js.Null => Js.Num 0
              | v => v
              end in
  let contentFragments : list TextContent := [] in
  let contentFragments :=
    (contentFragments ++
    [ text_fragment
        ("Total results: "
         ++ Js.dec (match hits_total result with
                    | Some (TotalNumber n) => n
                    | Some (TotalObject value _) => value
                    | None => 0%Z
                    end)
         ++ ", showing " ++ length_text (hits_hits result)
         ++ " from position " ++ Js.to_string from) ])%list in
  let contentFragments :=
    match aggregations result with
    | Some aggs =>
        (contentFragments ++
        [ text_fragment ("Aggregations: " ++ JSON_stringify (Js.Obj aggs) 2) ])%list
    | None => contentFragments
    end in
  let contentFragments :=
    forEach (fun fragments hit _ => (fragments ++ [ text_fragment (hit_text hit) ])%list)
            (hits_hits result) 0 contentFragments in
  ret {| content := contentFragments |}.

(** Tool 3: [search] *)
Definition search_tool (index : string) (queryBody : Js.record)
  : M ResponseContent :=
  try_catch
    (search_tool_try index queryBody)
    (fun error =>
       console_error ("Search failed: " ++ error_text error) ;;;
       ret {| content := [ text_fragment ("Error: " ++ error_text error) ] |}).

(** The [try] block of the [get_cluster_health] handler. *)
Definition get_cluster_health_try
  : M ResponseContent :=
  health <- getClusterHealth ;;
  ret {| content :=
           [ text_fragment "Elasticsearch Cluster Health:";
             text_fragment (JSON_stringify health 2) ] |}.

(** Tool 4: [get_cluster_health] *)
Definition get_cluster_health
  : M ResponseContent :=
  try_catch
    get_cluster_health_try
    (fun error =>
       console_error ("Failed to get cluster health: " ++ error_text error) ;;;
       ret {| content := [ text_fragment ("Error: " ++ error_text error) ] |}).

(** The [try] block of the [get_shards] handler. *)
Definition get_shards_try (index : option string)
  : M ResponseContent :=
  shardsInfo <- getShards index ;;
  ret {| content :=
           [ text_fragment
               ("Found " ++ length_text shardsInfo ++ " shards"
                ++ match index with
                   | Some i => if Js.truthy (Js.Str i) then " for index " ++ i else ""
                   | None => ""
                   end);
             text_fragment (JSON_stringify (Js.Arr shardsInfo) 2) ] |}.

(** Tool 5: [get_shards] *)
Definition get_shards (index : option string)
  : M ResponseContent :=
  try_catch
    (get_shards_try index)
    (fun error =>
       console_error ("Failed to get shard information: " ++ error_text error) ;;;
       ret {| content := [ text_fragment ("Error: " ++ error_text error) ] |}).

(** The [try] block of the [add_document] handler. *)
Definition add_document_try (index : string) (id : option string) (document : Js.record)
  : M ResponseContent :=
  response <- addDocument index document id ;;
  ret {| content :=
           [ text_fragment ("Document added to index '" ++ index ++ "' with ID: "
                            ++ Js.to_string (Js.lookup "_id" response)) ] |}.

(** Tool 6: [add_document] *)
Definition add_document (index : string) (id : option string) (document : Js.record)
  : M ResponseContent :=
  try_catch
    (add_document_try index id document)
    (fun error =>
       ret {| content :=
                [ text_fragment ("Error adding document: " ++ error_text error) ] |}).

(** The [try] block of the [update_document] handler. *)
Definition update_document_try (index id : string) (document : Js.record)
  : M ResponseContent :=
  updateDocument index id document ;;;
  ret {| content :=
           [ text_fragment ("Document with ID '" ++ id ++ "' updated in index '"
                            ++ index ++ "'.") ] |}.

(** Tool 7: [update_document] *)
Definition update_document (index id : string) (document : Js.record)
  : M ResponseContent :=
  try_catch
    (update_document_try index id document)
    (fun error =>
       ret {| content :=
                [ text_fragment ("Error updating document: " ++ error_text error) ] |}).

(** The [try] block of the [delete_document] handler. *)
Definition delete_document_try (index id : string)
  : M ResponseContent :=
  deleteDocument index id ;;;
  ret {| content :=
           [ text_fragment ("Document with ID '" ++ id ++ "' deleted from index '"
                            ++ index ++ "'.") ] |}.

(** Tool 8: [delete_document] *)
Definition delete_document (index id : string)
  : M ResponseContent :=
  try_catch
    (delete_document_try index id)
    (fun error =>
       ret {| content :=
                [ text_fragment ("Error deleting document: " ++ error_text error) ] |}).

(** *** Query-scoped mutations *)

Record Script : Type := {
  source : string;
  params : option Js.record
}.

(** One line of the failure list of [update_by_query]; [index] is the
    position of the failure in the slice. *)
Definition update_failure_line (failure : QueryFailure) (index : nat) : string :=
  nl ++ Js.dec (Z.of_nat index + 1) ++ ". ID: "
  ++ Js.to_string (Js.of_option_string (failure_id failure))
  ++ ", Reason: "
  ++ Js.to_string
       (Js.or (match failure_cause failure with
               | Some cause => Js.of_option_string (cause_reason cause)
               | None => Js.Undefined
               end)
              (Js.Str "Unknown")).

(** One line of the failure list of [delete_by_query]. *)
Definition delete_failure_line (failure : QueryFailure) (idx : nat) : string :=
  nl ++ Js.dec (Z.of_nat idx + 1) ++ ". ID: "
  ++ Js.to_string (Js.or (Js.of_option_string (failure_id failure)) (Js.Str "unknown"))
  ++ ", Reason: "
  ++ Js.to_string
       (Js.or (match failure_cause failure with
               | Some cause => Js.of_option_string (cause_reason cause)
               | None => Js.Undefined
               end)
              (Js.Str "Unknown")).

(** [response.failures?.length || 0] *)
Definition failures_length (response : UpdateByQueryResult) : Z :=
  match failures response with
  | Some fs => Z.of_nat (List.length fs)
  | None => 0
  end.

(** The counts that open the report of [update_by_query]. *)
Definition update_by_query_counts (index : string) (response : UpdateByQueryResult)
  : string :=
  let resultText :=
    "Update by query completed successfully in index '" ++ index ++ "':" ++ nl in
  let resultText :=
    resultText ++ "- Total documents processed: " ++ Js.dec (total response) ++ nl in
  let resultText :=
    resultText ++ "- Documents updated: "
    ++ Js.to_string (Js.of_option_Z (updated response)) ++ nl in
  let resultText :=
    resultText ++ "- Documents that failed: " ++ Js.dec (failures_length response) ++ nl in
  resultText ++ "- Time taken: " ++ Js.dec (took response) ++ "ms".

(** [resultText] of the [update_by_query] handler. *)
Definition update_by_query_text (index : string) (response : UpdateByQueryResult)
  : string :=
  let resultText := update_by_query_counts index response in
  match failures response with
  | Some fs =>
      if (0 <? List.length fs)%nat then
        let resultText := resultText ++ nl ++ nl ++ "Failures:" in
        let resultText :=
          forEach (fun resultText failure index =>
                     resultText ++ update_failure_line failure index)
                  (Js.slice0 5 fs) 0 resultText in
        if (5 <? List.length fs)%nat then
          resultText ++ nl ++ "...and " ++ Js.dec (Z.of_nat (List.length fs) - 5)
          ++ " more failures."
        else resultText
      else resultText
  | None => resultText
  end.

(** The [try] block of the [update_by_query] handler. [refresh !== false]
    is [true] for an undefined flag too; [conflicts] is a non-empty
    string when given, hence truthy. *)
Definition update_by_query_try (index : string) (query : Js.record) (script : Script)
    (conflicts : option Conflicts) (maxDocs : option Z) (refresh : option bool)
  : M ResponseContent :=
  let params :=
    {| ubq_index := index;
       ubq_body_query := query;
       ubq_body_script_source := source script;
       ubq_body_script_params := params script;
       ubq_refresh := match refresh with Some false => false | _ => true end;
       ubq_conflicts := conflicts;
       ubq_max_docs :=
         if Js.truthy (Js.of_option_Z maxDocs) then maxDocs else None |} in
  response <- updateByQuery params ;;
  ret {| content := [ text_fragment (update_by_query_text index response) ] |}.

(** Tool 9: [update_by_query] *)
Definition update_by_query (index : string) (query : Js.record) (script : Script)
    (conflicts : option Conflicts) (maxDocs : option Z) (refresh : option bool)
  : M ResponseContent :=
  try_catch
    (update_by_query_try index query script conflicts maxDocs refresh)
    (fun error =>
       console_error ("Update by query failed: " ++ error_text error) ;;;
       ret {| content := [ text_fragment ("Error: " ++ error_text error) ] |}).

(** The counts that open the report of [delete_by_query]. *)
Definition delete_by_query_counts (index : string) (response : UpdateByQueryResult)
  : string :=
  let resultText :=
    "Delete by query completed successfully in index '" ++ index ++ "':" ++ nl in
  let resultText :=
    resultText ++ "- Total documents processed: " ++ Js.dec (total response) ++ nl in
  let resultText :=
    resultText ++ "- Documents deleted: "
    ++ Js.to_string (Js.of_option_Z (deleted response)) ++ nl in
  let resultText :=
    resultText ++ "- Deletion failures: " ++ Js.dec (failures_length response) ++ nl in
  let resultText := resultText ++ "- Time taken: " ++ Js.dec (took response) ++ "ms" in
  match version_conflicts response with
  | Some n =>
      if Js.truthy (Js.Num n) && (0 <? n)%Z
      then resultText ++ nl ++ "- Version conflicts: " ++ Js.dec n
      else resultText
  | None => resultText
  end.

(** [resultText] of the [delete_by_query] handler. *)
Definition delete_by_query_text (index : string) (response : UpdateByQueryResult)
  : string :=
  let resultText := delete_by_query_counts index response in
  match failures response with
  | Some fs =>
      if (0 <? List.length fs)%nat then
        let resultText := resultText ++ nl ++ nl ++ "Failures:" in
        let resultText :=
          forEach (fun resultText failure idx =>
                     resultText ++ delete_failure_line failure idx)
                  (Js.slice0 5 fs) 0 resultText in
        if (5 <? List.length fs)%nat then
          resultText ++ nl ++ "...and " ++ Js.dec (Z.of_nat (List.length fs) - 5)
          ++ " more failures."
        else resultText
      else resultText
  | None => resultText
  end.

(** The [try] block of the [delete_by_query] handler. *)
Definition delete_by_query_try (index : string) (query : Js.record)
    (conflicts : option Conflicts) (maxDocs : option Z) (refresh : option bool)
  : M ResponseContent :=
  let params :=
    {| dbq_index := index;
       dbq_body_query := query;
       dbq_refresh := match refresh with Some false => false | _ => true end;
       dbq_conflicts := conflicts;
       dbq_max_docs :=
         if Js.truthy (Js.of_option_Z maxDocs) then maxDocs else None |} in
  response <- deleteByQuery params ;;
  ret {| content := [ text_fragment (delete_by_query_text index response) ] |}.

(** Tool 10: [delete_by_query] *)
Definition delete_by_query (index : string) (query : Js.record)
    (conflicts : option Conflicts) (maxDocs : option Z) (refresh : option bool)
  : M ResponseContent :=
  try_catch
    (delete_by_query_try index query conflicts maxDocs refresh)
    (fun error =>
       console_error ("Delete by query failed: " ++ error_text error) ;;;
       ret {| content := [ text_fragment ("Error: " ++ error_text error) ] |}).

(** *** Bulk operations *)

Inductive BulkAction : Type :=
| action_index | action_create | action_update | action_delete.

Definition action_name (a : BulkAction) : string :=
  match a with
  | action_index => "index"
  | action_create => "create"
  | action_update => "update"
  | action_delete => "delete"
  end.

(** [op.action === "..."] *)
Definition action_is (a b : BulkAction) : bool :=
  action_name a =? action_name b.

(** One element of the [operations] argument. *)
Record BulkOperation : Type := {
  op_action : BulkAction;
  op_index : string;
  op_id : option string;
  op_document : option Js.record
}.

(** [op.document] as a value. *)
Definition document_value (op : BulkOperation) : Js.value :=
  match op_document op with Some d => Js.Obj d | None => Js.Undefined end.

(** The callback of the validating [operations.forEach]. *)
Definition validate_operation (op : BulkOperation) (idx : nat) : M unit :=
  (if (action_is (op_action op) action_update
       || action_is (op_action op) action_delete)
      && negb (Js.truthy (Js.of_option_string (op_id op)))
   then throw (ErrorObject
                 ("Operation #" ++ Js.dec (Z.of_nat idx + 1) ++ " ("
                  ++ action_name (op_action op) ++ "): Document ID is required"))
   else ret tt) ;;;
  (if (action_is (op_action op) action_index
       || action_is (op_action op) action_create
       || action_is (op_action op) action_update)
      && negb (Js.truthy (document_value op))
   then throw (ErrorObject
                 ("Operation #" ++ Js.dec (Z.of_nat idx + 1) ++ " ("
                  ++ action_name (op_action op) ++ "): Document body is required"))
   else ret tt).

(** The callback of the [operations.forEach] that builds
    [bulkOperations]. *)
Definition push_operation (bulkOperations : list Js.value) (op : BulkOperation)
  : list Js.value :=
  let actionMeta : Js.record := [("_index", Js.Str (op_index op))] in
  let actionMeta :=
    if Js.truthy (Js.of_option_string (op_id op))
    then (actionMeta ++ [("_id", Js.of_option_string (op_id op))])%list
    else actionMeta in
  let bulkOperations :=
    (bulkOperations ++ [Js.Obj [(action_name (op_action op), Js.Obj actionMeta)]])%list in
  if negb (action_is (op_action op) action_delete) then
    if action_is (op_action op) action_update
    then (bulkOperations ++ [Js.Obj [("doc", document_value op)]])%list
    else (bulkOperations ++ [document_value op])%list
  else bulkOperations.

(** The wire sequence handed to [esService.bulk]. *)
Definition compile_operations (operations : list BulkOperation) : list Js.value :=
  forEach (fun bulkOperations op _ => push_operation bulkOperations op)
          operations 0 [].

(** The [summary] object of the handler. *)
Record BulkSummary : Type := {
  summary_took : Z;
  summary_errors : bool;
  summary_successes : Z;
  summary_failures : Z;
  summary_actionResults : list Js.value
}.

(** [Object.keys(item)[0]]: [undefined] for an item without keys. *)
Definition item_action_type (item : Js.record) : Js.value :=
  Js.of_option_string (nth_error (Js.keys item) 0).

(** [item[actionType]] *)
Definition item_result (item : Js.record) : Js.value :=
  Js.lookup (Js.to_string (item_action_type item)) item.

(** The callback of [response.items.forEach]. *)
Definition summarize_item (summary : BulkSummary) (item : Js.record) (idx : nat)
  : BulkSummary :=
  let actionType := item_action_type item in
  let result := item_result item in
  if negb (Js.truthy result) then summary
  else if Js.truthy (Js.get result "error") then
    {| summary_took := summary_took summary;
       summary_errors := summary_errors summary;
       summary_successes := summary_successes summary;
       summary_failures := summary_failures summary + 1;
       summary_actionResults :=
         (summary_actionResults summary ++
          [ Js.Obj
              [ ("operation", Js.Num (Z.of_nat idx));
                ("action", actionType);
                ("id", Js.or (Js.get result "_id") (Js.Str "unknown"));
                ("index", Js.or (Js.get result "_index") (Js.Str "unknown"));
                ("status", Js.or (Js.get result "status") (Js.Num 0));
                ("error",
                 Js.Obj
                   [ ("type", Js.or (Js.get (Js.get result "error") "type")
                                    (Js.Str "unknown_error"));
                     ("reason", Js.or (Js.get (Js.get result "error") "reason")
                                      (Js.Str "Unknown error")) ]) ] ])%list |}
  else
    {| summary_took := summary_took summary;
       summary_errors := summary_errors summary;
       summary_successes := summary_successes summary + 1;
       summary_failures := summary_failures summary;
       summary_actionResults :=
         (summary_actionResults summary ++
          [ Js.Obj
              [ ("operation", Js.Num (Z.of_nat idx));
                ("action", actionType);
                ("id", Js.or (Js.get result "_id") (Js.Str "unknown"));
                ("index", Js.or (Js.get result "_index") (Js.Str "unknown"));
                ("status", Js.or (Js.get result "status") (Js.Num 0));
                ("result", Js.or (Js.get result "result") (Js.Str "unknown")) ] ])%list |}.

Definition summarize (response : BulkOperationResult) : BulkSummary :=
  forEach summarize_item (bulk_items response) 0
    {| summary_took := bulk_took response;
       summary_errors := bulk_errors response;
       summary_successes := 0;
       summary_failures := 0;
       summary_actionResults := [] |}.

(** One line of the failure list of the bulk report. *)
Definition bulk_failure_line (failure : Js.value) (idx : nat) : string :=
  Js.dec (Z.of_nat idx + 1) ++ ". Operation #"
  ++ Js.to_string (Js.get failure "operation") ++ " ("
  ++ Js.to_string (Js.get failure "action") ++ "): "
  ++ Js.to_string (Js.get (Js.get failure "error") "reason") ++ " ["
  ++ Js.to_string (Js.get (Js.get failure "error") "type") ++ "]" ++ nl.

(** The counts that open the bulk report. *)
Definition bulk_counts (operations : list BulkOperation) (summary : BulkSummary)
  : string :=
  let resultText :=
    "Bulk operation completed in " ++ Js.dec (summary_took summary) ++ "ms" ++ nl in
  let resultText :=
    resultText ++ "- Total operations: " ++ length_text operations ++ nl in
  let resultText :=
    resultText ++ "- Successful: " ++ Js.dec (summary_successes summary) ++ nl in
  resultText ++ "- Failed: " ++ Js.dec (summary_failures summary) ++ nl.

(** [summary.actionResults.filter((r) => r.error)] *)
Definition reported_failures (summary : BulkSummary) : list Js.value :=
  filter (fun r => Js.truthy (Js.get r "error")) (summary_actionResults summary).

(** [resultText] of the [bulk] handler. *)
Definition bulk_text (operations : list BulkOperation) (summary : BulkSummary)
  : string :=
  let resultText := bulk_counts operations summary in
  if (0 <? summary_failures summary)%Z then
    let resultText := resultText ++ nl ++ "Failures:" ++ nl in
    let failures := reported_failures summary in
    let resultText :=
      forEach (fun resultText failure idx =>
                 resultText ++ bulk_failure_line failure idx)
              (Js.slice0 5 failures) 0 resultText in
    if (5 <? List.length failures)%nat then
      resultText ++ "...and " ++ Js.dec (Z.of_nat (List.length failures) - 5)
      ++ " more failures." ++ nl
    else resultText
  else resultText.

(** The [try] block of the [bulk] handler. *)
Definition bulk_tool_try (operations : list BulkOperation) (pipeline : option string)
  : M ResponseContent :=
  forEachM validate_operation operations 0 ;;;
  let bulkOperations := compile_operations operations in
  response <- bulk bulkOperations pipeline ;;
  let summary := summarize response in
  ret {| content := [ text_fragment (bulk_text operations summary) ] |}.

(** Tool 11: [bulk] *)
Definition bulk_tool (operations : list BulkOperation) (pipeline : option string)
  : M ResponseContent :=
  try_catch
    (bulk_tool_try operations pipeline)
    (fun error =>
       console_error ("Bulk operation failed: " ++ error_text error) ;;;
       ret {| content := [ text_fragment ("Error: " ++ error_text error) ] |}).

(** *** Index administration and counting *)

(** The [try] block of the [create_index] handler. *)
Definition create_index_try (index : string) (settings mappings : option Js.record)
  : M ResponseContent :=
  createIndex index settings mappings ;;;
  ret {| content :=
           [ text_fragment ("Index '" ++ index ++ "' created successfully.") ] |}.

(** Tool 12: [create_index] *)
Definition create_index (index : string) (settings mappings : option Js.record)
  : M ResponseContent :=
  try_catch
    (create_index_try index settings mappings)
    (fun error =>
       console_error ("Failed to create index: " ++ error_text error) ;;;
       ret {| content := [ text_fragment ("Error: " ++ error_text error) ] |}).

(** The [try] block of the [delete_index] handler. *)
Definition delete_index_try (index : string)
  : M ResponseContent :=
  deleteIndex index ;;;
  ret {| content :=
           [ text_fragment ("Index '" ++ index ++ "' deleted successfully.") ] |}.

(** Tool 13: [delete_index] *)
Definition delete_index (index : string)
  : M ResponseContent :=
  try_catch
    (delete_index_try index)
    (fun error =>
       console_error ("Failed to delete index: " ++ error_text error) ;;;
       ret {| content := [ text_fragment ("Error: " ++ error_text error) ] |}).

(** The [try] block of the [count_documents] handler. *)
Definition count_documents_try (index : string) (query : option Js.record)
  : M ResponseContent :=
  count <- countDocuments index query ;;
  ret {| content :=
           [ text_fragment
               ("Count of documents in index '" ++ index ++ "'"
                ++ match query with
                   | Some _ => " matching the provided query"
                   | None => ""
                   end
                ++ ": " ++ Js.to_string count) ] |}.

(** Tool 14: [count_documents] *)
Definition count_documents (index : string) (query : option Js.record)
  : M ResponseContent :=
  try_catch
    (count_documents_try index query)
    (fun error =>
       console_error ("Failed to count documents: " ++ error_text error) ;;;
       ret {| content := [ text_fragment ("Error: " ++ error_text error) ] |}).

(** The [try] block of the [get_templates] handler. *)
Definition get_templates_try (name : option string)
  : M ResponseContent :=
  templates <- getIndexTemplates name ;;
  ret {| content :=
           [ text_fragment "Index Templates:";
             text_fragment (JSON_stringify templates 2) ] |}.

(** Tool 15: [get_templates] *)
Definition get_templates (name : option string)
  : M ResponseContent :=
  try_catch
    (get_templates_try name)
    (fun error =>
       console_error ("Failed to get templates: " ++ error_text error) ;;;
       ret {| content := [ text_fragment ("Error: " ++ error_text error) ] |}).

(** The [try] block of the [get_aliases] handler. *)
Definition get_aliases_try (name : option string)
  : M ResponseContent :=
  aliases <- getAliases name ;;
  ret {| content :=
           [ text_fragment "Index Aliases:";
             text_fragment (JSON_stringify aliases 2) ] |}.

(** Tool 16: [get_aliases] *)
Definition get_aliases (name : option string)
  : M ResponseContent :=
  try_catch
    (get_aliases_try name)
    (fun error =>
       console_error ("Failed to get aliases: " ++ error_text error) ;;;
       ret {| content := [ text_fragment ("Error: " ++ error_text error) ] |}).

(** *** Argument schemas of the query-scoped mutations

    The server parses the arguments with the tool's schema before it
    calls the handler; [refresh] is [z.boolean().optional().default(true)].
    The records below are arguments of the declared types: the required
    arguments are present, [query], [script] and [params] are objects,
    [conflicts] is one of the two enum values, [maxDocs] is an integer and
    [refresh] a boolean. On such arguments the schema still trims, checks
    [min(1)] and [positive] and fills the default, which [update_by_query_invoke]
    and [delete_by_query_invoke] do. The type checks themselves, on an
    arbitrary arguments object, are [update_by_query_call] and
    [delete_by_query_call] below. *)

Record UpdateByQueryInput : Type := {
  in_index : string;
  in_query : Js.record;
  in_script : Script;
  in_conflicts : option Conflicts;
  in_maxDocs : option Z;
  in_refresh : option bool
}.

Record DeleteByQueryInput : Type := {
  din_index : string;
  din_query : Js.record;
  din_conflicts : option Conflicts;
  din_maxDocs : option Z;
  din_refresh : option bool
}.

(** [z.string().trim().min(1, message)] at [path]. *)
Definition nonempty_issues (trimmed message : string) (path : list string)
  : list ZodIssue :=
  if (String.length trimmed <? 1)%nat
  then [ {| issue_message := message; issue_path := path |} ]
  else [].

(** The [positive] check of [z.number().int().positive().optional()] at
    [path], for a number that is an integer; [max_docs_issues] below has
    the [int] check. *)
Definition positive_issues (n : option Z) (path : list string) : list ZodIssue :=
  match n with
  | Some v => if (0 <? v)%Z then []
              else [ {| issue_message := "Number must be greater than 0";
                        issue_path := path |} ]
  | None => []
  end.

(** [.optional().default(true)] *)
Definition refresh_default (refresh : option bool) : bool :=
  match refresh with Some b => b | None => true end.

(** The [update_by_query] tool as registered, on arguments of the
    declared types: schema, then handler. *)
Definition update_by_query_invoke (input : UpdateByQueryInput)
  : list ZodIssue + M ResponseContent :=
  let index := Js.trim (in_index input) in
  match (nonempty_issues index "Index name is required" ["index"]
         ++ nonempty_issues (source (in_script input)) "Script source is required"
              ["script"; "source"]
         ++ positive_issues (in_maxDocs input) ["maxDocs"])%list with
  | [] => inr (update_by_query index (in_query input) (in_script input)
                 (in_conflicts input) (in_maxDocs input)
                 (Some (refresh_default (in_refresh input))))
  | issues => inl issues
  end.

(** The [delete_by_query] tool as registered, on arguments of the
    declared types: schema, then handler. *)
Definition delete_by_query_invoke (input : DeleteByQueryInput)
  : list ZodIssue + M ResponseContent :=
  let index := Js.trim (din_index input) in
  match (nonempty_issues index "Index name is required" ["index"]
         ++ positive_issues (din_maxDocs input) ["maxDocs"])%list with
  | [] => inr (delete_by_query index (din_query input)
                 (din_conflicts input) (din_maxDocs input)
                 (Some (refresh_default (din_refresh input))))
  | issues => inl issues
  end.

(** *** The arguments object of a request

    The server parses the [arguments] object of a call with
    [z.object(shape)]: every argument of the shape is checked in the order
    of the shape and all issues are collected; an argument the shape does
    not name is ignored. *)

(** The type zod finds a value to have. *)
Definition parsed_type (v : Js.value) : string :=
  match v with
  | Js.Undefined => "undefined"
  | Js.Null => "null"
  | Js.Bool _ => "boolean"
  | Js.Num _ | Js.Float _ => "number"
  | Js.Str _ => "string"
  | Js.Arr _ => "array"
  | Js.Obj _ => "object"
  end.

(** The issue of a value that has not the [expected] type. *)
Definition invalid_type (expected : string) (v : Js.value) (path : list string)
  : ZodIssue :=
  {| issue_message :=
       match v with
       | Js.Undefined => "Required"
       | _ => "Expected " ++ expected ++ ", received " ++ parsed_type v
       end;
     issue_path := path |}.

(** [z.string().trim().min(1, message)] *)
Definition trimmed_string_issues (v : Js.value) (message : string) (path : list string)
  : list ZodIssue :=
  match v with
  | Js.Str s => nonempty_issues (Js.trim s) message path
  | _ => [ invalid_type "string" v path ]
  end.

(** [z.string().min(1, message)] *)
Definition string_issues (v : Js.value) (message : string) (path : list string)
  : list ZodIssue :=
  match v with
  | Js.Str s => nonempty_issues s message path
  | _ => [ invalid_type "string" v path ]
  end.

(** [z.record(z.any())] *)
Definition record_issues (v : Js.value) (path : list string) : list ZodIssue :=
  match v with
  | Js.Obj _ => []
  | _ => [ invalid_type "object" v path ]
  end.

(** [z.record(z.any()).optional()] *)
Definition optional_record_issues (v : Js.value) (path : list string) : list ZodIssue :=
  match v with
  | Js.Undefined => []
  | _ => record_issues v path
  end.

(** [z.object({ source, params })] of the [script] argument. *)
Definition script_issues (v : Js.value) : list ZodIssue :=
  match v with
  | Js.Obj script =>
      (string_issues (Js.lookup "source" script) "Script source is required"
         ["script"; "source"]
       ++ optional_record_issues (Js.lookup "params" script) ["script"; "params"])%list
  | _ => [ invalid_type "object" v ["script"] ]
  end.

(** [z.enum(["abort", "proceed"]).optional()] *)
Definition conflicts_issues (v : Js.value) (path : list string) : list ZodIssue :=
  match v with
  | Js.Undefined => []
  | Js.Str s =>
      if (s =? "abort") || (s =? "proceed") then []
      else [ {| issue_message :=
                  "Invalid enum value. Expected 'abort' | 'proceed', received '"
                  ++ s ++ "'";
                issue_path := path |} ]
  | _ => [ invalid_type "'abort' | 'proceed'" v path ]
  end.

(** The rendering of a negative number starts with the minus sign. *)
Definition is_negative (rendering : string) : bool :=
  match rendering with
  | String c _ => (c =? "-")%char
  | EmptyString => false
  end.

(** [z.number().int().positive().optional()] *)
Definition max_docs_issues (v : Js.value) (path : list string) : list ZodIssue :=
  match v with
  | Js.Undefined => []
  | Js.Num n => positive_issues (Some n) path
  | Js.Float rendering =>
      ({| issue_message := "Expected integer, received float"; issue_path := path |}
       :: if is_negative rendering
          then [ {| issue_message := "Number must be greater than 0";
                    issue_path := path |} ]
          else [])%list
  | _ => [ invalid_type "number" v path ]
  end.

(** [z.boolean().optional().default(true)] *)
Definition refresh_issues (v : Js.value) (path : list string) : list ZodIssue :=
  match v with
  | Js.Undefined | Js.Bool _ => []
  | _ => [ invalid_type "boolean" v path ]
  end.

(** What [z.record(z.any())] returns for an object: its properties,
    but for a property named [__proto__]. *)
Definition parsed_record (v : Js.value) : Js.record :=
  match v with
  | Js.Obj fields => filter (fun entry => negb (fst entry =? "__proto__")) fields
  | _ => []
  end.

(** The arguments the schema of [update_by_query] hands on, for an
    arguments object without issues. *)
Definition update_by_query_parsed (args : Js.record) : UpdateByQueryInput :=
  let script := Js.lookup "script" args in
  {| in_index := match Js.lookup "index" args with Js.Str s => s | _ => "" end;
     in_query := parsed_record (Js.lookup "query" args);
     in_script :=
       {| source := match Js.get script "source" with Js.Str s => s | _ => "" end;
          params := match Js.get script "params" with
                    | Js.Undefined => None
                    | v => Some (parsed_record v)
                    end |};
     in_conflicts := match Js.lookup "conflicts" args with
                     | Js.Str s => if s =? "abort" then Some abort else Some proceed
                     | _ => None
                     end;
     in_maxDocs := match Js.lookup "maxDocs" args with
                   | Js.Num n => Some n
                   | _ => None
                   end;
     in_refresh := match Js.lookup "refresh" args with
                   | Js.Bool b => Some b
                   | _ => None
                   end |}.

Definition delete_by_query_parsed (args : Js.record) : DeleteByQueryInput :=
  {| din_index := match Js.lookup "index" args with Js.Str s => s | _ => "" end;
     din_query := parsed_record (Js.lookup "query" args);
     din_conflicts := match Js.lookup "conflicts" args with
                      | Js.Str s => if s =? "abort" then Some abort else Some proceed
                      | _ => None
                      end;
     din_maxDocs := match Js.lookup "maxDocs" args with
                    | Js.Num n => Some n
                    | _ => None
                    end;
     din_refresh := match Js.lookup "refresh" args with
                    | Js.Bool b => Some b
                    | _ => None
                    end |}.

(** The issues of an arguments object of [update_by_query]. *)
Definition update_by_query_issues (args : Js.record) : list ZodIssue :=
  (trimmed_string_issues (Js.lookup "index" args) "Index name is required" ["index"]
   ++ record_issues (Js.lookup "query" args) ["query"]
   ++ script_issues (Js.lookup "script" args)
   ++ conflicts_issues (Js.lookup "conflicts" args) ["conflicts"]
   ++ max_docs_issues (Js.lookup "maxDocs" args) ["maxDocs"]
   ++ refresh_issues (Js.lookup "refresh" args) ["refresh"])%list.

(** The issues of an arguments object of [delete_by_query]. *)
Definition delete_by_query_issues (args : Js.record) : list ZodIssue :=
  (trimmed_string_issues (Js.lookup "index" args) "Index name is required" ["index"]
   ++ record_issues (Js.lookup "query" args) ["query"]
   ++ conflicts_issues (Js.lookup "conflicts" args) ["conflicts"]
   ++ max_docs_issues (Js.lookup "maxDocs" args) ["maxDocs"]
   ++ refresh_issues (Js.lookup "refresh" args) ["refresh"])%list.

(** A call of [update_by_query] with an arguments object: the handler
    runs on the parsed arguments when the schema finds no issue. *)
Definition update_by_query_call (args : Js.record) : list ZodIssue + M ResponseContent :=
  match update_by_query_issues args with
  | [] =>
      let input := update_by_query_parsed args in
      inr (update_by_query (Js.trim (in_index input)) (in_query input)
             (in_script input) (in_conflicts input) (in_maxDocs input)
             (Some (refresh_default (in_refresh input))))
  | issues => inl issues
  end.

(** A call of [delete_by_query] with an arguments object. *)
Definition delete_by_query_call (args : Js.record) : list ZodIssue + M ResponseContent :=
  match delete_by_query_issues args with
  | [] =>
      let input := delete_by_query_parsed args in
      inr (delete_by_query (Js.trim (din_index input)) (din_query input)
             (din_conflicts input) (din_maxDocs input)
             (Some (refresh_default (din_refresh input))))
  | issues => inl issues
  end.
(** *** The catalogue of tools *)

(** A call of a registered tool with validated arguments. *)
Inductive ToolCall : Type :=
| call_list_indices (indexPattern : string)
| call_get_mappings (index : string)
| call_search (index : string) (queryBody : Js.record)
| call_get_cluster_health
| call_get_shards (index : option string)
| call_add_document (index : string) (id : option string) (document : Js.record)
| call_update_document (index id : string) (document : Js.record)
| call_delete_document (index id : string)
| call_update_by_query (index : string) (query : Js.record) (script : Script)
    (conflicts : option Conflicts) (maxDocs : option Z) (refresh : option bool)
| call_delete_by_query (index : string) (query : Js.record)
    (conflicts : option Conflicts) (maxDocs : option Z) (refresh : option bool)
| call_bulk (operations : list BulkOperation) (pipeline : option string)
| call_create_index (index : string) (settings mappings : option Js.record)
| call_delete_index (index : string)
| call_count_documents (index : string) (query : option Js.record)
| call_get_templates (name : option string)
| call_get_aliases (name : option string).

Definition tool_name (call : ToolCall) : string :=
  match call with
  | call_list_indices _ => "list_indices"
  | call_get_mappings _ => "get_mappings"
  | call_search _ _ => "search"
  | call_get_cluster_health => "get_cluster_health"
  | call_get_shards _ => "get_shards"
  | call_add_document _ _ _ => "add_document"
  | call_update_document _ _ _ => "update_document"
  | call_delete_document _ _ => "delete_document"
  | call_update_by_query _ _ _ _ _ _ => "update_by_query"
  | call_delete_by_query _ _ _ _ _ => "delete_by_query"
  | call_bulk _ _ => "bulk"
  | call_create_index _ _ _ => "create_index"
  | call_delete_index _ => "delete_index"
  | call_count_documents _ _ => "count_documents"
  | call_get_templates _ => "get_templates"
  | call_get_aliases _ => "get_aliases"
  end.

(** The [try] block the handler of the called tool runs. *)
Definition try_block (call : ToolCall) : M ResponseContent :=
  match call with
  | call_list_indices indexPattern => list_indices_try indexPattern
  | call_get_mappings index => get_mappings_try index
  | call_search index queryBody => search_tool_try index queryBody
  | call_get_cluster_health => get_cluster_health_try
  | call_get_shards index => get_shards_try index
  | call_add_document index id document => add_document_try index id document
  | call_update_document index id document => update_document_try index id document
  | call_delete_document index id => delete_document_try index id
  | call_update_by_query index query script conflicts maxDocs refresh =>
      update_by_query_try index query script conflicts maxDocs refresh
  | call_delete_by_query index query conflicts maxDocs refresh =>
      delete_by_query_try index query conflicts maxDocs refresh
  | call_bulk operations pipeline => bulk_tool_try operations pipeline
  | call_create_index index settings mappings => create_index_try index settings mappings
  | call_delete_index index => delete_index_try index
  | call_count_documents index query => count_documents_try index query
  | call_get_templates name => get_templates_try name
  | call_get_aliases name => get_aliases_try name
  end.

(** The handler of the called tool. *)
Definition handler (call : ToolCall) : M ResponseContent :=
  match call with
  | call_list_indices indexPattern => list_indices indexPattern
  | call_get_mappings index => get_mappings index
  | call_search index queryBody => search_tool index queryBody
  | call_get_cluster_health => get_cluster_health
  | call_get_shards index => get_shards index
  | call_add_document index id document => add_document index id document
  | call_update_document index id document => update_document index id document
  | call_delete_document index id => delete_document index id
  | call_update_by_query index query script conflicts maxDocs refresh =>
      update_by_query index query script conflicts maxDocs refresh
  | call_delete_by_query index query conflicts maxDocs refresh =>
      delete_by_query index query conflicts maxDocs refresh
  | call_bulk operations pipeline => bulk_tool operations pipeline
  | call_create_index index settings mappings => create_index index settings mappings
  | call_delete_index index => delete_index index
  | call_count_documents index query => count_documents index query
  | call_get_templates name => get_templates name
  | call_get_aliases name => get_aliases name
  end.

End Server.

(** * Client construction and startup *)

(** ** [CustomTransport] *)

(** [CustomTransport.request]: the [newParams] handed to
    [super.request], for a transport constructed with [pathPrefix];
    [params.path] is a string, and [+] renders any other value. *)
Definition CustomTransport_request (pathPrefix : string) (params : Js.record)
  : Js.record :=
  set_property "path"
    (Js.Str (pathPrefix ++ Js.to_string (Js.lookup "path" params))) params.

(** ** [ElasticsearchService.createClient] *)

(** [clientOptions.auth] *)
Inductive Auth : Type :=
| auth_apiKey (key : string)
| auth_basic (user pass : string).

(** The [ClientOptions] handed to [new Client]; [Transport] is the
    prefix the anonymous transport class closes over, [tls_ca] the
    contents of the certificate file. *)
Record ClientOptions : Type := {
  node : string;
  headers : list (string * string);
  Transport : option string;
  auth : option Auth;
  tls_ca : option string;
  tls_rejectUnauthorized : option bool;
  maxRetries : option Z;
  requestTimeout : option Z
}.

Section CreateClient.

(** [VERSION] of [package.json]. *)
Variable VERSION : string.

(** [fs.readFileSync(path)]: the contents of the file, or the error it
    throws. *)
Variable readFileSync : string -> Thrown + string.

Definition createClient (config : ElasticsearchConfig) : M ClientOptions :=
  let headers := [ ("user-agent", "octodet-elasticsearch-mcp/" ++ VERSION) ] in
  let Transport := pathPrefix config in
  let auth :=
    match apiKey config with
    | Some key => Some (auth_apiKey key)
    | None =>
        match username config, password config with
        | Some user, Some pass => Some (auth_basic user pass)
        | _, _ => None
        end
    end in
  ca <- match caCert config with
        | Some path =>
            if (0 <? String.length path)%nat then
              try_catch
                (match readFileSync path with
                 | inr contents => ret (Some contents)
                 | inl e => throw e
                 end)
                (fun error =>
                   console_error ("Failed to read certificate file: "
                                  ++ error_text error) ;;;
                   ret None)
            else ret None
        | None => ret None
        end ;;
  let version_8 := match version config with Some v => v =? "8" | None => false end in
  let version_9 := match version config with Some v => v =? "9" | None => false end in
  let retries := if version_8 || version_9 then Some 5%Z else None in
  let timeout := if version_8 || version_9 then Some 30000%Z else None in
  let headers :=
    if version_8
    then [ ("accept", "application/vnd.elasticsearch+json;compatible-with=8");
           ("content-type", "application/vnd.elasticsearch+json;compatible-with=8") ]
    else headers in
  ret {| node := url config;
         headers := headers;
         Transport := Transport;
         auth := auth;
         tls_ca := ca;
         tls_rejectUnauthorized :=
           match sslSkipVerify config with Some true => Some false | _ => None end;
         maxRetries := retries;
         requestTimeout := timeout |}.

End CreateClient.

(** ** Configuration from the environment *)

(** The module-level [config] of [index.ts], for the environment
    [process.env]. *)
Definition config (env : string -> option string) : ElasticsearchConfig :=
  {| url := match env "ES_URL" with
            | Some s => if Js.truthy (Js.Str s) then s else "http://localhost:9200"
            | None => "http://localhost:9200"
            end;
     apiKey := env "ES_API_KEY";
     username := env "ES_USERNAME";
     password := env "ES_PASSWORD";
     caCert := env "ES_CA_CERT";
     pathPrefix := env "ES_PATH_PREFIX";
     version := Some match env "ES_VERSION" with
                     | Some s => if Js.truthy (Js.Str s) then s else "8"
                     | None => "8"
                     end;
     sslSkipVerify := Some match env "ES_SSL_SKIP_VERIFY" with
                           | Some s => (s =? "1") || (s =? "true")
                           | None => false
                           end |}.

(** * Vocabulary of the properties *)

(** The three auth shapes: API key alone, user name with password, or
    no credentials at all. *)
Definition auth_shape_allowed (c : ElasticsearchConfig) : Prop :=
  (apiKey c <> None /\ username c = None /\ password c = None)
  \/ (username c <> None /\ password c <> None)
  \/ (apiKey c = None /\ username c = None /\ password c = None).

(** A configuration with an API key and a user name but no password. *)
Definition config_apiKey_and_username : ElasticsearchConfig :=
  {| url := "http://localhost:9200";
     apiKey := Some "key";
     username := Some "elastic";
     password := None;
     caCert := None;
     pathPrefix := None;
     version := Some "8";
     sslSkipVerify := Some false |}.

(** The lines of [xs], numbered from [idx], one after the other. *)
Fixpoint render_lines {A : Type} (line : A -> nat -> string) (xs : list A) (idx : nat)
  : string :=
  match xs with
  | [] => ""
  | x :: rest => line x idx ++ render_lines line rest (S idx)
  end.

(** The action descriptor of an operation: [{action: {_index, _id?}}]. *)
Definition action_descriptor (op : BulkOperation) : Js.value :=
  Js.Obj
    [ (action_name (op_action op),
       Js.Obj (("_index", Js.Str (op_index op))
               :: match op_id op with
                  | Some "" | None => []
                  | Some id => [("_id", Js.Str id)]
                  end)) ].

(** The payload entries of an operation: none for [delete], [{doc}]
    for [update], the document itself for [index] and [create]. *)
Definition payload_entries (op : BulkOperation) : list Js.value :=
  match op_action op with
  | action_delete => []
  | action_update => [Js.Obj [("doc", document_value op)]]
  | action_index | action_create => [document_value op]
  end.

(** An operation the bulk handler accepts. *)
Definition operation_valid (op : BulkOperation) : bool :=
  match op_action op with
  | action_delete => Js.truthy (Js.of_option_string (op_id op))
  | action_update =>
      Js.truthy (Js.of_option_string (op_id op))
      && match op_document op with Some _ => true | None => false end
  | action_index | action_create =>
      match op_document op with Some _ => true | None => false end
  end.

(** What an invalid operation lacks: its id first, else its document. *)
Definition missing_field (op : BulkOperation) : string :=
  match op_action op with
  | action_delete => "Document ID is required"
  | action_update =>
      if Js.truthy (Js.of_option_string (op_id op))
      then "Document body is required"
      else "Document ID is required"
  | action_index | action_create => "Document body is required"
  end.

(** The item is reported by the summary: its result is truthy. *)
Definition item_reported (item : Js.record) : bool := Js.truthy (item_result item).

(** The positions, counted from [idx], of the reported items. *)
Fixpoint reported_positions (items : list Js.record) (idx : nat) : list nat :=
  match items with
  | [] => []
  | item :: rest =>
      if item_reported item
      then idx :: reported_positions rest (S idx)
      else reported_positions rest (S idx)
  end.

(** The wire entries of one operation, in the order they are sent. *)
Definition wire_entries (op : BulkOperation) : list Js.value :=
  action_descriptor op :: payload_entries op.

(** The message that rejects the operation at the 1-based [position]. *)
Definition validation_message (position : nat) (op : BulkOperation) : string :=
  "Operation #" ++ Js.dec (Z.of_nat position) ++ " (" ++ action_name (op_action op)
  ++ "): " ++ missing_field op.

(** The [operation] field of a summary record. *)
Definition record_operation (r : Js.value) : Js.value := Js.get r "operation".

(** The reason shown for a failure of a query-scoped mutation: its
    [cause.reason], "Unknown" when the cause or its reason is absent or
    empty. *)
Definition shown_reason (failure : QueryFailure) : string :=
  match failure_cause failure with
  | Some cause =>
      match cause_reason cause with
      | Some (String c reason) => String c reason
      | _ => "Unknown"
      end
  | None => "Unknown"
  end.

(** The entry of a failure in the report of [update_by_query], under its
    [number] counted from 1; the id is printed as it is, hence "undefined"
    when absent. *)
Definition update_failure_entry (number : nat) (failure : QueryFailure) : string :=
  nl ++ Js.dec (Z.of_nat number) ++ ". ID: "
  ++ match failure_id failure with Some id => id | None => "undefined" end
  ++ ", Reason: " ++ shown_reason failure.

(** The entry of a failure in the report of [delete_by_query]; an
    absent or empty id shows as "unknown". *)
Definition delete_failure_entry (number : nat) (failure : QueryFailure) : string :=
  nl ++ Js.dec (Z.of_nat number) ++ ". ID: "
  ++ match failure_id failure with Some (String c id) => String c id | _ => "unknown" end
  ++ ", Reason: " ++ shown_reason failure.

(** A failed item of a bulk response: its position among the items of
    the response, counted from 0, the action it names, and its error. *)
Record FailedItem : Type := {
  failed_position : nat;
  failed_action : string;
  failed_error : Js.value
}.

(** The item at [position] fails when the result under its first key is
    truthy and carries a truthy [error]. *)
Definition failed_item (position : nat) (item : Js.record) : option FailedItem :=
  match item with
  | (action, result) :: _ =>
      if Js.truthy result && Js.truthy (Js.get result "error")
      then Some {| failed_position := position;
                   failed_action := action;
                   failed_error := Js.get result "error" |}
      else None
  | [] => None
  end.

(** The failed items of a response, in the order of its items, the
    first of which is at [position]. *)
Fixpoint failed_items (items : list Js.record) (position : nat) : list FailedItem :=
  match items with
  | [] => []
  | item :: rest =>
      match failed_item position item with
      | Some f => f :: failed_items rest (S position)
      | None => failed_items rest (S position)
      end
  end.

(** The item succeeds when the result under its first key is truthy and
    carries no truthy [error]. *)
Definition item_succeeded (item : Js.record) : bool :=
  match item with
  | (_, result) :: _ => Js.truthy result && negb (Js.truthy (Js.get result "error"))
  | [] => false
  end.

(** The text of [v], or [fallback] when [v] is falsy. *)
Definition text_or (v : Js.value) (fallback : string) : string :=
  if Js.truthy v then Js.to_string v else fallback.

(** The entry of a failed item in the bulk report, under its [number]
    counted from 1. *)
Definition bulk_failure_entry (number : nat) (f : FailedItem) : string :=
  Js.dec (Z.of_nat number) ++ ". Operation #" ++ Js.dec (Z.of_nat (failed_position f))
  ++ " (" ++ failed_action f ++ "): "
  ++ text_or (Js.get (failed_error f) "reason") "Unknown error"
  ++ " [" ++ text_or (Js.get (failed_error f) "type") "unknown_error" ++ "]" ++ nl.

(** The entries of [fs] in the order of the list, numbered from
    [number] on. *)
Fixpoint numbered_entries {A : Type} (entry : nat -> A -> string) (number : nat)
    (fs : list A) : string :=
  match fs with
  | [] => ""
  | f :: rest => entry number f ++ numbered_entries entry (S number) rest
  end.

(** The failure list of a report. More than five failures: the entries
    of the first five, numbered 1 to 5 in their order, then the overflow
    line for the count minus five. Five or fewer: the entries of all of
    them, numbered from 1, and no overflow line. *)
Definition failure_list {A : Type} (entry : nat -> A -> string)
    (overflow : nat -> string) (fs : list A) : string :=
  if (5 <? List.length fs)%nat
  then numbered_entries entry 1 (firstn 5 fs) ++ overflow (List.length fs - 5)%nat
  else numbered_entries entry 1 fs.

(** The overflow line of the query-mutation reports, for [hidden]
    failures that are not shown. *)
Definition query_overflow_line (hidden : nat) : string :=
  nl ++ "...and " ++ Js.dec (Z.of_nat hidden) ++ " more failures.".

(** The overflow line of the bulk report. *)
Definition bulk_overflow_line (hidden : nat) : string :=
  "...and " ++ Js.dec (Z.of_nat hidden) ++ " more failures." ++ nl.

(** The bulk report of a response, from its items. *)
Definition bulk_report (operations : list BulkOperation) (response : BulkOperationResult)
  : string :=
  "Bulk operation completed in " ++ Js.dec (bulk_took response) ++ "ms" ++ nl
  ++ "- Total operations: " ++ Js.dec (Z.of_nat (List.length operations)) ++ nl
  ++ "- Successful: "
  ++ Js.dec (Z.of_nat (List.length (filter item_succeeded (bulk_items response)))) ++ nl
  ++ "- Failed: "
  ++ Js.dec (Z.of_nat (List.length (failed_items (bulk_items response) 0))) ++ nl
  ++ match failed_items (bulk_items response) 0 with
     | [] => ""
     | fs => nl ++ "Failures:" ++ nl
             ++ failure_list bulk_failure_entry bulk_overflow_line fs
     end.

(** The line the loop prints for [x] at index [k] is the entry of [y]
    under the number [k + 1]. *)
Definition line_is_entry {A B : Type} (line : A -> nat -> string)
    (entry : nat -> B -> string) (x : A) (y : B) : Prop :=
  forall k : nat, line x k = entry (S k) y.

(** The tri-state of the refresh flag. *)
Definition wire_refresh (refresh : option bool) : bool :=
  match refresh with
  | None => true
  | Some false => false
  | Some true => true
  end.

(** The request of [update_by_query] for a given wire refresh flag. *)
Definition update_by_query_params (index : string) (query : Js.record) (script : Script)
    (conflicts : option Conflicts) (maxDocs : option Z) (refresh : bool)
  : UpdateByQueryParams :=
  {| ubq_index := index;
     ubq_body_query := query;
     ubq_body_script_source := source script;
     ubq_body_script_params := params script;
     ubq_refresh := refresh;
     ubq_conflicts := conflicts;
     ubq_max_docs := match maxDocs with Some 0%Z => None | other => other end |}.

(** The request of [delete_by_query] for a given wire refresh flag. *)
Definition delete_by_query_params (index : string) (query : Js.record)
    (conflicts : option Conflicts) (maxDocs : option Z) (refresh : bool)
  : DeleteByQueryParams :=
  {| dbq_index := index;
     dbq_body_query := query;
     dbq_refresh := refresh;
     dbq_conflicts := conflicts;
     dbq_max_docs := match maxDocs with Some 0%Z => None | other => other end |}.

(** The text that opens the error envelope of each tool. *)
Definition error_prefix (call : ToolCall) : string :=
  match call with
  | call_add_document _ _ _ => "Error adding document: "
  | call_update_document _ _ _ => "Error updating document: "
  | call_delete_document _ _ => "Error deleting document: "
  | _ => "Error: "
  end.

(** The envelope a [catch] clause returns. *)
Definition error_envelope (prefix : string) (e : Thrown) : ResponseContent :=
  {| content := [ text_fragment (prefix ++ error_text e) ] |}.

(** A client whose every call rejects with [e]. *)
Definition rejecting_client (e : Thrown) : Client := fun _ => inl e.

Definition empty_query_result : UpdateByQueryResult :=
  {| took := 0; total := 0; updated := None; deleted := None;
     failures := None; version_conflicts := None; task := None |}.

(** A client whose every call resolves with an empty response. *)
Definition quiet_client : Client :=
  fun call =>
    inr (match call as c return Response c with
         | client_cat_indices _ _ _ => []
         | client_cat_shards _ _ => []
         | client_search _ =>
             {| hits_total := None; hits_hits := []; aggregations := None |}
         | client_updateByQuery _ => empty_query_result
         | client_deleteByQuery _ => empty_query_result
         | client_bulk _ => {| bulk_took := 0; bulk_errors := false; bulk_items := [] |}
         | client_indices_getMapping _ => []
         | client_cluster_health => []
         | client_index _ => []
         | client_count _ _ => []
         | client_update _ _ _ => Js.Obj []
         | client_delete _ _ => Js.Obj []
         | client_indices_getIndexTemplate _ => Js.Obj []
         | client_indices_getAlias _ => Js.Obj []
         | client_indices_create _ _ => Js.Obj []
         | client_indices_delete _ => Js.Obj []
         end).

(** ** Vocabulary of the further properties *)

(** The configuration [parse] returns when it accepts. *)
Definition validated (c : ElasticsearchConfig) : ElasticsearchConfig :=
  {| url := Js.trim (url c); apiKey := apiKey c; username := username c;
     password := password c; caCert := caCert c; pathPrefix := pathPrefix c;
     version := version_transform (version c);
     sslSkipVerify := sslSkipVerify c |}.

(** The certificate [createClient] ends up with. *)
Definition certificate_read (readFileSync : string -> Thrown + string)
    (c : ElasticsearchConfig) : option string :=
  match caCert c with
  | Some (String a path) =>
      match readFileSync (String a path) with
      | inr contents => Some contents
      | inl _ => None
      end
  | _ => None
  end.

(** The lines [createClient] writes to [console.error]. *)
Definition certificate_log (readFileSync : string -> Thrown + string)
    (c : ElasticsearchConfig) : list string :=
  match caCert c with
  | Some (String a path) =>
      match readFileSync (String a path) with
      | inr _ => []
      | inl e => [ "Failed to read certificate file: " ++ error_text e ]
      end
  | _ => []
  end.

(** The call stops before anything is sent: a bulk call with an invalid
    operation. *)
Definition stops_before_sending (call : ToolCall) : bool :=
  match call with
  | call_bulk operations _ => negb (forallb operation_valid operations)
  | _ => false
  end.

(** The label of the line a handler logs when it catches an error;
    the document handlers log nothing. *)
Definition log_label (call : ToolCall) : option string :=
  match call with
  | call_list_indices _ => Some "Failed to list indices"
  | call_get_mappings _ => Some "Failed to get mappings"
  | call_search _ _ => Some "Search failed"
  | call_get_cluster_health => Some "Failed to get cluster health"
  | call_get_shards _ => Some "Failed to get shard information"
  | call_add_document _ _ _ | call_update_document _ _ _
  | call_delete_document _ _ => None
  | call_update_by_query _ _ _ _ _ _ => Some "Update by query failed"
  | call_delete_by_query _ _ _ _ _ => Some "Delete by query failed"
  | call_bulk _ _ => Some "Bulk operation failed"
  | call_create_index _ _ _ => Some "Failed to create index"
  | call_delete_index _ => Some "Failed to delete index"
  | call_count_documents _ _ => Some "Failed to count documents"
  | call_get_templates _ => Some "Failed to get templates"
  | call_get_aliases _ => Some "Failed to get aliases"
  end.

(** The strings of [xs], one after the other. *)
Definition concat_lines (xs : list string) : string := fold_right append "" xs.

(** The key is one of the record's. *)
Definition has_key (k : string) (fields : Js.record) : bool :=
  existsb (fun key => key =? k) (Js.keys fields).

(** No field of the record that a fallback fills is falsy: [id] and
    [index] always, [error.type] and [error.reason] of a failure,
    [result] of a success. *)
Definition record_filled (r : Js.value) : bool :=
  Js.truthy (Js.get r "id") && Js.truthy (Js.get r "index")
  && if Js.truthy (Js.get r "error")
     then Js.truthy (Js.get (Js.get r "error") "type")
          && Js.truthy (Js.get (Js.get r "error") "reason")
     else Js.truthy (Js.get r "result").

(** The value is an object: not an array, not [null]. *)
Definition is_object (v : Js.value) : bool :=
  match v with Js.Obj _ => true | _ => false end.

(** The wire entries of an operation the handler accepts, written out:
    the descriptor names the index and, when the operation has a non-empty
    id, that id; an update and a delete always have one. *)
Definition accepted_entries (op : BulkOperation) : option (list Js.value) :=
  let index := ("_index", Js.Str (op_index op)) in
  match op_action op, op_id op, op_document op with
  | action_delete, Some (String c id), _ =>
      Some [ Js.Obj [("delete", Js.Obj [index; ("_id", Js.Str (String c id))])] ]
  | action_update, Some (String c id), Some document =>
      Some [ Js.Obj [("update", Js.Obj [index; ("_id", Js.Str (String c id))])];
             Js.Obj [("doc", Js.Obj document)] ]
  | action_index, Some (String c id), Some document =>
      Some [ Js.Obj [("index", Js.Obj [index; ("_id", Js.Str (String c id))])];
             Js.Obj document ]
  | action_index, _, Some document =>
      Some [ Js.Obj [("index", Js.Obj [index])]; Js.Obj document ]
  | action_create, Some (String c id), Some document =>
      Some [ Js.Obj [("create", Js.Obj [index; ("_id", Js.Str (String c id))])];
             Js.Obj document ]
  | action_create, _, Some document =>
      Some [ Js.Obj [("create", Js.Obj [index])]; Js.Obj document ]
  | _, _, _ => None
  end.

(** The wire sequence of a list of accepted operations: their entries,
    in the order of the operations. *)
Fixpoint accepted_wire (operations : list BulkOperation) : option (list Js.value) :=
  match operations with
  | [] => Some []
  | op :: rest =>
      match accepted_entries op, accepted_wire rest with
      | Some entries, Some wire => Some (entries ++ wire)%list
      | _, _ => None
      end
  end.

(** The index argument is a string that is not blank. *)
Definition index_accepted (v : Js.value) : bool :=
  match v with
  | Js.Str index => negb (Js.trim index =? "")
  | _ => false
  end.

(** The script argument is an object whose [source] is a non-empty
    string and whose [params], when given, is an object. *)
Definition script_accepted (v : Js.value) : bool :=
  match v with
  | Js.Obj script =>
      match Js.lookup "source" script with
      | Js.Str source => negb (source =? "")
      | _ => false
      end
      && match Js.lookup "params" script with
         | Js.Undefined | Js.Obj _ => true
         | _ => false
         end
  | _ => false
  end.

(** The conflicts argument is left out or one of "abort" and
    "proceed". *)
Definition conflicts_accepted (v : Js.value) : bool :=
  match v with
  | Js.Undefined => true
  | Js.Str s => (s =? "abort") || (s =? "proceed")
  | _ => false
  end.

(** The maxDocs argument is left out or a positive integer. *)
Definition max_docs_accepted (v : Js.value) : bool :=
  match v with
  | Js.Undefined => true
  | Js.Num n => (0 <? n)%Z
  | _ => false
  end.

(** The refresh argument is left out or a boolean. *)
Definition refresh_accepted (v : Js.value) : bool :=
  match v with
  | Js.Undefined | Js.Bool _ => true
  | _ => false
  end.

(** The arguments object that the schema of [update_by_query] accepts. *)
Definition update_arguments_accepted (args : Js.record) : bool :=
  index_accepted (Js.lookup "index" args)
  && is_object (Js.lookup "query" args)
  && script_accepted (Js.lookup "script" args)
  && conflicts_accepted (Js.lookup "conflicts" args)
  && max_docs_accepted (Js.lookup "maxDocs" args)
  && refresh_accepted (Js.lookup "refresh" args).

(** The arguments object that the schema of [delete_by_query] accepts. *)
Definition delete_arguments_accepted (args : Js.record) : bool :=
  index_accepted (Js.lookup "index" args)
  && is_object (Js.lookup "query" args)
  && conflicts_accepted (Js.lookup "conflicts" args)
  && max_docs_accepted (Js.lookup "maxDocs" args)
  && refresh_accepted (Js.lookup "refresh" args).

(** The list holds no issue. *)
Definition no_issue (issues : list ZodIssue) : bool :=
  match issues with [] => true | _ => false end.

(** ** Inputs of the examples *)

(** [{action: "delete", index: "a"}]: a delete without an id. *)
Definition delete_without_id : BulkOperation :=
  {| op_action := action_delete; op_index := "a"; op_id := None; op_document := None |}.

(** [{action: "delete", index: "a", id: "1"}] *)
Definition delete_doc_1 : BulkOperation :=
  {| op_action := action_delete; op_index := "a"; op_id := Some "1";
     op_document := None |}.

(** [{action: "index", index: "a", document: {x: 1}}] *)
Definition index_doc_x : BulkOperation :=
  {| op_action := action_index; op_index := "a"; op_id := None;
     op_document := Some [("x", Js.Num 1)] |}.

(** A bulk response whose only item is [{delete: null}]. *)
Definition response_with_null_result : BulkOperationResult :=
  {| bulk_took := 3; bulk_errors := false; bulk_items := [ [("delete", Js.Null)] ] |}.

(** A bulk response with one created document and one failed delete. *)
Definition response_created_and_failed : BulkOperationResult :=
  {| bulk_took := 7;
     bulk_errors := true;
     bulk_items :=
       [ [("index", Js.Obj [ ("_index", Js.Str "a"); ("_id", Js.Str "k1");
                             ("status", Js.Num 201); ("result", Js.Str "created") ])];
         [("delete", Js.Obj [ ("_index", Js.Str "a"); ("_id", Js.Str "1");
                              ("status", Js.Num 404);
                              ("error", Js.Obj [ ("type", Js.Str "not_found");
                                                 ("reason", Js.Str "missing") ]) ])] ] |}.

(** A bulk response of eight items, six of them failed. *)
Definition response_with_six_failed : BulkOperationResult :=
  {| bulk_took := 4;
     bulk_errors := true;
     bulk_items :=
       [ [("delete", Js.Obj [ ("error", Js.Obj [ ("type", Js.Str "t1");
                                                 ("reason", Js.Str "r1") ]) ])];
         [("index", Js.Obj [ ("result", Js.Str "created") ])];
         [("update", Js.Obj [ ("error", Js.Obj [ ("reason", Js.Str "r2") ]) ])];
         [("create", Js.Obj [ ("error", Js.Str "boom") ])];
         [("delete", Js.Null)];
         [("delete", Js.Obj [ ("error", Js.Obj [ ("type", Js.Str "t4") ]) ])];
         [("index", Js.Obj [ ("error", Js.Obj [ ("type", Js.Str "t5");
                                                ("reason", Js.Str "r5") ]) ])];
         [("index", Js.Obj [ ("error", Js.Obj [ ("type", Js.Str "t6");
                                                ("reason", Js.Str "r6") ]) ])] ] |}.

(** The no-break space U+00A0. *)
Definition nbsp : string := String "194"%char (String "160"%char EmptyString).

(** The failure of document [id] with the reason "conflict". *)
Definition conflict_on (id : string) : QueryFailure :=
  {| failure_id := Some id;
     failure_cause := Some {| cause_type := None; cause_reason := Some "conflict" |} |}.

(** A store response with six failures. *)
Definition result_with_six_failures : UpdateByQueryResult :=
  {| took := 5; total := 6; updated := Some 0%Z; deleted := Some 0%Z;
     failures := Some [ conflict_on "d1"; conflict_on "d2"; conflict_on "d3";
                        conflict_on "d4"; conflict_on "d5"; conflict_on "d6" ];
     version_conflicts := None; task := None |}.

(** A failure of a query-scoped mutation that carries no id. *)
Definition failure_without_id : QueryFailure :=
  {| failure_id := None;
     failure_cause := Some {| cause_type := None; cause_reason := Some "conflict" |} |}.

(** A store response with that one failure. *)
Definition result_with_failure_without_id : UpdateByQueryResult :=
  {| took := 12; total := 10; updated := Some 7%Z; deleted := Some 7%Z;
     failures := Some [ failure_without_id ];
     version_conflicts := None; task := None |}.

(** A client that answers every query-scoped mutation with that response. *)
Definition client_with_failure_without_id : Client :=
  fun call =>
    match call as c return Thrown + Response c with
    | client_updateByQuery _ => inr result_with_failure_without_id
    | client_deleteByQuery _ => inr result_with_failure_without_id
    | other => quiet_client other
    end.

(** The store response of the delete-by-query scenario. *)
Definition delete_scenario_result : UpdateByQueryResult :=
  {| took := 12; total := 10; updated := None; deleted := Some 7%Z;
     failures :=
       Some [ {| failure_id := Some "d1";
                 failure_cause :=
                   Some {| cause_type := None; cause_reason := Some "conflict" |} |} ];
     version_conflicts := Some 1%Z; task := None |}.

Definition example_script : Script :=
  {| source := "ctx._source.status = 'inactive'"; params := None |}.

(** Raw arguments of [update_by_query] that leave [refresh] out. *)
Definition update_input_without_refresh : UpdateByQueryInput :=
  {| in_index := "my-index";
     in_query := [("match_all", Js.Obj [])];
     in_script := example_script;
     in_conflicts := Some proceed;
     in_maxDocs := None;
     in_refresh := None |}.

(** Raw arguments of [delete_by_query] with [refresh: false]. *)
Definition delete_input_refresh_false : DeleteByQueryInput :=
  {| din_index := "my-index";
     din_query := [("match_all", Js.Obj [])];
     din_conflicts := None;
     din_maxDocs := Some 10%Z;
     din_refresh := Some false |}.

(** A configuration whose certificate file does not exist. *)
Definition config_with_missing_certificate : ElasticsearchConfig :=
  {| url := "https://es.example:9200";
     apiKey := None;
     username := Some "elastic";
     password := Some "secret";
     caCert := Some "/etc/ssl/missing.pem";
     pathPrefix := Some "/es";
     version := Some "9";
     sslSkipVerify := Some true |}.

(** A file system without any file. *)
Definition no_file (path : string) : Thrown + string :=
  inl (ErrorObject ("ENOENT: no such file or directory, open '" ++ path ++ "'")).

(** An environment without any variable. *)
Definition empty_env (name : string) : option string := None.

(** A query body that names an index of its own. *)
Definition query_with_index : Js.record :=
  [ ("index", Js.Str "other"); ("size", Js.Num 1) ].

(** A hit with the score 1.5, highlighted on [title], whose source has
    a field named [constructor]. *)
Definition hit_d1 : SearchHit :=
  {| hit_id := "d1";
     hit_score := Js.Float "1.5";
     hit_source := Some [ ("title", Js.Str "Rocq"); ("year", Js.Num 2025);
                          ("constructor", Js.Str "Coquand") ];
     hit_highlight := Some [ ("title", [ "<em>Rocq</em>" ]) ] |}.

(** A search result with that one hit. *)
Definition one_hit_result : SearchResult :=
  {| hits_total := Some (TotalObject 1 "eq");
     hits_hits := [ hit_d1 ];
     aggregations := None |}.

(** A client that answers every search with that result. *)
Definition client_with_one_hit : Client :=
  fun call =>
    match call as c return Thrown + Response c with
    | client_search _ => inr one_hit_result
    | other => quiet_client other
    end.

(** A client that answers every bulk request with one created document
    and one failed delete. *)
Definition client_with_failed_delete : Client :=
  fun call =>
    match call as c return Thrown + Response c with
    | client_bulk _ => inr response_created_and_failed
    | other => quiet_client other
    end.

(** A client whose cat calls answer with rows. *)
Definition client_with_rows : Client :=
  fun call =>
    match call as c return Thrown + Response c with
    | client_cat_indices _ _ _ =>
        inr [ [("index", Js.Str "logs-1")]; [("index", Js.Str "logs-2")] ]
    | client_cat_shards _ _ => inr [ [("index", Js.Str "logs-1")] ]
    | other => quiet_client other
    end.

(** A rendering of values that only tells objects apart. *)
Definition sample_stringify (v : Js.value) (space : nat) : string :=
  match v with
  | Js.Obj [] => "{}"
  | Js.Obj _ => "{...}"
  | Js.Arr _ => "[...]"
  | other => Js.to_string other
  end.

Definition sample_parseInt (v : Js.value) (radix : Z) : Js.value := v.

(** * Configuration validation *)

Lemma parse_accepts_iff (c : ElasticsearchConfig) :
  config_accepted c = true <->
  Js.trim (url c) <> "" /\ (apiKey c <> None \/ username c = None \/ password c <> None).
Proof.
  unfold config_accepted, ConfigSchema_parse, auth_refinement. cbn.
  destruct (Js.trim (url c)) as [|a u]; cbn.
  - split; [discriminate | intros [H _]; congruence].
  - destruct (apiKey c), (username c), (password c); cbn.
    all: split; [intros H; split; [discriminate|] | intros [_ H]].
    all: try reflexivity; try discriminate.
    all: try (left; discriminate); try (right; left; reflexivity);
      try (right; right; discriminate).
    all: destruct H as [H | [H | H]]; congruence.
Qed.

(** C2 (counterexample): a configuration with an API key and a user name
    but no password is accepted, although it has none of the three
    shapes and has "user name present, password absent". *)
Lemma C2_apiKey_with_username_only_accepted :
  config_accepted config_apiKey_and_username = true
  /\ ~ auth_shape_allowed config_apiKey_and_username
  /\ username config_apiKey_and_username <> None
  /\ password config_apiKey_and_username = None.
Proof.
  split; [reflexivity|]. split; [|split; [discriminate | reflexivity]].
  unfold auth_shape_allowed; simpl.
  intros [[_ [H _]] | [[_ H] | [H _]]]; try discriminate; now apply H.
Qed.

(** C2 (amended): for every configuration whose url is not empty after
    trimming, the validator accepts it when the API key is present, whatever
    the user name and password are; when the API key is absent it accepts
    user name and password both present, accepts none of the three present,
    and rejects a user name without a password. *)
Theorem C2_config_auth_shapes (c : ElasticsearchConfig)
    (Hurl : Js.trim (url c) <> "") :
  (apiKey c <> None -> config_accepted c = true)
  /\ (apiKey c = None -> username c <> None -> password c <> None ->
      config_accepted c = true)
  /\ (apiKey c = None -> username c = None -> password c = None ->
      config_accepted c = true)
  /\ (apiKey c = None -> username c <> None -> password c = None ->
      config_accepted c = false).
Proof.
  repeat split; intros.
  - apply parse_accepts_iff; auto.
  - apply parse_accepts_iff; auto.
  - apply parse_accepts_iff; auto.
  - destruct (config_accepted c) eqn:E; [|reflexivity].
    apply parse_accepts_iff in E. destruct E as [_ [E | [E | E]]]; congruence.
Qed.

(** C2 on a configuration with an API key and a user name. *)
Lemma C2_config_auth_shapes_witness :
  Js.trim (url config_apiKey_and_username) <> ""
  /\ config_accepted config_apiKey_and_username = true.
Proof.
  assert (H : Js.trim (url config_apiKey_and_username) <> "")
    by (intro E; vm_compute in E; discriminate E).
  split; [exact H|].
  assert (K : apiKey config_apiKey_and_username <> None)
    by (intro E; vm_compute in E; discriminate E).
  exact (proj1 (C2_config_auth_shapes config_apiKey_and_username H) K).
Defined.

Example password_without_username_is_accepted :
  config_accepted
    {| url := "http://localhost:9200"; apiKey := None; username := None;
       password := Some "secret"; caCert := None; pathPrefix := None;
       version := None; sslSkipVerify := None |} = true.
Proof. reflexivity. Qed.

Lemma empty_url_is_rejected (c : ElasticsearchConfig) :
  Js.trim (url c) = "" -> config_accepted c = false.
Proof.
  intros H. destruct (config_accepted c) eqn:E; [|reflexivity].
  apply parse_accepts_iff in E. now destruct E.
Qed.

(** A url that holds only a no-break space is empty after trimming. *)
Example blank_url_is_rejected :
  config_accepted
    {| url := nbsp; apiKey := Some "key"; username := None; password := None;
       caCert := None; pathPrefix := None; version := None; sslSkipVerify := None |}
  = false.
Proof. reflexivity. Qed.

(** * Strings and loops *)

Lemma append_assoc (a b c : string) : (a ++ b) ++ c = a ++ (b ++ c).
Proof. induction a as [|x a IH]; simpl; [reflexivity | now rewrite IH]. Qed.

Lemma append_nil_r (a : string) : a ++ "" = a.
Proof. induction a as [|x a IH]; simpl; [reflexivity | now rewrite IH]. Qed.

(** A loop that only appends to [resultText] appends the lines of its
    elements in order. *)
Lemma forEach_append_lines {A : Type} (line : A -> nat -> string) (xs : list A) :
  forall (idx : nat) (resultText : string),
    forEach (fun resultText x i => resultText ++ line x i) xs idx resultText
    = resultText ++ render_lines line xs idx.
Proof.
  induction xs as [|x rest IH]; intros idx resultText; simpl.
  - now rewrite append_nil_r.
  - now rewrite IH, append_assoc.
Qed.

(** * Bulk compiler *)

Lemma push_operation_appends (bulkOperations : list Js.value) (op : BulkOperation) :
  push_operation bulkOperations op = (bulkOperations ++ wire_entries op)%list.
Proof.
  unfold push_operation, wire_entries, action_descriptor, payload_entries.
  destruct op as [a i id d]; simpl.
  destruct id as [[|c id]|]; destruct a; simpl;
    rewrite <- ?app_assoc; reflexivity.
Qed.

Lemma forEach_push_operation (operations : list BulkOperation) :
  forall (idx : nat) (acc : list Js.value),
    forEach (fun bulkOperations op _ => push_operation bulkOperations op)
            operations idx acc
    = (acc ++ flat_map wire_entries operations)%list.
Proof.
  induction operations as [|op rest IH]; intros idx acc; simpl.
  - now rewrite app_nil_r.
  - rewrite IH, push_operation_appends, <- app_assoc. reflexivity.
Qed.

Lemma wire_entries_length (op : BulkOperation) :
  List.length (wire_entries op)
  = if action_is (op_action op) action_delete then 1%nat else 2%nat.
Proof. destruct op as [[] i id d]; reflexivity. Qed.

(** C4: the wire sequence is the concatenation, in the order of the
    operations, of each operation's action descriptor followed by its
    payload entry (none for delete, [{doc: document}] for update, the
    document for index and create); its length is twice the number of
    non-delete operations plus the number of delete operations. *)
Theorem C4_compile_wire_sequence (operations : list BulkOperation) :
  compile_operations operations = flat_map wire_entries operations
  /\ List.length (compile_operations operations)
     = (2 * List.length
              (filter (fun op => negb (action_is (op_action op) action_delete))
                      operations)
        + List.length
            (filter (fun op => action_is (op_action op) action_delete) operations))%nat.
Proof.
  assert (E : compile_operations operations = flat_map wire_entries operations).
  { unfold compile_operations. now rewrite forEach_push_operation. }
  split; [exact E|]. rewrite E. clear E.
  induction operations as [|op rest IH]; [reflexivity|].
  cbn [flat_map filter]. rewrite length_app, wire_entries_length, IH.
  destruct (action_is (op_action op) action_delete); cbn [negb List.length]; lia.
Qed.

Example compile_index_then_delete :
  compile_operations [ index_doc_x; delete_doc_1 ]
  = [ Js.Obj [("index", Js.Obj [("_index", Js.Str "a")])];
      Js.Obj [("x", Js.Num 1)];
      Js.Obj [("delete", Js.Obj [("_index", Js.Str "a"); ("_id", Js.Str "1")])] ].
Proof. reflexivity. Qed.

(** * Bulk validation *)

Lemma validate_operation_valid (op : BulkOperation) (idx : nat) (w : World) :
  operation_valid op = true -> validate_operation op idx w = (w, inr tt).
Proof.
  destruct op as [a i id d]. unfold operation_valid, validate_operation, bind; simpl.
  destruct a; simpl; intros H.
  - destruct d; [reflexivity | discriminate].
  - destruct d; [reflexivity | discriminate].
  - apply andb_prop in H. destruct H as [H1 H2]. rewrite H1. simpl.
    destruct d; [reflexivity | discriminate].
  - rewrite H. reflexivity.
Qed.

Lemma validate_operation_invalid (op : BulkOperation) (idx : nat) (w : World) :
  operation_valid op = false ->
  validate_operation op idx w
  = (w, inl (ErrorObject (validation_message (S idx) op))).
Proof.
  destruct op as [a i id d].
  unfold operation_valid, validate_operation, validation_message, missing_field,
    bind, throw.
  replace (Z.of_nat (S idx)) with (Z.of_nat idx + 1)%Z by lia.
  cbn [op_action op_id op_document document_value].
  destruct a; cbn; intros H.
  - destruct d; [discriminate | reflexivity].
  - destruct d; [discriminate | reflexivity].
  - destruct (Js.truthy (Js.of_option_string id)); cbn in *.
    + destruct d; [discriminate | reflexivity].
    + reflexivity.
  - rewrite H. reflexivity.
Qed.

Lemma forEachM_validate_prefix (valid others : list BulkOperation) :
  forall (idx : nat) (w : World),
    forallb operation_valid valid = true ->
    forEachM validate_operation (valid ++ others) idx w
    = forEachM validate_operation others (idx + List.length valid) w.
Proof.
  induction valid as [|op rest IH]; intros idx w H; simpl.
  - now rewrite Nat.add_0_r.
  - simpl in H. apply andb_prop in H. destruct H as [Hop Hrest].
    unfold bind at 1. rewrite (validate_operation_valid _ _ _ Hop).
    rewrite IH by assumption. f_equal. lia.
Qed.

Lemma forEachM_validate_all (operations : list BulkOperation) (idx : nat) (w : World) :
  forallb operation_valid operations = true ->
  forEachM validate_operation operations idx w = (w, inr tt).
Proof.
  intros H. rewrite <- (app_nil_r operations).
  rewrite forEachM_validate_prefix by assumption. reflexivity.
Qed.

Lemma first_invalid_operation (operations : list BulkOperation) :
  forallb operation_valid operations = false ->
  exists valid op rest,
    operations = (valid ++ op :: rest)%list
    /\ forallb operation_valid valid = true
    /\ operation_valid op = false.
Proof.
  induction operations as [|o more IH]; [discriminate|].
  simpl. destruct (operation_valid o) eqn:Ho; simpl; intros H.
  - destruct (IH H) as (valid & op & rest & -> & Hv & Hop).
    exists (o :: valid), op, rest. simpl. now rewrite Ho, Hv.
  - now exists [], o, more.
Qed.

(** * Handlers *)

Section HandlerProperties.

Variable client : Client.
Variable JSON_stringify : Js.value -> nat -> string.
Variable parseInt : Js.value -> Z -> Js.value.

(** The [try] block of [bulk] stops at the first invalid operation,
    before anything is sent. *)
Lemma bulk_tool_try_invalid
    (valid : list BulkOperation) (op : BulkOperation) (rest : list BulkOperation)
    (pipeline : option string) (w : World) :
  forallb operation_valid valid = true ->
  operation_valid op = false ->
  bulk_tool_try client (valid ++ op :: rest) pipeline w
  = (w, inl (ErrorObject (validation_message (List.length valid + 1) op))).
Proof.
  intros Hvalid Hop. unfold bulk_tool_try.
  unfold bind at 1. rewrite forEachM_validate_prefix by assumption.
  cbn [forEachM]. unfold bind at 1.
  rewrite (validate_operation_invalid _ _ _ Hop).
  replace (S (0 + List.length valid)) with (List.length valid + 1)%nat by lia.
  reflexivity.
Qed.

(** With valid operations it sends one bulk request and reports on the
    response. *)
Lemma bulk_tool_try_valid (operations : list BulkOperation) (pipeline : option string)
    (w : World) :
  forallb operation_valid operations = true ->
  bulk_tool_try client operations pipeline w
  = let request := client_bulk {| bulk_refresh := true;
                                  bulk_pipeline := pipeline;
                                  bulk_operations := compile_operations operations |} in
    ({| requests := (requests w ++ [request])%list; stderr := stderr w |},
     match client request with
     | inr response =>
         inr {| content :=
                  [ text_fragment (bulk_text operations (summarize response)) ] |}
     | inl e => inl e
     end).
Proof.
  intros H. unfold bulk_tool_try. unfold bind at 1.
  rewrite forEachM_validate_all by assumption.
  unfold bind, bulk, await; cbn.
  destruct (client _); reflexivity.
Qed.

(** The handler turns that throw into the error envelope. *)
Lemma bulk_tool_first_invalid
    (valid : list BulkOperation) (op : BulkOperation) (rest : list BulkOperation)
    (pipeline : option string) (w : World) :
  forallb operation_valid valid = true ->
  operation_valid op = false ->
  let message := validation_message (List.length valid + 1) op in
  bulk_tool client (valid ++ op :: rest) pipeline w
  = ({| requests := requests w;
        stderr := (stderr w ++ [("Bulk operation failed: " ++ message)%string])%list |},
     inr {| content := [ text_fragment ("Error: " ++ message) ] |}).
Proof.
  intros Hvalid Hop message. unfold bulk_tool, try_catch.
  rewrite bulk_tool_try_invalid by assumption. reflexivity.
Qed.

(** C6: when at least one operation is invalid (an update or delete
    whose id is absent or empty, or an index, create or update without a
    document), the operations split into valid ones, the first invalid
    one and the rest; the bulk handler sends nothing to the client and
    returns the error envelope whose message names that operation's
    1-based position, its action and the missing field (the id first). *)
Theorem C6_bulk_rejects_first_invalid (operations : list BulkOperation)
    (pipeline : option string) (w : World)
    (Hinvalid : forallb operation_valid operations = false) :
  exists valid op rest,
    operations = (valid ++ op :: rest)%list
    /\ forallb operation_valid valid = true
    /\ operation_valid op = false
    /\ let message := validation_message (List.length valid + 1) op in
       bulk_tool client operations pipeline w
       = ({| requests := requests w;
             stderr :=
               (stderr w ++ [("Bulk operation failed: " ++ message)%string])%list |},
          inr {| content := [ text_fragment ("Error: " ++ message) ] |}).
Proof.
  destruct (first_invalid_operation _ Hinvalid) as (valid & op & rest & -> & Hv & Hop).
  exists valid, op, rest. repeat (split; [assumption || reflexivity|]).
  now apply bulk_tool_first_invalid.
Qed.

(** The request of [update_by_query]. *)
Lemma update_by_query_requests (index : string) (query : Js.record) (script : Script)
    (conflicts : option Conflicts) (maxDocs : option Z) (refresh : option bool)
    (w : World) :
  requests (fst (update_by_query client index query script conflicts maxDocs refresh w))
  = (requests w ++
     [ client_updateByQuery
         (update_by_query_params index query script conflicts maxDocs
            (wire_refresh refresh)) ])%list.
Proof.
  unfold update_by_query, update_by_query_try, try_catch, bind, updateByQuery, await.
  cbv zeta.
  replace (if Js.truthy (Js.of_option_Z maxDocs) then maxDocs else None)
    with (match maxDocs with Some 0%Z => None | other => other end)
    by (destruct maxDocs as [[| |]|]; reflexivity).
  replace (match refresh with Some false => false | _ => true end)
    with (wire_refresh refresh) by (destruct refresh as [[|]|]; reflexivity).
  fold (update_by_query_params index query script conflicts maxDocs
          (wire_refresh refresh)).
  destruct (client _); reflexivity.
Qed.

(** The request of [delete_by_query]. *)
Lemma delete_by_query_requests (index : string) (query : Js.record)
    (conflicts : option Conflicts) (maxDocs : option Z) (refresh : option bool)
    (w : World) :
  requests (fst (delete_by_query client index query conflicts maxDocs refresh w))
  = (requests w ++
     [ client_deleteByQuery
         (delete_by_query_params index query conflicts maxDocs
            (wire_refresh refresh)) ])%list.
Proof.
  unfold delete_by_query, delete_by_query_try, try_catch, bind, deleteByQuery, await.
  cbv zeta.
  replace (if Js.truthy (Js.of_option_Z maxDocs) then maxDocs else None)
    with (match maxDocs with Some 0%Z => None | other => other end)
    by (destruct maxDocs as [[| |]|]; reflexivity).
  replace (match refresh with Some false => false | _ => true end)
    with (wire_refresh refresh) by (destruct refresh as [[|]|]; reflexivity).
  fold (delete_by_query_params index query conflicts maxDocs (wire_refresh refresh)).
  destruct (client _); reflexivity.
Qed.

(** C7: when the raw arguments pass the schema, the handler sends one
    request whose [refresh] is [true] for an omitted argument, [false] for
    an explicit [false] and [true] for an explicit [true]; this holds for
    [update_by_query] and for [delete_by_query]. *)
Theorem C7_refresh_tri_state
    (update_input : UpdateByQueryInput) (delete_input : DeleteByQueryInput)
    (update_handler delete_handler : M ResponseContent) (w : World)
    (Hupdate : update_by_query_invoke client update_input = inr update_handler)
    (Hdelete : delete_by_query_invoke client delete_input = inr delete_handler) :
  (exists p,
      requests (fst (update_handler w)) = (requests w ++ [client_updateByQuery p])%list
      /\ ubq_refresh p = wire_refresh (in_refresh update_input))
  /\ (exists p,
         requests (fst (delete_handler w))
         = (requests w ++ [client_deleteByQuery p])%list
         /\ dbq_refresh p = wire_refresh (din_refresh delete_input)).
Proof.
  unfold update_by_query_invoke in Hupdate. unfold delete_by_query_invoke in Hdelete.
  split.
  - destruct (_ ++ _)%list in Hupdate; [|discriminate].
    injection Hupdate as <-. eexists. split.
    + apply update_by_query_requests.
    + destruct (in_refresh update_input) as [[|]|]; reflexivity.
  - destruct (_ ++ _)%list in Hdelete; [|discriminate].
    injection Hdelete as <-. eexists. split.
    + apply delete_by_query_requests.
    + destruct (din_refresh delete_input) as [[|]|]; reflexivity.
Qed.

(** C9: the bulk handler sends nothing when an operation is invalid and
    otherwise exactly one bulk request, whose [refresh] is [true] whatever
    the operations and the pipeline are; the handlers of [update_by_query]
    and [delete_by_query] send the [refresh] flag the caller gives. *)
Theorem C9_bulk_refresh_is_forced (operations : list BulkOperation)
    (pipeline : option string) (index : string) (query : Js.record) (script : Script)
    (conflicts : option Conflicts) (maxDocs : option Z) (flag : bool) (w : World) :
  requests (fst (bulk_tool client operations pipeline w))
  = (requests w ++
     (if forallb operation_valid operations
      then [ client_bulk {| bulk_refresh := true;
                            bulk_pipeline := pipeline;
                            bulk_operations := compile_operations operations |} ]
      else []))%list
  /\ requests (fst (update_by_query client index query script conflicts maxDocs
                      (Some flag) w))
     = (requests w ++
        [ client_updateByQuery
            (update_by_query_params index query script conflicts maxDocs flag) ])%list
  /\ requests (fst (delete_by_query client index query conflicts maxDocs (Some flag) w))
     = (requests w ++
        [ client_deleteByQuery
            (delete_by_query_params index query conflicts maxDocs flag) ])%list.
Proof.
  split; [|split].
  - destruct (forallb operation_valid operations) eqn:H.
    + unfold bulk_tool, try_catch. rewrite bulk_tool_try_valid by assumption.
      cbv zeta. destruct (client _); reflexivity.
    + destruct (first_invalid_operation _ H) as (valid & op & rest & -> & Hv & Hop).
      unfold bulk_tool, try_catch. rewrite bulk_tool_try_invalid by assumption.
      cbn. now rewrite app_nil_r.
  - rewrite update_by_query_requests. now destruct flag.
  - rewrite delete_by_query_requests. now destruct flag.
Qed.

(** The request of [add_document]. *)
Lemma add_document_requests (index : string) (id : option string)
    (document : Js.record) (w : World) :
  requests (fst (add_document client index id document w))
  = (requests w ++
     [ client_index {| index_index := index;
                       index_document := document;
                       index_id := match id with
                                   | Some "" | None => None
                                   | Some i => Some i
                                   end |} ])%list.
Proof.
  unfold add_document, add_document_try, try_catch, bind, addDocument, await.
  destruct id as [[|c i]|]; cbn; destruct (client _); reflexivity.
Qed.

(** C10: [add_document] with the empty string as id behaves as with no
    id, and its request has no [id] key; a non-empty id is sent unchanged.
    In the bulk wire sequence an operation whose id is the empty string
    compiles as the same operation without id, and its action descriptor
    carries no [_id]. *)
Theorem C10_empty_id_is_absent (index : string) (document : Js.record) (w : World)
    (c : ascii) (id : string) (op : BulkOperation) :
  add_document client index (Some "") document w
  = add_document client index None document w
  /\ requests (fst (add_document client index (Some "") document w))
     = (requests w ++
        [ client_index {| index_index := index; index_document := document;
                          index_id := None |} ])%list
  /\ requests (fst (add_document client index (Some (String c id)) document w))
     = (requests w ++
        [ client_index {| index_index := index; index_document := document;
                          index_id := Some (String c id) |} ])%list
  /\ compile_operations
       [ {| op_action := op_action op; op_index := op_index op;
            op_id := Some ""; op_document := op_document op |} ]
     = compile_operations
         [ {| op_action := op_action op; op_index := op_index op;
              op_id := None; op_document := op_document op |} ]
  /\ hd_error (compile_operations
                 [ {| op_action := op_action op; op_index := op_index op;
                      op_id := Some ""; op_document := op_document op |} ])
     = Some (Js.Obj [ (action_name (op_action op),
                       Js.Obj [ ("_index", Js.Str (op_index op)) ]) ]).
Proof.
  split; [reflexivity|].
  split; [apply add_document_requests|].
  split; [apply add_document_requests|].
  split; [reflexivity|].
  destruct (op_action op); reflexivity.
Qed.

(** A handler is its [try] block followed by its [catch] clause. *)
Lemma handler_runs_try_block (call : ToolCall) (w : World) :
  match try_block client JSON_stringify parseInt call w with
  | (w1, inr envelope) =>
      handler client JSON_stringify parseInt call w = (w1, inr envelope)
  | (w1, inl e) =>
      snd (handler client JSON_stringify parseInt call w)
      = inr (error_envelope (error_prefix call) e)
      /\ requests (fst (handler client JSON_stringify parseInt call w)) = requests w1
  end.
Proof.
  destruct call; cbn [handler try_block error_prefix];
    match goal with
    | |- match ?body with _ => _ end => destruct body as [w1 [e|envelope]] eqn:E
    end;
    unfold list_indices, get_mappings, search_tool, get_cluster_health, get_shards,
      add_document, update_document, delete_document, update_by_query,
      delete_by_query, bulk_tool, create_index, delete_index, count_documents,
      get_templates, get_aliases, try_catch;
    rewrite E; try split; reflexivity.
Qed.

(** C1 (amended): every handler returns an envelope and never throws.
    When its [try] block completes, the envelope is the block's own; when
    the block throws an error, the envelope has a single fragment, the
    tool's error prefix followed by the error's message, and no further
    request is sent. The prefix is ["Error: "] for thirteen tools and
    ["Error adding document: "], ["Error updating document: "],
    ["Error deleting document: "] for [add_document], [update_document]
    and [delete_document]. *)
Theorem C1_handlers_catch_every_error (call : ToolCall) (w : World) :
  (exists envelope,
      snd (handler client JSON_stringify parseInt call w) = inr envelope)
  /\ match try_block client JSON_stringify parseInt call w with
     | (w1, inr envelope) =>
         handler client JSON_stringify parseInt call w = (w1, inr envelope)
     | (w1, inl e) =>
         snd (handler client JSON_stringify parseInt call w)
         = inr (error_envelope (error_prefix call) e)
         /\ requests (fst (handler client JSON_stringify parseInt call w))
            = requests w1
     end.
Proof.
  pose proof (handler_runs_try_block call w) as H.
  split; [|exact H].
  destruct (try_block client JSON_stringify parseInt call w) as [w1 [e|envelope]].
  - destruct H as [H _]. eexists. exact H.
  - rewrite H. eexists. reflexivity.
Qed.

End HandlerProperties.

(** C6 on the scenario of the specification: the single operation
    [{action: "delete", index: "a"}]. *)
Lemma C6_bulk_rejects_first_invalid_witness :
  forallb operation_valid [ delete_without_id ] = false
  /\ exists valid op rest,
       [ delete_without_id ] = (valid ++ op :: rest)%list
       /\ forallb operation_valid valid = true
       /\ operation_valid op = false
       /\ bulk_tool quiet_client [ delete_without_id ] None initial_world
          = ({| requests := [];
                stderr :=
                  [ ("Bulk operation failed: "
                     ++ validation_message (List.length valid + 1) op)%string ] |},
             inr {| content :=
                      [ text_fragment
                          ("Error: "
                           ++ validation_message (List.length valid + 1) op) ] |}).
Proof.
  split; [reflexivity|].
  exact (C6_bulk_rejects_first_invalid quiet_client [ delete_without_id ] None
           initial_world eq_refl).
Defined.

Example bulk_rejects_delete_without_id :
  bulk_tool quiet_client [ delete_without_id ] None initial_world
  = ({| requests := [];
        stderr :=
          [ "Bulk operation failed: Operation #1 (delete): Document ID is required" ] |},
     inr {| content :=
              [ text_fragment
                  "Error: Operation #1 (delete): Document ID is required" ] |}).
Proof. reflexivity. Qed.

Example bulk_rejects_second_operation :
  snd (bulk_tool quiet_client
         [ index_doc_x;
           {| op_action := action_update; op_index := "a"; op_id := Some "7";
              op_document := None |};
           delete_without_id ] None initial_world)
  = inr {| content :=
             [ text_fragment "Error: Operation #2 (update): Document body is required" ] |}.
Proof. reflexivity. Qed.

(** C7 on an [update_by_query] call that leaves [refresh] out and a
    [delete_by_query] call with [refresh: false]. *)
Lemma C7_refresh_tri_state_witness :
  (exists p,
      requests (fst (update_by_query quiet_client "my-index" [("match_all", Js.Obj [])]
                       example_script (Some proceed) None (Some true) initial_world))
      = [client_updateByQuery p]
      /\ ubq_refresh p = true)
  /\ (exists p,
         requests (fst (delete_by_query quiet_client "my-index"
                          [("match_all", Js.Obj [])] None (Some 10%Z) (Some false)
                          initial_world))
         = [client_deleteByQuery p]
         /\ dbq_refresh p = false).
Proof.
  exact (C7_refresh_tri_state quiet_client update_input_without_refresh
           delete_input_refresh_false _ _ initial_world eq_refl eq_refl).
Defined.

(** C1 (counterexample): when the client rejects with the error "boom",
    [add_document] answers "Error adding document: boom", which is not
    "Error: " followed by the message. *)
Lemma C1_add_document_has_its_own_prefix :
  snd (add_document (rejecting_client (ErrorObject "boom")) "a" None [("x", Js.Num 1)]
         initial_world)
  = inr {| content := [ text_fragment "Error adding document: boom" ] |}
  /\ "Error adding document: boom" <> "Error: " ++ error_text (ErrorObject "boom").
Proof.
  split; [reflexivity|]. intro E. vm_compute in E. discriminate E.
Qed.

Example list_indices_rejected :
  forall JSON_stringify parseInt,
    list_indices (rejecting_client (ErrorObject "boom")) JSON_stringify parseInt "logs-*"
      initial_world
    = ({| requests :=
            [ client_cat_indices "logs-*" "json"
                "index,health,status,docs.count,store.size,pri,rep" ];
          stderr := [ "Failed to list indices: boom" ] |},
       inr {| content := [ text_fragment "Error: boom" ] |}).
Proof. reflexivity. Qed.

Example update_document_rejected_with_a_string :
  update_document (rejecting_client (ThrownValue (Js.Str "timeout"))) "a" "1" []
    initial_world
  = ({| requests := [ client_update "a" "1" [] ]; stderr := [] |},
     inr {| content := [ text_fragment "Error updating document: timeout" ] |}).
Proof. reflexivity. Qed.

Example add_document_reports_assigned_id :
  snd (add_document (fun call =>
                       match call as c return Thrown + Response c with
                       | client_index _ => inr [("_id", Js.Str "AbC123")]
                       | other => quiet_client other
                       end)
         "a" None [("x", Js.Num 1)] initial_world)
  = inr {| content :=
             [ text_fragment "Document added to index 'a' with ID: AbC123" ] |}.
Proof. reflexivity. Qed.

(** * Bulk summary *)

Lemma summarize_item_skips (summary : BulkSummary) (item : Js.record) (idx : nat) :
  item_reported item = false -> summarize_item summary item idx = summary.
Proof. unfold summarize_item, item_reported. now intros ->. Qed.

Lemma summarize_item_reports (summary : BulkSummary) (item : Js.record) (idx : nat) :
  item_reported item = true ->
  exists r,
    summary_actionResults (summarize_item summary item idx)
    = (summary_actionResults summary ++ [r])%list
    /\ record_operation r = Js.Num (Z.of_nat idx)
    /\ Js.get r "action" = item_action_type item
    /\ summary_took (summarize_item summary item idx) = summary_took summary
    /\ ((Js.truthy (Js.get r "error") = true
         /\ summary_failures (summarize_item summary item idx)
            = (summary_failures summary + 1)%Z
         /\ summary_successes (summarize_item summary item idx)
            = summary_successes summary)
        \/ (Js.truthy (Js.get r "error") = false
            /\ summary_failures (summarize_item summary item idx)
               = summary_failures summary
            /\ summary_successes (summarize_item summary item idx)
               = (summary_successes summary + 1)%Z)).
Proof.
  unfold summarize_item, item_reported. intros ->. cbn [negb].
  destruct (Js.truthy (Js.get (item_result item) "error"));
    eexists; (split; [reflexivity|]); repeat (split; [reflexivity|]).
  - left. repeat split.
  - right. repeat split.
Qed.

(** What the loop over the items adds to a summary. *)
Lemma summarize_items_invariant (items : list Js.record) :
  forall (idx : nat) (summary : BulkSummary),
    let summary' := forEach summarize_item items idx summary in
    map record_operation (summary_actionResults summary')
    = (map record_operation (summary_actionResults summary)
       ++ map (fun i => Js.Num (Z.of_nat i)) (reported_positions items idx))%list
    /\ (summary_successes summary' + summary_failures summary'
        = summary_successes summary + summary_failures summary
          + Z.of_nat (List.length (reported_positions items idx)))%Z
    /\ (summary_failures summary' - Z.of_nat (List.length (reported_failures summary'))
        = summary_failures summary
          - Z.of_nat (List.length (reported_failures summary)))%Z
    /\ summary_took summary' = summary_took summary.
Proof.
  induction items as [|item rest IH]; intros idx summary; cbn [forEach reported_positions].
  - cbn. rewrite app_nil_r. repeat split; lia.
  - destruct (item_reported item) eqn:R.
    + destruct (summarize_item_reports summary item idx R)
        as (r & Hres & Hop & _ & Htook & Hcount).
      destruct (IH (S idx) (summarize_item summary item idx)) as (I1 & I2 & I3 & I4).
      cbv zeta. rewrite I1, I2, I3, I4, Htook. cbn [map List.length].
      unfold reported_failures. rewrite Hres, map_app, filter_app, length_app.
      cbn [map filter]. rewrite Hop, <- app_assoc. cbn [app].
      destruct Hcount as [(E & F & S0)|(E & F & S0)]; rewrite E, F, S0;
        cbn [List.length]; repeat split; lia.
    + rewrite (summarize_item_skips _ _ _ R). apply IH.
Qed.

Lemma summarize_invariant (response : BulkOperationResult) :
  let summary := summarize response in
  map record_operation (summary_actionResults summary)
  = map (fun i => Js.Num (Z.of_nat i)) (reported_positions (bulk_items response) 0)
  /\ (summary_successes summary + summary_failures summary
      = Z.of_nat (List.length (reported_positions (bulk_items response) 0)))%Z
  /\ summary_failures summary = Z.of_nat (List.length (reported_failures summary)).
Proof.
  intros summary.
  destruct (summarize_items_invariant (bulk_items response) 0
              {| summary_took := bulk_took response;
                 summary_errors := bulk_errors response;
                 summary_successes := 0;
                 summary_failures := 0;
                 summary_actionResults := [] |}) as (I1 & I2 & I3 & _).
  fold (summarize response) in I1, I2, I3. fold summary in I1, I2, I3.
  cbn in I1, I2, I3. repeat split; [exact I1 | lia | lia].
Qed.

Lemma reported_positions_all (items : list Js.record) :
  forall idx : nat,
    forallb item_reported items = true ->
    reported_positions items idx = seq idx (List.length items).
Proof.
  induction items as [|item rest IH]; intros idx H; [reflexivity|].
  simpl in *. apply andb_prop in H. destruct H as [-> H]. now rewrite IH.
Qed.

(** C3 (counterexample): for the single operation "delete document 1 of
    a" and a response whose single item is [{delete: null}], the summary
    has no record and both counts are 0, not one record and a sum of 1. *)
Lemma C3_null_result_is_skipped :
  List.length (bulk_items response_with_null_result) = List.length [ delete_doc_1 ]
  /\ summary_actionResults (summarize response_with_null_result) = []
  /\ (summary_successes (summarize response_with_null_result)
      + summary_failures (summarize response_with_null_result))%Z
     <> Z.of_nat (List.length [ delete_doc_1 ]).
Proof.
  split; [reflexivity|]. split; [reflexivity|]. intro E. vm_compute in E. discriminate E.
Qed.

(** C3 (amended): for a response with as many items as there are
    operations, the summary holds one record for each item whose first key
    maps to a truthy result, in the order of the items and carrying the
    item's position, and the success and failure counts add up to the
    number of these items; an item whose first key maps to a null or
    missing result, or that has no key, gets no record and is not counted.
    When every item has a truthy result there is one record per operation,
    at positions 0, 1, ..., and the counts add up to the number of
    operations. *)
Theorem C3_summary_records (operations : list BulkOperation)
    (response : BulkOperationResult)
    (Hlen : List.length (bulk_items response) = List.length operations) :
  let summary := summarize response in
  let positions := reported_positions (bulk_items response) 0 in
  map record_operation (summary_actionResults summary)
  = map (fun i => Js.Num (Z.of_nat i)) positions
  /\ (summary_successes summary + summary_failures summary
      = Z.of_nat (List.length positions))%Z
  /\ (forallb item_reported (bulk_items response) = true ->
      positions = seq 0 (List.length operations)
      /\ List.length (summary_actionResults summary) = List.length operations
      /\ (summary_successes summary + summary_failures summary
          = Z.of_nat (List.length operations))%Z).
Proof.
  intros summary positions.
  destruct (summarize_invariant response) as (I1 & I2 & _).
  fold summary in I1, I2. fold positions in I1, I2.
  split; [exact I1|]. split; [exact I2|].
  intros Hall.
  assert (P : positions = seq 0 (List.length operations)).
  { unfold positions. rewrite reported_positions_all by assumption. now rewrite Hlen. }
  split; [exact P|]. split.
  - rewrite <- (length_map record_operation), I1, length_map, P. apply length_seq.
  - rewrite I2, P, length_seq. lia.
Qed.

(** C3 on a response with one created document and one failed delete. *)
Lemma C3_summary_records_witness :
  List.length (bulk_items response_created_and_failed)
  = List.length [ index_doc_x; delete_doc_1 ]
  /\ map record_operation (summary_actionResults (summarize response_created_and_failed))
     = [ Js.Num 0; Js.Num 1 ]
  /\ (summary_successes (summarize response_created_and_failed)
      + summary_failures (summarize response_created_and_failed) = 2)%Z
  /\ List.length (summary_actionResults (summarize response_created_and_failed)) = 2%nat.
Proof.
  split; [reflexivity|].
  pose proof (C3_summary_records [ index_doc_x; delete_doc_1 ]
                response_created_and_failed eq_refl) as H.
  cbv zeta in H. destruct H as (H1 & H2 & H3).
  split; [exact H1|]. split; [exact H2|].
  exact (proj1 (proj2 (H3 eq_refl))).
Defined.

Example summary_of_created_and_failed :
  summarize response_created_and_failed
  = {| summary_took := 7;
       summary_errors := true;
       summary_successes := 1;
       summary_failures := 1;
       summary_actionResults :=
         [ Js.Obj [ ("operation", Js.Num 0); ("action", Js.Str "index");
                    ("id", Js.Str "k1"); ("index", Js.Str "a");
                    ("status", Js.Num 201); ("result", Js.Str "created") ];
           Js.Obj [ ("operation", Js.Num 1); ("action", Js.Str "delete");
                    ("id", Js.Str "1"); ("index", Js.Str "a");
                    ("status", Js.Num 404);
                    ("error", Js.Obj [ ("type", Js.Str "not_found");
                                       ("reason", Js.Str "missing") ]) ] ] |}.
Proof. reflexivity. Qed.

(** * Failure lists of the reports *)

(** The text shown for an optional string with a fallback: [s || fallback]. *)
Lemma or_fallback (o : option string) (fallback : string) :
  Js.to_string (Js.or (Js.of_option_string o) (Js.Str fallback))
  = match o with
    | Some "" | None => fallback
    | Some s => s
    end.
Proof. destruct o as [[|c s]|]; reflexivity. Qed.

(** On the delete path an absent id shows as "unknown" and an absent
    reason as "Unknown". *)
Lemma delete_failure_line_form (failure : QueryFailure) (idx : nat) :
  delete_failure_line failure idx
  = nl ++ Js.dec (Z.of_nat idx + 1) ++ ". ID: "
    ++ match failure_id failure with
       | Some "" | None => "unknown"
       | Some id => id
       end
    ++ ", Reason: "
    ++ match failure_cause failure with
       | Some {| cause_reason := Some (String c r) |} => String c r
       | _ => "Unknown"
       end.
Proof.
  unfold delete_failure_line. rewrite or_fallback.
  destruct failure as [id [[t [[|c r]|]]|]]; reflexivity.
Qed.

(** On the update path the id is printed as it is. *)
Lemma update_failure_line_form (failure : QueryFailure) (index : nat) :
  update_failure_line failure index
  = nl ++ Js.dec (Z.of_nat index + 1) ++ ". ID: "
    ++ match failure_id failure with
       | Some id => id
       | None => "undefined"
       end
    ++ ", Reason: "
    ++ match failure_cause failure with
       | Some {| cause_reason := Some (String c r) |} => String c r
       | _ => "Unknown"
       end.
Proof.
  unfold update_failure_line.
  destruct failure as [[id|] [[t [[|c r]|]]|]]; reflexivity.
Qed.

Lemma render_lines_entries {A B : Type} (line : A -> nat -> string)
    (entry : nat -> B -> string) (xs : list A) (ys : list B) :
  Forall2 (line_is_entry line entry) xs ys ->
  forall k : nat, render_lines line xs k = numbered_entries entry (S k) ys.
Proof.
  induction 1 as [|x y xs ys H _ IH]; intros k; simpl; [reflexivity|].
  now rewrite H, IH.
Qed.

Lemma Forall2_firstn {A B : Type} (R : A -> B -> Prop) (n : nat) (xs : list A)
    (ys : list B) :
  Forall2 R xs ys -> Forall2 R (firstn n xs) (firstn n ys).
Proof.
  intros H. revert n. induction H as [|x y xs ys H _ IH]; intros [|n]; simpl;
    constructor; auto.
Qed.

Lemma Forall2_same {A : Type} (R : A -> A -> Prop) (xs : list A) :
  (forall x, R x x) -> Forall2 R xs xs.
Proof. intros H. induction xs; constructor; auto. Qed.

(** The loop over [slice(0, 5)] and the overflow test of the three
    reports, as the failure list of the entries. *)
Lemma sliced_loop_is_failure_list {A B : Type} (line : A -> nat -> string)
    (entry : nat -> B -> string) (before after : string) (xs : list A) (ys : list B)
    (text : string) :
  Forall2 (line_is_entry line entry) xs ys ->
  (let resultText :=
     forEach (fun resultText x i => resultText ++ line x i) (Js.slice0 5 xs) 0 text in
   if (5 <? List.length xs)%nat
   then resultText ++ before ++ Js.dec (Z.of_nat (List.length xs) - 5) ++ after
   else resultText)
  = text ++ failure_list entry
              (fun hidden => before ++ Js.dec (Z.of_nat hidden) ++ after) ys.
Proof.
  intros H. cbv zeta. unfold failure_list, Js.slice0.
  rewrite forEach_append_lines.
  rewrite (render_lines_entries line entry _ _ (Forall2_firstn _ 5 _ _ H)).
  rewrite <- (Forall2_length H).
  destruct (Nat.ltb_spec 5 (List.length xs)) as [L|L].
  - replace (Z.of_nat (List.length xs) - 5)%Z with (Z.of_nat (List.length xs - 5))
      by lia.
    now rewrite append_assoc.
  - rewrite (firstn_all2 ys) by (rewrite <- (Forall2_length H); exact L).
    reflexivity.
Qed.

Lemma update_line_is_entry (failure : QueryFailure) :
  line_is_entry update_failure_line update_failure_entry failure failure.
Proof.
  intros k. rewrite update_failure_line_form. unfold update_failure_entry, shown_reason.
  replace (Z.of_nat k + 1)%Z with (Z.of_nat (S k)) by lia.
  destruct failure as [id [[t [[|c r]|]]|]]; reflexivity.
Qed.

Lemma delete_line_is_entry (failure : QueryFailure) :
  line_is_entry delete_failure_line delete_failure_entry failure failure.
Proof.
  intros k. rewrite delete_failure_line_form. unfold delete_failure_entry, shown_reason.
  replace (Z.of_nat k + 1)%Z with (Z.of_nat (S k)) by lia.
  destruct failure as [[[|a id]|] [[t [[|c r]|]]|]]; reflexivity.
Qed.

Lemma update_by_query_text_closed (index : string) (response : UpdateByQueryResult) :
  update_by_query_text index response
  = update_by_query_counts index response
    ++ match failures response with
       | Some (f :: fs) =>
           nl ++ nl ++ "Failures:"
           ++ failure_list update_failure_entry query_overflow_line (f :: fs)
       | _ => ""
       end.
Proof.
  unfold update_by_query_text.
  destruct (failures response) as [[|f fs]|]; cbv zeta;
    [now rewrite append_nil_r | | now rewrite append_nil_r].
  change (0 <? List.length (f :: fs))%nat with true. cbv iota.
  pose proof (sliced_loop_is_failure_list update_failure_line update_failure_entry
                (nl ++ "...and ") " more failures." (f :: fs) (f :: fs)
                (update_by_query_counts index response ++ nl ++ nl ++ "Failures:")
                (Forall2_same _ _ update_line_is_entry)) as H.
  cbv zeta in H. rewrite ?append_assoc in H. rewrite ?append_assoc.
  exact H.
Qed.

Lemma delete_by_query_text_closed (index : string) (response : UpdateByQueryResult) :
  delete_by_query_text index response
  = delete_by_query_counts index response
    ++ match failures response with
       | Some (f :: fs) =>
           nl ++ nl ++ "Failures:"
           ++ failure_list delete_failure_entry query_overflow_line (f :: fs)
       | _ => ""
       end.
Proof.
  unfold delete_by_query_text.
  destruct (failures response) as [[|f fs]|]; cbv zeta;
    [now rewrite append_nil_r | | now rewrite append_nil_r].
  change (0 <? List.length (f :: fs))%nat with true. cbv iota.
  pose proof (sliced_loop_is_failure_list delete_failure_line delete_failure_entry
                (nl ++ "...and ") " more failures." (f :: fs) (f :: fs)
                (delete_by_query_counts index response ++ nl ++ nl ++ "Failures:")
                (Forall2_same _ _ delete_line_is_entry)) as H.
  cbv zeta in H. rewrite ?append_assoc in H. rewrite ?append_assoc.
  exact H.
Qed.

Lemma to_string_or (v : Js.value) (fallback : string) :
  Js.to_string (Js.or v (Js.Str fallback)) = text_or v fallback.
Proof. unfold Js.or, text_or. destruct (Js.truthy v); reflexivity. Qed.

(** What the callback of the summary does with one item: the records
    it adds and the counts it increments. *)
Lemma summarize_item_step (summary : BulkSummary) (item : Js.record) (idx : nat) :
  exists records : list Js.value,
    summary_actionResults (summarize_item summary item idx)
    = (summary_actionResults summary ++ records)%list
    /\ Forall2 (line_is_entry bulk_failure_line bulk_failure_entry)
               (filter (fun r => Js.truthy (Js.get r "error")) records)
               (failed_items [item] idx)
    /\ summary_failures (summarize_item summary item idx)
       = (summary_failures summary
          + Z.of_nat (List.length (failed_items [item] idx)))%Z
    /\ summary_successes (summarize_item summary item idx)
       = (summary_successes summary
          + Z.of_nat (List.length (filter item_succeeded [item])))%Z
    /\ summary_took (summarize_item summary item idx) = summary_took summary.
Proof.
  unfold summarize_item, item_result, item_action_type.
  destruct item as [|[action result] more].
  - exists []. cbn. rewrite app_nil_r. repeat split; try lia. constructor.
  - cbn [Js.keys map fst nth_error Js.of_option_string Js.to_string Js.lookup].
    rewrite String.eqb_refl.
    cbn [failed_items failed_item filter item_succeeded].
    destruct (Js.truthy result) eqn:T; cbn [negb andb].
    + destruct (Js.truthy (Js.get result "error")) eqn:E; cbn [negb].
      * eexists. split; [reflexivity|]. cbn [summary_failures summary_successes
                                             summary_took List.length].
        repeat split; try lia.
        cbn [filter Js.get Js.lookup String.eqb Ascii.eqb Bool.eqb Js.truthy].
        constructor; [|constructor].
        intros k. unfold bulk_failure_line, bulk_failure_entry.
        cbn [failed_position failed_action failed_error].
        cbn [Js.get Js.lookup String.eqb Ascii.eqb Bool.eqb Js.to_string].
        rewrite !to_string_or.
        replace (Z.of_nat k + 1)%Z with (Z.of_nat (S k)) by lia. reflexivity.
      * eexists. split; [reflexivity|]. cbn [summary_failures summary_successes
                                             summary_took List.length].
        repeat split; try lia.
        cbn [filter Js.get Js.lookup String.eqb Ascii.eqb Bool.eqb Js.truthy].
        constructor.
    + exists []. cbn [summary_failures summary_successes summary_took List.length].
      rewrite app_nil_r. repeat split; try lia. constructor.
Qed.

Lemma failed_items_cons (item : Js.record) (rest : list Js.record) (idx : nat) :
  failed_items (item :: rest) idx
  = (failed_items [item] idx ++ failed_items rest (S idx))%list.
Proof. cbn [failed_items]. destruct (failed_item idx item); reflexivity. Qed.

Lemma summarize_items_failures (items : list Js.record) :
  forall (idx : nat) (summary : BulkSummary),
    let summary' := forEach summarize_item items idx summary in
    (exists added : list Js.value,
        reported_failures summary' = (reported_failures summary ++ added)%list
        /\ Forall2 (line_is_entry bulk_failure_line bulk_failure_entry)
                   added (failed_items items idx))
    /\ summary_failures summary'
       = (summary_failures summary + Z.of_nat (List.length (failed_items items idx)))%Z
    /\ summary_successes summary'
       = (summary_successes summary
          + Z.of_nat (List.length (filter item_succeeded items)))%Z
    /\ summary_took summary' = summary_took summary.
Proof.
  induction items as [|item rest IH]; intros idx summary; cbn [forEach].
  - cbv zeta. split; [exists []; split; [now rewrite app_nil_r | constructor]|].
    cbn. repeat split; lia.
  - destruct (summarize_item_step summary item idx) as (records & R & F & Cf & Cs & Ct).
    destruct (IH (S idx) (summarize_item summary item idx))
      as ((added & A & FA) & If & Is & It).
    cbv zeta. rewrite failed_items_cons.
    split; [|split; [|split]].
    + eexists. split.
      * rewrite A. unfold reported_failures at 1. rewrite R, filter_app.
        fold (reported_failures summary). rewrite <- app_assoc. reflexivity.
      * apply Forall2_app; assumption.
    + rewrite If, Cf, length_app. lia.
    + rewrite Is, Cs. change (item :: rest) with ([item] ++ rest)%list.
      rewrite filter_app, length_app. lia.
    + now rewrite It, Ct.
Qed.

Lemma summarize_failures (response : BulkOperationResult) :
  Forall2 (line_is_entry bulk_failure_line bulk_failure_entry)
          (reported_failures (summarize response))
          (failed_items (bulk_items response) 0)
  /\ summary_failures (summarize response)
     = Z.of_nat (List.length (failed_items (bulk_items response) 0))
  /\ summary_successes (summarize response)
     = Z.of_nat (List.length (filter item_succeeded (bulk_items response)))
  /\ summary_took (summarize response) = bulk_took response.
Proof.
  destruct (summarize_items_failures (bulk_items response) 0
              {| summary_took := bulk_took response;
                 summary_errors := bulk_errors response;
                 summary_successes := 0;
                 summary_failures := 0;
                 summary_actionResults := [] |}) as ((added & A & F) & Cf & Cs & Ct).
  fold (summarize response) in A, Cf, Cs, Ct.
  cbn [reported_failures summary_actionResults filter app summary_failures
       summary_successes summary_took] in A, Cf, Cs, Ct.
  rewrite A. repeat split; [exact F | lia | lia | exact Ct].
Qed.

Lemma bulk_text_closed (operations : list BulkOperation) (response : BulkOperationResult) :
  bulk_text operations (summarize response)
  = bulk_counts operations (summarize response)
    ++ match failed_items (bulk_items response) 0 with
       | [] => ""
       | fs => nl ++ "Failures:" ++ nl
               ++ failure_list bulk_failure_entry bulk_overflow_line fs
       end.
Proof.
  destruct (summarize_failures response) as (F & Cf & _ & _).
  unfold bulk_text. rewrite Cf. cbv zeta.
  pose proof (sliced_loop_is_failure_list bulk_failure_line bulk_failure_entry
                "...and " (" more failures." ++ nl)
                _ _
                (bulk_counts operations (summarize response) ++ nl ++ "Failures:" ++ nl)
                F) as H.
  cbv zeta in H.
  destruct (failed_items (bulk_items response) 0) as [|f fs] eqn:E.
  - cbn. now rewrite append_nil_r.
  - replace (0 <? Z.of_nat (List.length (f :: fs)))%Z with true
      by (symmetry; apply Z.ltb_lt; cbn [List.length]; lia).
    rewrite ?append_assoc in H. rewrite ?append_assoc. exact H.
Qed.

Lemma bulk_text_is_report (operations : list BulkOperation)
    (response : BulkOperationResult) :
  bulk_text operations (summarize response) = bulk_report operations response.
Proof.
  rewrite bulk_text_closed. unfold bulk_counts, bulk_report, length_text.
  destruct (summarize_failures response) as (_ & -> & -> & ->).
  cbv zeta. rewrite !append_assoc. reflexivity.
Qed.

(** C5: in the reports of [update_by_query], [delete_by_query] and
    [bulk], a non-empty failure list is rendered, after the counts and the
    "Failures:" heading, as [failure_list] states. With more than five
    failures: the entries of the first five, in their order and numbered 1
    to 5, then the overflow line "...and N more failures." with N the
    count minus five. With five or fewer: the entries of all of them, in
    their order and numbered from 1, and no overflow line. The entry of a
    failure of a query-scoped mutation shows its id and reason; the failures
    of the bulk report are the items of the response whose result carries
    an error, in the order of the items, and the entry of each shows its
    position among the items, its action and its error. The failure count
    that the bulk report prints is the number of these items. *)
Theorem C5_failure_truncation (index : string) (response : UpdateByQueryResult)
    (operations : list BulkOperation) (bulk_response : BulkOperationResult) :
  update_by_query_text index response
  = update_by_query_counts index response
    ++ match failures response with
       | Some (f :: fs) =>
           nl ++ nl ++ "Failures:"
           ++ failure_list update_failure_entry query_overflow_line (f :: fs)
       | _ => ""
       end
  /\ delete_by_query_text index response
     = delete_by_query_counts index response
       ++ match failures response with
          | Some (f :: fs) =>
              nl ++ nl ++ "Failures:"
              ++ failure_list delete_failure_entry query_overflow_line (f :: fs)
          | _ => ""
          end
  /\ bulk_text operations (summarize bulk_response)
     = bulk_counts operations (summarize bulk_response)
       ++ match failed_items (bulk_items bulk_response) 0 with
          | [] => ""
          | fs => nl ++ "Failures:" ++ nl
                  ++ failure_list bulk_failure_entry bulk_overflow_line fs
          end
  /\ summary_failures (summarize bulk_response)
     = Z.of_nat (List.length (failed_items (bulk_items bulk_response) 0)).
Proof.
  split; [apply update_by_query_text_closed|].
  split; [apply delete_by_query_text_closed|].
  split; [apply bulk_text_closed|].
  apply summarize_failures.
Qed.

Example six_failures_show_five_and_overflow :
  delete_by_query_text "a" result_with_six_failures
  = "Delete by query completed successfully in index 'a':" ++ nl
    ++ "- Total documents processed: 6" ++ nl
    ++ "- Documents deleted: 0" ++ nl
    ++ "- Deletion failures: 6" ++ nl
    ++ "- Time taken: 5ms" ++ nl ++ nl
    ++ "Failures:" ++ nl
    ++ "1. ID: d1, Reason: conflict" ++ nl
    ++ "2. ID: d2, Reason: conflict" ++ nl
    ++ "3. ID: d3, Reason: conflict" ++ nl
    ++ "4. ID: d4, Reason: conflict" ++ nl
    ++ "5. ID: d5, Reason: conflict" ++ nl
    ++ "...and 1 more failures.".
Proof. vm_compute. reflexivity. Qed.

Example delete_by_query_scenario :
  delete_by_query_text "a" delete_scenario_result
  = "Delete by query completed successfully in index 'a':" ++ nl
    ++ "- Total documents processed: 10" ++ nl
    ++ "- Documents deleted: 7" ++ nl
    ++ "- Deletion failures: 1" ++ nl
    ++ "- Time taken: 12ms" ++ nl
    ++ "- Version conflicts: 1" ++ nl ++ nl
    ++ "Failures:" ++ nl
    ++ "1. ID: d1, Reason: conflict".
Proof. vm_compute. reflexivity. Qed.

Example bulk_report_of_created_and_failed :
  bulk_text [ index_doc_x; delete_doc_1 ] (summarize response_created_and_failed)
  = "Bulk operation completed in 7ms" ++ nl
    ++ "- Total operations: 2" ++ nl
    ++ "- Successful: 1" ++ nl
    ++ "- Failed: 1" ++ nl ++ nl
    ++ "Failures:" ++ nl
    ++ "1. Operation #1 (delete): missing [not_found]" ++ nl.
Proof. vm_compute. reflexivity. Qed.

(** Of eight items six failed: the first five of them are listed under
    their positions among the items. *)
Example bulk_report_of_six_failed :
  bulk_text [ delete_doc_1 ] (summarize response_with_six_failed)
  = "Bulk operation completed in 4ms" ++ nl
    ++ "- Total operations: 1" ++ nl
    ++ "- Successful: 1" ++ nl
    ++ "- Failed: 6" ++ nl ++ nl
    ++ "Failures:" ++ nl
    ++ "1. Operation #0 (delete): r1 [t1]" ++ nl
    ++ "2. Operation #2 (update): r2 [unknown_error]" ++ nl
    ++ "3. Operation #3 (create): Unknown error [unknown_error]" ++ nl
    ++ "4. Operation #5 (delete): Unknown error [t4]" ++ nl
    ++ "5. Operation #6 (index): r5 [t5]" ++ nl
    ++ "...and 1 more failures." ++ nl.
Proof. vm_compute. reflexivity. Qed.

(** * Failure lines of the query-scoped mutations *)

(** C8 (the code at the failing input): for a failure without id and with
    the reason "conflict", the report of [update_by_query] shows the line
    "1. ID: undefined, Reason: conflict", while the report of
    [delete_by_query] shows "1. ID: unknown, Reason: conflict" for the
    same failure. *)
Theorem C8_update_line_shows_undefined_id :
  update_failure_line failure_without_id 0 = nl ++ "1. ID: undefined, Reason: conflict"
  /\ delete_failure_line failure_without_id 0 = nl ++ "1. ID: unknown, Reason: conflict"
  /\ snd (update_by_query client_with_failure_without_id "a" [("match_all", Js.Obj [])]
            example_script None None None initial_world)
     = inr {| content :=
                [ text_fragment
                    ("Update by query completed successfully in index 'a':" ++ nl
                     ++ "- Total documents processed: 10" ++ nl
                     ++ "- Documents updated: 7" ++ nl
                     ++ "- Documents that failed: 1" ++ nl
                     ++ "- Time taken: 12ms" ++ nl ++ nl
                     ++ "Failures:" ++ nl
                     ++ "1. ID: undefined, Reason: conflict") ] |}.
Proof.
  split; [vm_compute; reflexivity|]. split; vm_compute; reflexivity.
Qed.

(** * Validated configurations *)

Lemma trimStart_skip (s : string) :
  Js.trimStart s
  = match Js.skip_white_space s with Some rest => Js.trimStart rest | None => s end.
Proof.
  destruct s as [|c1 [|c2 [|c3 r3]]]; simpl; try reflexivity.
  - destruct (Js.is_white_space c1); reflexivity.
  - destruct (Js.is_white_space c1); [reflexivity|].
    destruct (Js.is_white_space_2 c1 c2); reflexivity.
  - destruct (Js.is_white_space c1); [reflexivity|].
    destruct (Js.is_white_space_2 c1 c2); [reflexivity|].
    destruct (Js.is_white_space_3 c1 c2 c3); reflexivity.
Qed.

Lemma skip_white_space_shorter (s rest : string) :
  Js.skip_white_space s = Some rest -> String.length rest < String.length s.
Proof.
  destruct s as [|c1 [|c2 [|c3 r3]]]; simpl; try discriminate.
  - destruct (Js.is_white_space c1); [|discriminate].
    intros H. injection H as <-. simpl. lia.
  - destruct (Js.is_white_space c1); [intros H; injection H as <-; simpl; lia|].
    destruct (Js.is_white_space_2 c1 c2); [|discriminate].
    intros H. injection H as <-. simpl. lia.
  - destruct (Js.is_white_space c1); [intros H; injection H as <-; simpl; lia|].
    destruct (Js.is_white_space_2 c1 c2); [intros H; injection H as <-; simpl; lia|].
    destruct (Js.is_white_space_3 c1 c2 c3); [|discriminate].
    intros H. injection H as <-. simpl. lia.
Qed.

Lemma skip_white_space_append (a rest b : string) :
  Js.skip_white_space a = Some rest -> Js.skip_white_space (a ++ b) = Some (rest ++ b).
Proof.
  destruct a as [|c1 [|c2 [|c3 r3]]]; simpl; try discriminate.
  - destruct (Js.is_white_space c1); [|discriminate].
    intros H. injection H as <-. reflexivity.
  - destruct (Js.is_white_space c1); [intros H; injection H as <-; reflexivity|].
    destruct (Js.is_white_space_2 c1 c2); [|discriminate].
    intros H. injection H as <-. reflexivity.
  - destruct (Js.is_white_space c1); [intros H; injection H as <-; reflexivity|].
    destruct (Js.is_white_space_2 c1 c2); [intros H; injection H as <-; reflexivity|].
    destruct (Js.is_white_space_3 c1 c2 c3); [|discriminate].
    intros H. injection H as <-. reflexivity.
Qed.

(** What [trimStart] returns starts with no white space. *)
Lemma trimStart_stops (s : string) : Js.skip_white_space (Js.trimStart s) = None.
Proof.
  remember (String.length s) as n eqn:L.
  revert s L. induction n as [n IH] using lt_wf_ind. intros s L.
  rewrite trimStart_skip. destruct (Js.skip_white_space s) as [rest|] eqn:E.
  - apply (IH (String.length rest)); [|reflexivity].
    subst n. now apply skip_white_space_shorter.
  - exact E.
Qed.

Lemma trimStart_idempotent (s : string) : Js.trimStart (Js.trimStart s) = Js.trimStart s.
Proof. rewrite (trimStart_skip (Js.trimStart s)). now rewrite trimStart_stops. Qed.

Lemma all_white_space_spec (s : string) :
  Js.all_white_space s = true <-> Js.trimStart s = "".
Proof.
  unfold Js.all_white_space. destruct (Js.trimStart s); split; congruence.
Qed.

Lemma all_white_space_append (a b : string) :
  Js.all_white_space a = true -> Js.all_white_space b = true ->
  Js.all_white_space (a ++ b) = true.
Proof.
  remember (String.length a) as n eqn:L.
  revert a L. induction n as [n IH] using lt_wf_ind. intros a L A B.
  destruct a as [|c rest]; [exact B|].
  apply all_white_space_spec in A. rewrite trimStart_skip in A.
  destruct (Js.skip_white_space (String c rest)) as [r|] eqn:E; [|discriminate A].
  apply all_white_space_spec. rewrite trimStart_skip.
  rewrite (skip_white_space_append _ _ b E).
  apply all_white_space_spec.
  apply (IH (String.length r)); [|reflexivity| |exact B].
  - subst n. now apply skip_white_space_shorter.
  - now apply all_white_space_spec.
Qed.

(** [trimEnd] removes a tail of white space. *)
Lemma trimEnd_split (s : string) :
  exists tail, s = Js.trimEnd s ++ tail /\ Js.all_white_space tail = true.
Proof.
  induction s as [|c rest (tail & E & T)]; [now exists ""|].
  cbn [Js.trimEnd]. destruct (Js.all_white_space (String c rest)) eqn:A.
  - now exists (String c rest).
  - exists tail. split; [|exact T]. simpl. now rewrite <- E.
Qed.

Lemma trimEnd_idempotent (s : string) : Js.trimEnd (Js.trimEnd s) = Js.trimEnd s.
Proof.
  induction s as [|c rest IH]; [reflexivity|].
  cbn [Js.trimEnd]. destruct (Js.all_white_space (String c rest)) eqn:A; [reflexivity|].
  cbn [Js.trimEnd]. rewrite IH.
  destruct (Js.all_white_space (String c (Js.trimEnd rest))) eqn:A'; [|reflexivity].
  destruct (trimEnd_split rest) as (tail & E & T).
  assert (K : Js.all_white_space (String c (Js.trimEnd rest) ++ tail) = true)
    by now apply all_white_space_append.
  simpl append in K. rewrite <- E in K. congruence.
Qed.

Lemma trimStart_fixed (s : string) :
  Js.trimStart s = s -> Js.trimStart (Js.trimEnd s) = Js.trimEnd s.
Proof.
  intros H. rewrite trimStart_skip.
  destruct (Js.skip_white_space (Js.trimEnd s)) as [r|] eqn:E; [exfalso|reflexivity].
  destruct (trimEnd_split s) as (tail & S & _).
  apply (skip_white_space_append _ _ tail) in E. rewrite <- S in E.
  rewrite <- H in E. rewrite trimStart_stops in E. discriminate E.
Qed.

Lemma trim_idempotent (s : string) : Js.trim (Js.trim s) = Js.trim s.
Proof.
  unfold Js.trim.
  rewrite (trimStart_fixed (Js.trimStart s) (trimStart_idempotent s)).
  apply trimEnd_idempotent.
Qed.

Lemma version_transform_values (v : option string) :
  version_transform v = Some "8" \/ version_transform v = Some "9".
Proof.
  unfold version_transform. destruct v as [s|]; simpl; [|now left].
  destruct (s =? "8") eqn:E8; simpl.
  - apply String.eqb_eq in E8. subst. now left.
  - destruct (s =? "9") eqn:E9; simpl; [|now left].
    apply String.eqb_eq in E9. subst. now right.
Qed.

Lemma version_transform_idempotent (v : option string) :
  version_transform (version_transform v) = version_transform v.
Proof. destruct (version_transform_values v) as [-> | ->]; reflexivity. Qed.

Lemma parse_accepts (c : ElasticsearchConfig) :
  Js.trim (url c) <> "" -> auth_refinement c = true ->
  ConfigSchema_parse c = inr (validated c).
Proof.
  intros U A. unfold ConfigSchema_parse. cbv zeta.
  fold (validated c).
  change (auth_refinement (validated c)) with (auth_refinement c). rewrite A.
  change (url (validated c)) with (Js.trim (url c)).
  destruct (Js.trim (url c)) as [|a u]; [congruence | reflexivity].
Qed.

Lemma parse_accepted_data (c d : ElasticsearchConfig) :
  ConfigSchema_parse c = inr d ->
  d = validated c /\ Js.trim (url c) <> "" /\ auth_refinement c = true.
Proof.
  unfold ConfigSchema_parse. cbv zeta. fold (validated c).
  change (auth_refinement (validated c)) with (auth_refinement c).
  change (url (validated c)) with (Js.trim (url c)).
  destruct (Js.trim (url c)) as [|a u] eqn:U; destruct (auth_refinement c);
    cbn; try discriminate.
  intros H. injection H as <-. repeat split. discriminate.
Qed.

(** Parsing is idempotent: a configuration that [ConfigSchema] returns
    is accepted again and returned unchanged, so its url is already
    trimmed and its version already "8" or "9". *)
Theorem parse_is_idempotent (c d : ElasticsearchConfig)
    (H : ConfigSchema_parse c = inr d) :
  ConfigSchema_parse d = inr d.
Proof.
  destruct (parse_accepted_data c d H) as (-> & U & A).
  assert (V : validated (validated c) = validated c).
  { unfold validated. cbn [url apiKey username password caCert pathPrefix version
                             sslSkipVerify].
    now rewrite trim_idempotent, version_transform_idempotent. }
  rewrite <- V at 2. apply parse_accepts.
  - change (url (validated c)) with (Js.trim (url c)). now rewrite trim_idempotent.
  - exact A.
Qed.

(** On a configuration with an API key and a user name. *)
Lemma parse_is_idempotent_witness :
  ConfigSchema_parse config_apiKey_and_username = inr (validated config_apiKey_and_username)
  /\ ConfigSchema_parse (validated config_apiKey_and_username)
     = inr (validated config_apiKey_and_username).
Proof.
  split; [reflexivity|].
  exact (parse_is_idempotent config_apiKey_and_username
           (validated config_apiKey_and_username) eq_refl).
Defined.

(** * Client construction *)

Section CreateClientProperties.

Variable VERSION : string.
Variable readFileSync : string -> Thrown + string.

(** [createClient] always returns options and sends nothing. *)
Lemma createClient_returns (c : ElasticsearchConfig) (w : World) :
  exists options,
    createClient VERSION readFileSync c w
    = ({| requests := requests w;
          stderr := (stderr w ++ certificate_log readFileSync c)%list |},
       inr options)
    /\ node options = url c
    /\ Transport options = pathPrefix c
    /\ tls_ca options = certificate_read readFileSync c
    /\ tls_rejectUnauthorized options
       = match sslSkipVerify c with Some true => Some false | _ => None end
    /\ auth options
       = match apiKey c with
         | Some key => Some (auth_apiKey key)
         | None =>
             match username c, password c with
             | Some user, Some pass => Some (auth_basic user pass)
             | _, _ => None
             end
         end
    /\ headers options
       = (if match version c with Some v => v =? "8" | None => false end
          then [ ("accept", "application/vnd.elasticsearch+json;compatible-with=8");
                 ("content-type",
                  "application/vnd.elasticsearch+json;compatible-with=8") ]
          else [ ("user-agent", "octodet-elasticsearch-mcp/" ++ VERSION) ])
    /\ maxRetries options
       = (if match version c with
             | Some v => (v =? "8") || (v =? "9")
             | None => false
             end
          then Some 5%Z else None)
    /\ requestTimeout options
       = (if match version c with
             | Some v => (v =? "8") || (v =? "9")
             | None => false
             end
          then Some 30000%Z else None).
Proof.
  unfold createClient, certificate_log, certificate_read, bind, try_catch, ret, throw,
    console_error.
  destruct w as [rq err].
  destruct (caCert c) as [[|a path]|]; cbn.
  - rewrite app_nil_r. eexists. split; [reflexivity|].
    destruct (version c); repeat split.
  - destruct (readFileSync (String a path)) as [e|contents]; cbn.
    + eexists. split; [reflexivity|]. destruct (version c); repeat split.
    + rewrite app_nil_r. eexists. split; [reflexivity|].
      destruct (version c); repeat split.
  - rewrite app_nil_r. eexists. split; [reflexivity|].
    destruct (version c); repeat split.
Qed.

(** For a configuration [ConfigSchema] accepted, the client is built
    with the API key when there is one, whatever the user name and password
    are; else with user name and password when there is a user name (the
    validator has rejected a user name without password); else without
    credentials, a password without user name being dropped. *)
Theorem validated_client_auth (c d : ElasticsearchConfig) (w : World)
    (H : ConfigSchema_parse c = inr d) :
  exists w' options,
    createClient VERSION readFileSync d w = (w', inr options)
    /\ match apiKey c, username c, password c with
       | Some key, _, _ => auth options = Some (auth_apiKey key)
       | None, Some user, Some pass => auth options = Some (auth_basic user pass)
       | None, Some _, None => False
       | None, None, _ => auth options = None
       end.
Proof.
  destruct (parse_accepted_data c d H) as (-> & _ & A).
  destruct (createClient_returns (validated c) w)
    as (options & E & _ & _ & _ & _ & Hauth & _).
  eexists; exists options. split; [exact E|].
  rewrite Hauth. unfold auth_refinement in A. cbn.
  destruct (apiKey c), (username c), (password c); try reflexivity; discriminate.
Qed.

(** For a configuration [ConfigSchema] accepted, the client always gets
    5 retries and a 30000 ms request timeout. Its only header is
    [user-agent] when the version is "9"; for every other version the two
    compatibility headers replace it, so no [user-agent] is sent. *)
Theorem validated_client_version_settings (c d : ElasticsearchConfig) (w : World)
    (H : ConfigSchema_parse c = inr d) :
  exists w' options,
    createClient VERSION readFileSync d w = (w', inr options)
    /\ maxRetries options = Some 5%Z
    /\ requestTimeout options = Some 30000%Z
    /\ headers options
       = if match version c with Some v => v =? "9" | None => false end
         then [ ("user-agent", "octodet-elasticsearch-mcp/" ++ VERSION) ]
         else [ ("accept", "application/vnd.elasticsearch+json;compatible-with=8");
                ("content-type",
                 "application/vnd.elasticsearch+json;compatible-with=8") ].
Proof.
  destruct (parse_accepted_data c d H) as (-> & _ & _).
  destruct (createClient_returns (validated c) w)
    as (options & E & _ & _ & _ & _ & _ & Hh & Hr & Ht).
  eexists; exists options. split; [exact E|].
  rewrite Hh, Hr, Ht. cbn [validated version].
  unfold version_transform.
  destruct (version c) as [v|]; cbn; [|repeat split].
  destruct (v =? "8") eqn:E8; cbn.
  - apply String.eqb_eq in E8. subst. repeat split.
  - destruct (v =? "9") eqn:E9; cbn.
    + rewrite E8, E9. repeat split.
    + repeat split.
Qed.

(** A certificate file that cannot be read does not stop the
    construction: one line is written to [console.error] and the options
    are those of the same configuration without certificate. *)
Theorem unreadable_certificate_is_skipped (c : ElasticsearchConfig) (w : World)
    (path : string) (e : Thrown)
    (Hpath : caCert c = Some path) (Hnonempty : path <> "")
    (Hfail : readFileSync path = inl e) :
  let without_certificate :=
    {| url := url c; apiKey := apiKey c; username := username c;
       password := password c; caCert := None; pathPrefix := pathPrefix c;
       version := version c; sslSkipVerify := sslSkipVerify c |} in
  exists options,
    createClient VERSION readFileSync c w
    = ({| requests := requests w;
          stderr :=
            (stderr w
             ++ [ ("Failed to read certificate file: " ++ error_text e)%string ])%list |},
       inr options)
    /\ tls_ca options = None
    /\ snd (createClient VERSION readFileSync without_certificate w) = inr options.
Proof.
  intros without_certificate.
  unfold createClient, bind, try_catch, ret, throw, console_error.
  rewrite Hpath. destruct path as [|a path]; [congruence|].
  rewrite Hfail. cbn. eexists. split; [reflexivity|]. split; reflexivity.
Qed.

End CreateClientProperties.

Lemma validated_client_auth_witness :
  exists w' options,
    createClient "1.0.0" no_file (validated config_apiKey_and_username) initial_world
    = (w', inr options)
    /\ auth options = Some (auth_apiKey "key").
Proof.
  exact (validated_client_auth "1.0.0" no_file config_apiKey_and_username
           (validated config_apiKey_and_username) initial_world eq_refl).
Defined.

Lemma validated_client_version_settings_witness :
  exists w' options,
    createClient "1.0.0" no_file (validated config_apiKey_and_username) initial_world
    = (w', inr options)
    /\ maxRetries options = Some 5%Z
    /\ requestTimeout options = Some 30000%Z
    /\ headers options
       = [ ("accept", "application/vnd.elasticsearch+json;compatible-with=8");
           ("content-type", "application/vnd.elasticsearch+json;compatible-with=8") ].
Proof.
  exact (validated_client_version_settings "1.0.0" no_file config_apiKey_and_username
           (validated config_apiKey_and_username) initial_world eq_refl).
Defined.

Lemma unreadable_certificate_is_skipped_witness :
  exists options,
    createClient "1.0.0" no_file config_with_missing_certificate initial_world
    = ({| requests := [];
          stderr :=
            [ "Failed to read certificate file: ENOENT: no such file or directory, open '/etc/ssl/missing.pem'" ] |},
       inr options)
    /\ tls_ca options = None
    /\ snd (createClient "1.0.0" no_file
              {| url := "https://es.example:9200"; apiKey := None;
                 username := Some "elastic"; password := Some "secret";
                 caCert := None; pathPrefix := Some "/es";
                 version := Some "9"; sslSkipVerify := Some true |}
              initial_world)
       = inr options.
Proof.
  assert (N : "/etc/ssl/missing.pem" <> "") by discriminate.
  exact (unreadable_certificate_is_skipped "1.0.0" no_file
           config_with_missing_certificate initial_world "/etc/ssl/missing.pem"
           (ErrorObject
              "ENOENT: no such file or directory, open '/etc/ssl/missing.pem'")
           eq_refl N eq_refl).
Defined.

(** * Path prefix and environment *)

Lemma lookup_set_property (k k' : string) (v : Js.value) (fields : Js.record) :
  Js.lookup k' (set_property k v fields)
  = if k' =? k then v else Js.lookup k' fields.
Proof.
  induction fields as [|[k0 v0] rest IH]; simpl.
  - rewrite (String.eqb_sym k k'). destruct (k' =? k); reflexivity.
  - destruct (k0 =? k) eqn:E0; simpl.
    + apply String.eqb_eq in E0. subst k0.
      rewrite (String.eqb_sym k k'). destruct (k' =? k); reflexivity.
    + destruct (k0 =? k') eqn:E1.
      * apply String.eqb_eq in E1. subst k0. now rewrite E0.
      * exact IH.
Qed.

Lemma set_property_twice (k : string) (v1 v2 : Js.value) (fields : Js.record) :
  set_property k v2 (set_property k v1 fields) = set_property k v2 fields.
Proof.
  induction fields as [|[k0 v0] rest IH]; simpl.
  - now rewrite String.eqb_refl.
  - destruct (k0 =? k) eqn:E0; simpl; rewrite E0; [reflexivity | now rewrite IH].
Qed.

(** The transport prepends the prefix to the path as it is, keeps every
    other parameter and the order of the keys, and two prefixes applied in
    turn amount to their concatenation. *)
Theorem path_prefix_is_prepended (a b : string) (params : Js.record) (k : string) :
  Js.lookup k (CustomTransport_request a params)
  = (if k =? "path"
     then Js.Str (a ++ Js.to_string (Js.lookup "path" params))
     else Js.lookup k params)
  /\ Js.keys (CustomTransport_request a params)
     = (if existsb (fun key => key =? "path") (Js.keys params)
        then Js.keys params
        else Js.keys params ++ ["path"])%list
  /\ CustomTransport_request a (CustomTransport_request b params)
     = CustomTransport_request (a ++ b) params.
Proof.
  unfold CustomTransport_request. split; [apply lookup_set_property|]. split.
  - generalize (Js.Str (a ++ Js.to_string (Js.lookup "path" params))). intros v.
    induction params as [|[k0 v0] rest IH]; [reflexivity|].
    cbn [set_property Js.keys map fst existsb].
    destruct (k0 =? "path") eqn:E; cbn [Js.keys map fst orb]; [reflexivity|].
    unfold Js.keys in IH. rewrite IH.
    destruct (existsb _ _); reflexivity.
  - rewrite lookup_set_property, String.eqb_refl. cbn [Js.to_string].
    rewrite set_property_twice, append_assoc. reflexivity.
Qed.

(** When [ES_URL] is unset or empty the url is the local default, and
    the configuration from the environment is accepted exactly when
    [ES_API_KEY] is set, or [ES_USERNAME] is unset, or [ES_PASSWORD] is
    set; a variable set to the empty string counts as set. *)
Theorem startup_without_url_checks_only_credentials (env : string -> option string)
    (Hurl : env "ES_URL" = None \/ env "ES_URL" = Some "") :
  url (config env) = "http://localhost:9200"
  /\ (config_accepted (config env) = true <->
      (env "ES_API_KEY" <> None \/ env "ES_USERNAME" = None
       \/ env "ES_PASSWORD" <> None)).
Proof.
  assert (U : url (config env) = "http://localhost:9200").
  { unfold config. cbn. destruct Hurl as [-> | ->]; reflexivity. }
  split; [exact U|].
  rewrite parse_accepts_iff, U. cbn [config apiKey username password].
  split; [intros [_ H]; exact H | intros H; split; [|exact H]].
  intro E. vm_compute in E. discriminate E.
Qed.

Lemma startup_without_url_checks_only_credentials_witness :
  url (config empty_env) = "http://localhost:9200"
  /\ config_accepted (config empty_env) = true.
Proof.
  pose proof (startup_without_url_checks_only_credentials empty_env
                (or_introl eq_refl)) as H.
  split; [exact (proj1 H)|].
  apply (proj2 (proj2 H)). right. left. reflexivity.
Defined.

(** * Dispatch *)

Section DispatchProperties.

Variable client : Client.
Variable JSON_stringify : Js.value -> nat -> string.
Variable parseInt : Js.value -> Z -> Js.value.

(** Unfolds a handler down to the client's answer. *)
Ltac run_handler :=
  unfold list_indices_try, get_mappings_try, search_tool_try, get_cluster_health_try,
    get_shards_try, add_document_try, update_document_try, delete_document_try,
    update_by_query_try, delete_by_query_try, create_index_try, delete_index_try,
    count_documents_try, get_templates_try, get_aliases_try,
    listIndices, getMappings, search, getClusterHealth, getShards, addDocument,
    updateDocument, deleteDocument, updateByQuery, deleteByQuery, getIndexTemplates,
    getAliases, createIndex, deleteIndex, countDocuments,
    bind, ret, await;
  cbv zeta;
  match goal with
  | |- context [client ?request] => destruct (client request)
  end.

(** What a [try] block does to the world. *)
Lemma try_block_world (call : ToolCall) (w : World) :
  exists sent,
    fst (try_block client JSON_stringify parseInt call w)
    = {| requests := (requests w ++ sent)%list; stderr := stderr w |}
    /\ List.length sent = if stops_before_sending call then 0%nat else 1%nat.
Proof.
  destruct call; cbn [try_block stops_before_sending].
  11: { destruct (forallb operation_valid operations) eqn:V; cbn [negb].
        - rewrite bulk_tool_try_valid by assumption. cbv zeta. eexists.
          split; reflexivity.
        - destruct (first_invalid_operation _ V) as (valid & op & rest & -> & Hv & Hop).
          rewrite bulk_tool_try_invalid by assumption. exists [].
          destruct w. cbn. now rewrite app_nil_r. }
  all: run_handler; eexists; split; reflexivity.
Qed.

(** Every handler sends exactly one request to the client, except the
    bulk handler with an invalid operation, which sends none. *)
Theorem handler_sends_at_most_one_request (call : ToolCall) (w : World) :
  exists sent,
    requests (fst (handler client JSON_stringify parseInt call w))
    = (requests w ++ sent)%list
    /\ List.length sent = if stops_before_sending call then 0%nat else 1%nat.
Proof.
  destruct (try_block_world call w) as (sent & E & L).
  exists sent. split; [|exact L].
  pose proof (handler_runs_try_block client JSON_stringify parseInt call w) as H.
  destruct (try_block client JSON_stringify parseInt call w) as [w1 [e|envelope]];
    cbn [fst] in E; subst w1.
  - destruct H as [_ H]. exact H.
  - rewrite H. reflexivity.
Qed.

(** A handler writes to [console.error] only when its [try] block
    throws, and then one line, its label followed by the error's message;
    the handlers of [add_document], [update_document] and [delete_document]
    never write. *)
Theorem handler_logs_only_caught_errors (call : ToolCall) (w : World) :
  stderr (fst (handler client JSON_stringify parseInt call w))
  = (stderr w ++
     match snd (try_block client JSON_stringify parseInt call w), log_label call with
     | inl e, Some label => [ (label ++ ": " ++ error_text e)%string ]
     | _, _ => []
     end)%list.
Proof.
  destruct (try_block_world call w) as (sent & E & _).
  destruct (try_block client JSON_stringify parseInt call w) as [w1 [e|envelope]] eqn:T;
    cbn [fst snd] in *; subst w1.
  - destruct call; cbn [handler try_block log_label] in *;
      unfold list_indices, get_mappings, search_tool, get_cluster_health, get_shards,
        add_document, update_document, delete_document, update_by_query,
        delete_by_query, bulk_tool, create_index, delete_index, count_documents,
        get_templates, get_aliases, try_catch;
      rewrite T; cbn; rewrite ?app_nil_r; reflexivity.
  - pose proof (handler_runs_try_block client JSON_stringify parseInt call w) as H.
    rewrite T in H. rewrite H. cbn. destruct (log_label call); now rewrite app_nil_r.
Qed.

End DispatchProperties.

(** * Search *)

Lemma lookup_without_key (k : string) (fields : Js.record) :
  has_key k fields = false -> Js.lookup k fields = Js.Undefined.
Proof.
  unfold has_key. induction fields as [|[k0 v0] rest IH]; [reflexivity|].
  cbn [Js.keys map fst existsb Js.lookup]. intros H.
  apply orb_false_iff in H. destruct H as [-> H]. now apply IH.
Qed.

Lemma lookup_spread (source : Js.record) :
  forall (target : Js.record) (k : string),
    NoDup (Js.keys source) ->
    Js.lookup k (spread target source)
    = if has_key k source then Js.lookup k source else Js.lookup k target.
Proof.
  unfold spread, has_key.
  induction source as [|[k0 v0] rest IH]; intros target k D; [reflexivity|].
  cbn [fold_left fst snd Js.keys map existsb Js.lookup].
  cbn [Js.keys map fst] in D. apply NoDup_cons_iff in D. destruct D as [N D].
  rewrite (IH _ _ D), lookup_set_property.
  destruct (k0 =? k) eqn:E; cbn [orb].
  - apply String.eqb_eq in E. subst k0. rewrite String.eqb_refl.
    destruct (existsb (fun key => key =? k) (Js.keys rest)) eqn:X; [|reflexivity].
    exfalso. apply N. apply existsb_exists in X. destruct X as (x & I & Ex).
    apply String.eqb_eq in Ex. now subst x.
  - rewrite (String.eqb_sym k k0), E. reflexivity.
Qed.

Lemma forEach_push_fragments {A : Type} (fragment : A -> TextContent) (xs : list A) :
  forall (idx : nat) (acc : list TextContent),
    forEach (fun fragments x _ => (fragments ++ [fragment x])%list) xs idx acc
    = (acc ++ map fragment xs)%list.
Proof.
  induction xs as [|x rest IH]; intros idx acc; simpl.
  - now rewrite app_nil_r.
  - rewrite IH, <- app_assoc. reflexivity.
Qed.

Lemma fold_left_append_if {A : Type} (keep : A -> bool) (line : A -> string)
    (xs : list A) :
  forall acc : string,
    fold_left (fun content x => if keep x then content ++ line x else content) xs acc
    = acc ++ concat_lines (map line (filter keep xs)).
Proof.
  induction xs as [|x rest IH]; intros acc; simpl.
  - now rewrite append_nil_r.
  - rewrite IH. destruct (keep x); [|reflexivity].
    simpl. now rewrite append_assoc.
Qed.

Lemma fold_left_pointwise {A S : Type} (f g : S -> A -> S) (xs : list A) :
  (forall s x, f s x = g s x) ->
  forall s, fold_left f xs s = fold_left g xs s.
Proof.
  intros H. induction xs as [|x rest IH]; intros s; simpl; [reflexivity|].
  now rewrite H, IH.
Qed.

Section SearchProperties.

Variable client : Client.
Variable JSON_stringify : Js.value -> nat -> string.
Variable parseInt : Js.value -> Z -> Js.value.

(** The search request holds every property of [queryBody] unchanged;
    the [index] argument is sent only when [queryBody] has no [index] of its
    own, which otherwise replaces it. *)
Theorem search_request_takes_queryBody (index : string) (queryBody : Js.record)
    (w : World) (k : string)
    (Hkeys : NoDup (Js.keys queryBody)) :
  exists request,
    requests (fst (search_tool client JSON_stringify index queryBody w))
    = (requests w ++ [client_search request])%list
    /\ Js.lookup k request
       = if has_key k queryBody then Js.lookup k queryBody
         else if k =? "index" then Js.Str index else Js.Undefined.
Proof.
  exists (spread [("index", Js.Str index)] queryBody). split.
  - unfold search_tool, search_tool_try, try_catch, bind, search, await.
    destruct (client _); reflexivity.
  - rewrite lookup_spread by assumption. destruct (has_key k queryBody); [reflexivity|].
    cbn. rewrite (String.eqb_sym k "index"). reflexivity.
Qed.

(** The text of a hit is, trimmed: its id and score, then one line per
    highlighted field whose highlight list is not empty, then one line per
    source field whose name is neither a key of the hit's highlight nor a
    name that every object inherits ([constructor], [toString], [valueOf]
    and the others of [Js.object_prototype_members]). A source field whose
    highlight list is empty, or that carries an inherited name, is printed
    in neither part. *)
Theorem hit_text_lines (hit : SearchHit) :
  let highlightedFields := match hit_highlight hit with Some h => h | None => [] end in
  let sourceData := match hit_source hit with Some s => s | None => [] end in
  hit_text JSON_stringify hit
  = Js.trim
      ("Document ID: " ++ hit_id hit ++ nl ++ "Score: " ++ Js.to_string (hit_score hit)
       ++ nl ++ nl
       ++ concat_lines
            (map (fun entry : string * list string =>
                    fst entry ++ " (highlighted): "
                    ++ String.concat " ... " (snd entry) ++ nl)
                 (filter (fun entry : string * list string =>
                            (0 <? List.length (snd entry))%nat)
                         highlightedFields))
       ++ concat_lines
            (map (fun entry : string * Js.value =>
                    fst entry ++ ": " ++ JSON_stringify (snd entry) 0 ++ nl)
                 (filter (fun entry : string * Js.value =>
                            negb (existsb (String.eqb (fst entry))
                                    (map fst highlightedFields))
                            && negb (existsb (String.eqb (fst entry))
                                       Js.object_prototype_members))
                         sourceData))).
Proof.
  intros highlightedFields sourceData. unfold hit_text.
  fold highlightedFields. fold sourceData. cbv zeta. f_equal.
  rewrite (fold_left_pointwise _
             (fun content (entry : string * list string) =>
                if (0 <? List.length (snd entry))%nat
                then content ++ (fst entry ++ " (highlighted): "
                                 ++ String.concat " ... " (snd entry) ++ nl)
                else content))
    by (intros content [field highlights]; reflexivity).
  rewrite (fold_left_pointwise _
             (fun content (entry : string * Js.value) =>
                if negb (existsb (String.eqb (fst entry)) (map fst highlightedFields))
                   && negb (existsb (String.eqb (fst entry)) Js.object_prototype_members)
                then content ++ (fst entry ++ ": " ++ JSON_stringify (snd entry) 0 ++ nl)
                else content))
    by (intros content [field value]; unfold Js.has_property;
        rewrite negb_orb; reflexivity).
  rewrite (fold_left_append_if
             (fun entry : string * Js.value =>
                negb (existsb (String.eqb (fst entry)) (map fst highlightedFields))
                && negb (existsb (String.eqb (fst entry)) Js.object_prototype_members))
             (fun entry : string * Js.value =>
                fst entry ++ ": " ++ JSON_stringify (snd entry) 0 ++ nl)).
  rewrite (fold_left_append_if
             (fun entry : string * list string => (0 <? List.length (snd entry))%nat)
             (fun entry : string * list string =>
                fst entry ++ " (highlighted): "
                ++ String.concat " ... " (snd entry) ++ nl)).
  rewrite !append_assoc. reflexivity.
Qed.

(** When the search resolves, the envelope is the summary fragment
    (total 0 when absent, position 0 when [from] is absent or null), the
    aggregations fragment when the result has aggregations, and one
    fragment per hit in the order of the hits; nothing is logged. *)
Theorem search_envelope_fragments (index : string) (queryBody : Js.record)
    (result : SearchResult) (w : World)
    (Hresult : client (client_search (spread [("index", Js.Str index)] queryBody))
               = inr result) :
  snd (search_tool client JSON_stringify index queryBody w)
  = inr {| content :=
             (text_fragment
                ("Total results: "
                 ++ Js.dec (match hits_total result with
                            | Some (TotalNumber n) => n
                            | Some (TotalObject value _) => value
                            | None => 0%Z
                            end)
                 ++ ", showing " ++ length_text (hits_hits result)
                 ++ " from position "
                 ++ Js.to_string (match Js.lookup "from" queryBody with
                                  | Js.Undefined | Js.Null => Js.Num 0
                                  | from => from
                                  end))
              :: match aggregations result with
                 | Some aggs =>
                     [ text_fragment
                         ("Aggregations: " ++ JSON_stringify (Js.Obj aggs) 2) ]
                 | None => []
                 end
              ++ map (fun hit => text_fragment (hit_text JSON_stringify hit))
                     (hits_hits result))%list |}
  /\ stderr (fst (search_tool client JSON_stringify index queryBody w)) = stderr w.
Proof.
  unfold search_tool, search_tool_try, try_catch, bind, search, await, ret.
  rewrite Hresult. cbv zeta. rewrite forEach_push_fragments.
  split; [|reflexivity].
  destruct (aggregations result); reflexivity.
Qed.

(** When the client returns the rows, [list_indices] and [get_shards]
    report their number, whatever the rows hold; [get_shards] names the
    index only when it is a non-empty string. *)
Theorem listings_count_the_rows (indexPattern : string) (index : option string)
    (indices shards : list Js.record) (w : World)
    (Hindices : client (client_cat_indices indexPattern "json"
                          "index,health,status,docs.count,store.size,pri,rep")
                = inr indices)
    (Hshards : client (client_cat_shards index "json") = inr shards) :
  (exists json,
      snd (list_indices client JSON_stringify parseInt indexPattern w)
      = inr {| content :=
                 [ text_fragment ("Found " ++ length_text indices
                                  ++ " indices matching pattern '" ++ indexPattern
                                  ++ "'");
                   text_fragment json ] |})
  /\ (exists json,
         snd (get_shards client JSON_stringify index w)
         = inr {| content :=
                    [ text_fragment
                        ("Found " ++ length_text shards ++ " shards"
                         ++ match index with
                            | Some (String a i) => " for index " ++ String a i
                            | _ => ""
                            end);
                      text_fragment json ] |}).
Proof.
  split.
  - unfold list_indices, list_indices_try, listIndices, try_catch, bind, await, ret.
    rewrite Hindices. cbv beta iota. cbn [snd]. eexists.
    unfold length_text. rewrite length_map. reflexivity.
  - unfold get_shards, get_shards_try, getShards, try_catch, bind, await, ret.
    rewrite Hshards. cbv beta iota. cbn [snd]. eexists.
    unfold length_text. rewrite length_map.
    destruct index as [[|a i]|]; reflexivity.
Qed.

(** When the response has no entry for the index, [get_mappings] shows
    the empty object. *)
Theorem missing_mappings_show_empty_object (index : string) (response : Js.record)
    (w : World)
    (Hresponse : client (client_indices_getMapping index) = inr response)
    (Hmissing : has_key index response = false) :
  snd (get_mappings client JSON_stringify index w)
  = inr {| content :=
             [ text_fragment ("Mappings for index: " ++ index);
               text_fragment (JSON_stringify (Js.Obj []) 2) ] |}.
Proof.
  unfold get_mappings, get_mappings_try, getMappings, try_catch, bind, await, ret.
  rewrite Hresponse. cbv beta iota.
  rewrite (lookup_without_key _ _ Hmissing). reflexivity.
Qed.

End SearchProperties.

Lemma search_request_takes_queryBody_witness :
  NoDup (Js.keys query_with_index)
  /\ exists request,
       requests (fst (search_tool quiet_client sample_stringify "logs" query_with_index
                        initial_world))
       = [client_search request]
       /\ Js.lookup "index" request = Js.Str "other".
Proof.
  assert (D : NoDup (Js.keys query_with_index)).
  { repeat constructor; cbn; intros H; repeat destruct H as [H|H]; discriminate H || exact H. }
  split; [exact D|].
  exact (search_request_takes_queryBody quiet_client sample_stringify "logs"
           query_with_index initial_world "index" D).
Defined.

Lemma search_envelope_fragments_witness :
  snd (search_tool client_with_one_hit sample_stringify "books" [] initial_world)
  = inr {| content :=
             [ text_fragment "Total results: 1, showing 1 from position 0";
               text_fragment
                 ("Document ID: d1" ++ nl ++ "Score: 1.5" ++ nl ++ nl
                  ++ "title (highlighted): <em>Rocq</em>" ++ nl ++ "year: 2025") ] |}
  /\ stderr (fst (search_tool client_with_one_hit sample_stringify "books" []
                    initial_world)) = [].
Proof.
  exact (search_envelope_fragments client_with_one_hit sample_stringify "books" []
           one_hit_result initial_world eq_refl).
Defined.

(** The source field [constructor] is not printed: every highlight
    object inherits a property of that name. *)
Example text_of_the_highlighted_hit :
  hit_text sample_stringify hit_d1
  = "Document ID: d1" ++ nl ++ "Score: 1.5" ++ nl ++ nl
    ++ "title (highlighted): <em>Rocq</em>" ++ nl ++ "year: 2025".
Proof. vm_compute. reflexivity. Qed.

Lemma listings_count_the_rows_witness :
  (exists json,
      snd (list_indices client_with_rows sample_stringify sample_parseInt "logs-*"
             initial_world)
      = inr {| content :=
                 [ text_fragment "Found 2 indices matching pattern 'logs-*'";
                   text_fragment json ] |})
  /\ (exists json,
         snd (get_shards client_with_rows sample_stringify (Some "") initial_world)
         = inr {| content := [ text_fragment "Found 1 shards"; text_fragment json ] |}).
Proof.
  exact (listings_count_the_rows client_with_rows sample_stringify sample_parseInt
           "logs-*" (Some "") _ _ initial_world eq_refl eq_refl).
Defined.

Lemma missing_mappings_show_empty_object_witness :
  snd (get_mappings quiet_client sample_stringify "absent" initial_world)
  = inr {| content :=
             [ text_fragment "Mappings for index: absent"; text_fragment "{}" ] |}.
Proof.
  exact (missing_mappings_show_empty_object quiet_client sample_stringify "absent" []
           initial_world eq_refl eq_refl).
Defined.

(** * Bulk: records, positions and accepted requests *)

Lemma or_truthy (a b : Js.value) : Js.truthy b = true -> Js.truthy (Js.or a b) = true.
Proof. unfold Js.or. destruct (Js.truthy a) eqn:E; auto. Qed.

(** The record a reported item adds. *)
Lemma summarize_item_record (summary : BulkSummary) (item : Js.record) (idx : nat) :
  item_reported item = true ->
  exists r,
    summary_actionResults (summarize_item summary item idx)
    = (summary_actionResults summary ++ [r])%list
    /\ record_filled r = true.
Proof.
  unfold summarize_item, item_reported. intros R. rewrite R. cbn [negb].
  destruct (Js.truthy (Js.get (item_result item) "error")) eqn:E;
    eexists; (split; [reflexivity|]).
  - unfold record_filled. cbn. rewrite !or_truthy by reflexivity. reflexivity.
  - unfold record_filled. cbn. rewrite !or_truthy by reflexivity. reflexivity.
Qed.

Lemma summarize_items_records (items : list Js.record) :
  forall (idx : nat) (summary : BulkSummary),
    Forall (fun r => record_filled r = true) (summary_actionResults summary) ->
    Forall (fun r => record_filled r = true)
           (summary_actionResults (forEach summarize_item items idx summary)).
Proof.
  induction items as [|item rest IH]; intros idx summary F; cbn [forEach];
    [exact F|].
  apply IH. destruct (item_reported item) eqn:R.
  - destruct (summarize_item_record summary item idx R) as (r & Hres & Hf).
    rewrite Hres. apply Forall_app. split; [exact F|].
    constructor; [exact Hf | constructor].
  - now rewrite (summarize_item_skips _ _ _ R).
Qed.

(** Every record of a summary has a truthy [id] and [index], and either
    a truthy [result] or an [error] with truthy [type] and [reason]: what the
    response leaves out or empty is replaced by its fallback, so the report
    never prints an empty or undefined reason or type. *)
Theorem summary_records_are_filled (response : BulkOperationResult) :
  Forall (fun r => record_filled r = true)
         (summary_actionResults (summarize response)).
Proof.
  unfold summarize.
  apply (summarize_items_records (bulk_items response) 0). constructor.
Qed.

Lemma compile_operations_flat (operations : list BulkOperation) :
  compile_operations operations = flat_map wire_entries operations.
Proof. unfold compile_operations. now rewrite forEach_push_operation. Qed.

(** Compilation distributes over concatenation, so the entries of an
    operation start where the entries of the operations before it end: its
    action descriptor sits at that wire position and its entries follow. *)
Theorem compile_is_positional (before : list BulkOperation) (op : BulkOperation)
    (after : list BulkOperation) :
  compile_operations (before ++ after)
  = (compile_operations before ++ compile_operations after)%list
  /\ nth_error (compile_operations (before ++ op :: after))
               (List.length (compile_operations before))
     = Some (action_descriptor op)
  /\ firstn (List.length (wire_entries op))
            (skipn (List.length (compile_operations before))
                   (compile_operations (before ++ op :: after)))
     = wire_entries op.
Proof.
  rewrite !compile_operations_flat, !flat_map_app. cbn [flat_map].
  split; [reflexivity|]. split.
  - rewrite nth_error_app2 by lia. now rewrite Nat.sub_diag.
  - rewrite skipn_app, Nat.sub_diag, skipn_all. cbn [skipn app].
    rewrite firstn_app, Nat.sub_diag, firstn_all. cbn [firstn]. now rewrite app_nil_r.
Qed.

Lemma valid_accepted_entries (op : BulkOperation) :
  operation_valid op = true ->
  accepted_entries op = Some (wire_entries op)
  /\ forallb is_object (wire_entries op) = true.
Proof.
  destruct op as [a i id d].
  unfold operation_valid, wire_entries, payload_entries, accepted_entries,
    action_descriptor, document_value.
  cbn [op_action op_id op_document op_index].
  destruct a, id as [[|c s]|], d; cbn; intros H; try discriminate; split; reflexivity.
Qed.

Lemma valid_accepted_wire (operations : list BulkOperation) :
  forallb operation_valid operations = true ->
  accepted_wire operations = Some (compile_operations operations)
  /\ forallb is_object (compile_operations operations) = true.
Proof.
  rewrite compile_operations_flat.
  induction operations as [|op rest IH]; intros H; [split; reflexivity|].
  cbn [forallb] in H. apply andb_prop in H. destruct H as [Hop Hrest].
  destruct (valid_accepted_entries op Hop) as [E O].
  destruct (IH Hrest) as [W F].
  cbn [accepted_wire flat_map]. rewrite E, W, forallb_app, O, F. split; reflexivity.
Qed.

Lemma no_issue_app (a b : list ZodIssue) :
  no_issue (a ++ b) = no_issue a && no_issue b.
Proof. destruct a; reflexivity. Qed.

Lemma nonempty_no_issue (s message : string) (path : list string) :
  no_issue (nonempty_issues s message path) = negb (s =? "").
Proof. destruct s; reflexivity. Qed.

Lemma trimmed_string_no_issue (v : Js.value) (message : string) (path : list string) :
  no_issue (trimmed_string_issues v message path) = index_accepted v.
Proof. destruct v; try reflexivity. apply nonempty_no_issue. Qed.

Lemma record_no_issue (v : Js.value) (path : list string) :
  no_issue (record_issues v path) = is_object v.
Proof. destruct v; reflexivity. Qed.

Lemma script_no_issue (v : Js.value) : no_issue (script_issues v) = script_accepted v.
Proof.
  destruct v; try reflexivity. cbn [script_issues script_accepted].
  rewrite no_issue_app. f_equal.
  - destruct (Js.lookup "source" fields); try reflexivity. apply nonempty_no_issue.
  - destruct (Js.lookup "params" fields); reflexivity.
Qed.

Lemma conflicts_no_issue (v : Js.value) (path : list string) :
  no_issue (conflicts_issues v path) = conflicts_accepted v.
Proof.
  destruct v; try reflexivity. cbn [conflicts_issues conflicts_accepted].
  destruct ((s =? "abort") || (s =? "proceed")); reflexivity.
Qed.

Lemma max_docs_no_issue (v : Js.value) (path : list string) :
  no_issue (max_docs_issues v path) = max_docs_accepted v.
Proof.
  destruct v; try reflexivity. cbn [max_docs_issues max_docs_accepted positive_issues].
  destruct (0 <? n)%Z; reflexivity.
Qed.

Lemma refresh_no_issue (v : Js.value) (path : list string) :
  no_issue (refresh_issues v path) = refresh_accepted v.
Proof. destruct v; reflexivity. Qed.

Lemma update_by_query_no_issue (args : Js.record) :
  no_issue (update_by_query_issues args) = update_arguments_accepted args.
Proof.
  unfold update_by_query_issues, update_arguments_accepted.
  rewrite !no_issue_app, trimmed_string_no_issue, record_no_issue, script_no_issue,
    conflicts_no_issue, max_docs_no_issue, refresh_no_issue.
  now rewrite !andb_assoc.
Qed.

Lemma delete_by_query_no_issue (args : Js.record) :
  no_issue (delete_by_query_issues args) = delete_arguments_accepted args.
Proof.
  unfold delete_by_query_issues, delete_arguments_accepted.
  rewrite !no_issue_app, trimmed_string_no_issue, record_no_issue,
    conflicts_no_issue, max_docs_no_issue, refresh_no_issue.
  now rewrite !andb_assoc.
Qed.

Section BulkSuccess.

Variable client : Client.

(** When every operation is valid, the one bulk request that is sent
    holds exactly the entries [accepted_wire] writes out, in the order of the
    operations: for each operation a descriptor that names the index and
    the operation's id when it has a non-empty one, which every update and
    delete has, followed by the document of an index or create and by
    [{doc: document}] of an update. Every entry is an object: no payload is
    undefined. *)
Theorem accepted_bulk_sends_only_objects (operations : list BulkOperation)
    (pipeline : option string) (w : World)
    (Hvalid : forallb operation_valid operations = true) :
  exists params,
    requests (fst (bulk_tool client operations pipeline w))
    = (requests w ++ [client_bulk params])%list
    /\ accepted_wire operations = Some (bulk_operations params)
    /\ forallb is_object (bulk_operations params) = true.
Proof.
  exists {| bulk_refresh := true;
            bulk_pipeline := pipeline;
            bulk_operations := compile_operations operations |}.
  split; [|exact (valid_accepted_wire operations Hvalid)].
  unfold bulk_tool, try_catch. rewrite bulk_tool_try_valid by assumption.
  cbv zeta. destruct (client _); reflexivity.
Qed.

(** When the operations are valid and the client resolves, the bulk
    handler returns the report [bulk_report] of the response and logs
    nothing, whatever the items of the response are. The report counts as
    successful the items whose result carries no error and as failed those
    whose result carries one, and lists the failed ones: failed items never
    turn the call into an error. *)
Theorem bulk_item_failures_are_reported_not_thrown (operations : list BulkOperation)
    (pipeline : option string) (response : BulkOperationResult) (w : World)
    (Hvalid : forallb operation_valid operations = true)
    (Hresponse :
       client (client_bulk {| bulk_refresh := true;
                              bulk_pipeline := pipeline;
                              bulk_operations := flat_map wire_entries operations |})
       = inr response) :
  bulk_tool client operations pipeline w
  = ({| requests :=
          (requests w ++
           [ client_bulk {| bulk_refresh := true;
                            bulk_pipeline := pipeline;
                            bulk_operations := flat_map wire_entries operations |} ])%list;
        stderr := stderr w |},
     inr {| content := [ text_fragment (bulk_report operations response) ] |}).
Proof.
  unfold bulk_tool, try_catch. rewrite bulk_tool_try_valid by assumption.
  cbv zeta. rewrite compile_operations_flat, Hresponse, bulk_text_is_report.
  reflexivity.
Qed.


(** The schema of [update_by_query] rejects an arguments object, so
    that no handler runs, exactly when one of these fails: [index] is a
    string that is not blank; [query] is an object; [script] is an object
    whose [source] is a non-empty string and whose [params], when given, is
    an object; [conflicts], when given, is "abort" or "proceed"; [maxDocs],
    when given, is a positive integer; [refresh], when given, is a boolean.
    The schema of [delete_by_query] rejects exactly when one of these but
    the one on [script] fails. *)
Theorem query_arguments_are_rejected_iff (update_args delete_args : Js.record) :
  ((exists issues, update_by_query_call client update_args = inl issues)
   <-> update_arguments_accepted update_args = false)
  /\ ((exists issues, delete_by_query_call client delete_args = inl issues)
      <-> delete_arguments_accepted delete_args = false).
Proof.
  rewrite <- update_by_query_no_issue, <- delete_by_query_no_issue.
  unfold update_by_query_call, delete_by_query_call.
  split.
  - destruct (update_by_query_issues update_args); cbn.
    + split; [intros [issues H]; discriminate | discriminate].
    + split; [reflexivity | intros _; eexists; reflexivity].
  - destruct (delete_by_query_issues delete_args); cbn.
    + split; [intros [issues H]; discriminate | discriminate].
    + split; [reflexivity | intros _; eexists; reflexivity].
Qed.

(** On an arguments object that the schema accepts, the call is the
    call on the arguments of the declared types that it parses to. *)
Lemma update_by_query_call_parsed (args : Js.record) :
  update_arguments_accepted args = true ->
  update_by_query_call client args
  = update_by_query_invoke client (update_by_query_parsed args).
Proof.
  intros H. pose proof H as A. rewrite <- update_by_query_no_issue in H.
  unfold update_by_query_call.
  destruct (update_by_query_issues args); [|discriminate H]. clear H.
  unfold update_arguments_accepted in A.
  repeat (apply andb_prop in A; destruct A as [A ?]).
  unfold update_by_query_invoke.
  assert (I : nonempty_issues (Js.trim (in_index (update_by_query_parsed args)))
                "Index name is required" ["index"] = []).
  { cbn [in_index update_by_query_parsed].
    destruct (Js.lookup "index" args); try discriminate.
    cbn [index_accepted] in A. unfold nonempty_issues.
    destruct (Js.trim s); [discriminate | reflexivity]. }
  assert (S : nonempty_issues (source (in_script (update_by_query_parsed args)))
                "Script source is required" ["script"; "source"] = []).
  { cbn [in_script source update_by_query_parsed].
    destruct (Js.lookup "script" args); try discriminate.
    cbn [script_accepted Js.get] in *.
    destruct (Js.lookup "source" fields); try discriminate.
    destruct s; [discriminate | reflexivity]. }
  assert (P : positive_issues (in_maxDocs (update_by_query_parsed args)) ["maxDocs"]
              = []).
  { cbn [in_maxDocs update_by_query_parsed].
    destruct (Js.lookup "maxDocs" args); try reflexivity.
    cbn [max_docs_accepted positive_issues] in *.
    destruct (0 <? n)%Z; [reflexivity | discriminate]. }
  cbv zeta. rewrite I, S, P. reflexivity.
Qed.


Lemma delete_by_query_call_parsed (args : Js.record) :
  delete_arguments_accepted args = true ->
  delete_by_query_call client args
  = delete_by_query_invoke client (delete_by_query_parsed args).
Proof.
  intros H. pose proof H as A. rewrite <- delete_by_query_no_issue in H.
  unfold delete_by_query_call.
  destruct (delete_by_query_issues args); [|discriminate H]. clear H.
  unfold delete_arguments_accepted in A.
  repeat (apply andb_prop in A; destruct A as [A ?]).
  unfold delete_by_query_invoke.
  assert (I : nonempty_issues (Js.trim (din_index (delete_by_query_parsed args)))
                "Index name is required" ["index"] = []).
  { cbn [din_index delete_by_query_parsed].
    destruct (Js.lookup "index" args); try discriminate.
    cbn [index_accepted] in A. unfold nonempty_issues.
    destruct (Js.trim s); [discriminate | reflexivity]. }
  assert (P : positive_issues (din_maxDocs (delete_by_query_parsed args)) ["maxDocs"]
              = []).
  { cbn [din_maxDocs delete_by_query_parsed].
    destruct (Js.lookup "maxDocs" args); try reflexivity.
    cbn [max_docs_accepted positive_issues] in *.
    destruct (0 <? n)%Z; [reflexivity | discriminate]. }
  cbv zeta. rewrite I, P. reflexivity.
Qed.

End BulkSuccess.

Lemma accepted_bulk_sends_only_objects_witness :
  exists params,
    requests (fst (bulk_tool quiet_client [ index_doc_x; delete_doc_1 ] None
                     initial_world))
    = [client_bulk params]
    /\ accepted_wire [ index_doc_x; delete_doc_1 ] = Some (bulk_operations params)
    /\ forallb is_object (bulk_operations params) = true.
Proof.
  exact (accepted_bulk_sends_only_objects quiet_client [ index_doc_x; delete_doc_1 ]
           None initial_world eq_refl).
Defined.

Lemma bulk_item_failures_are_reported_not_thrown_witness :
  bulk_tool client_with_failed_delete [ index_doc_x; delete_doc_1 ] None initial_world
  = ({| requests :=
          [ client_bulk
              {| bulk_refresh := true;
                 bulk_pipeline := None;
                 bulk_operations :=
                   [ Js.Obj [("index", Js.Obj [("_index", Js.Str "a")])];
                     Js.Obj [("x", Js.Num 1)];
                     Js.Obj [("delete", Js.Obj [ ("_index", Js.Str "a");
                                                 ("_id", Js.Str "1") ])] ] |} ];
        stderr := [] |},
     inr {| content :=
              [ text_fragment
                  ("Bulk operation completed in 7ms" ++ nl
                   ++ "- Total operations: 2" ++ nl
                   ++ "- Successful: 1" ++ nl
                   ++ "- Failed: 1" ++ nl ++ nl
                   ++ "Failures:" ++ nl
                   ++ "1. Operation #1 (delete): missing [not_found]" ++ nl) ] |}).
Proof.
  exact (bulk_item_failures_are_reported_not_thrown client_with_failed_delete
           [ index_doc_x; delete_doc_1 ] None response_created_and_failed
           initial_world eq_refl eq_refl).
Defined.


(** An index with a trailing no-break space is sent trimmed. *)
Example index_is_trimmed_of_a_no_break_space :
  exists handler,
    update_by_query_call quiet_client
      [ ("index", Js.Str ("logs" ++ nbsp)); ("query", Js.Obj []);
        ("script", Js.Obj [ ("source", Js.Str "ctx._source.n = 1") ]) ]
    = inr handler
    /\ requests (fst (handler initial_world))
       = [ client_updateByQuery
             {| ubq_index := "logs";
                ubq_body_query := [];
                ubq_body_script_source := "ctx._source.n = 1";
                ubq_body_script_params := None;
                ubq_refresh := true;
                ubq_conflicts := None;
                ubq_max_docs := None |} ].
Proof. eexists. split; reflexivity. Qed.

(** A fractional maxDocs, a missing script, a conflicts value outside
    the enum and a blank index are each rejected. *)
Example ill_typed_arguments_are_rejected :
  update_by_query_call quiet_client
    [ ("index", Js.Str "logs"); ("query", Js.Obj []);
      ("script", Js.Obj [ ("source", Js.Str "ctx._source.n = 1") ]);
      ("maxDocs", Js.Float "1.5") ]
  = inl [ {| issue_message := "Expected integer, received float";
             issue_path := ["maxDocs"] |} ]
  /\ update_by_query_call quiet_client
       [ ("index", Js.Str "logs"); ("query", Js.Obj []) ]
     = inl [ {| issue_message := "Required"; issue_path := ["script"] |} ]
  /\ delete_by_query_call quiet_client
       [ ("index", Js.Str "logs"); ("query", Js.Obj []); ("conflicts", Js.Str "skip") ]
     = inl [ {| issue_message :=
                  "Invalid enum value. Expected 'abort' | 'proceed', received 'skip'";
                issue_path := ["conflicts"] |} ]
  /\ delete_by_query_call quiet_client
       [ ("index", Js.Str (nbsp ++ " ")); ("query", Js.Obj []) ]
     = inl [ {| issue_message := "Index name is required"; issue_path := ["index"] |} ].
Proof. repeat split. Qed.
